(* ===== verification/_CoqProject ===== *)
-Q . S2P
Prelude.v
Regex.v
Decimal.v
Otp.v
Validators.v
Store.v
AuthSpec.v
Theme.v
Login.v
LoginView.v
LoginProps.v
Refinement.v
LoginScenarios.v
Dashboard.v
Settings.v
SettingsProps.v
Charts.v
