(* ===== verification/Prelude.v ===== *)
(** * Finomo: a verification development of the sign-in and settings pages

    The repository (Bhadraraj/Finomo, a Next.js/TypeScript front end) has
    three pages with state-transition logic: the sign-in page
    [src/app/login/page.tsx] ([AuthPage]), the dashboard landing page
    [src/app/page.tsx] and the settings page [src/app/settings/page.tsx]
    ([SettingsPage]); the three dashboard widgets under
    [src/components/dashboard/] compute their charts from constant data.
    This development models the pages and the widgets' computations as
    Rocq functions and step relations and proves what makes them correct.

    ** How the parts interact

    - The three zod schemas of [login/page.tsx] ([phoneSchema],
      [emailSchema], [registerSchema]) gate every form submission
      ([handleSubmit] of react-hook-form runs the resolver and calls the
      handler only when the schema accepts the values).
    - [AuthPage] keeps its state in [useState] hooks (the mode among four
      forms, the code step, the issued and typed codes, the banners); its
      handlers update them by sequences of setter calls.  On success it
      calls [login] of the session store ([useAuthStore], in [src/lib],
      not under [src/]) and [router.push("/")]; the dashboard page then
      reads the store and renders or redirects by role.
    - The module-level array [mockRegisteredUsers] is shared by every
      mount of the sign-in page; [onRegister] pushes into it.
    - [SettingsPage] is independent of the others: its handlers change
      its own hooks and reach the outside world through [alert], toasts
      scheduled with [setTimeout], and [URL.createObjectURL] /
      [URL.revokeObjectURL].

    ** Files, in dependency order, and what they model

    - [Prelude] (this file): the scope [finomo_scope] with the notation
      [u1 ;; u2] of setter sequences, the closure [star] of a step
      relation, its rule induction [star_invariant] and the simulation
      diagram [simulation_star] (a step of one system matched by steps of
      another lifts to runs), the character
      predicates, the tactics and the hint databases [finomo] and
      [finomo_rw].
    - [Regex]: the fragment of JavaScript regular expressions the code
      uses, a relational semantics [matches] (the specification) and the
      backtracking matcher behind anchored [test], proved sound and
      complete for it ([test_anchored_correct]).
    - [Decimal]: [Number.prototype.toString] on non-negative safe
      integers ([to_dec]) and its inverse; round trip and injectivity;
      the fuel-bounded digit loop computes the unbounded, terminating
      loop [digits_loop] (a [Function] on the measure [n]).
    - [Otp]: [generateOTP] (lines 62-63) with [Math.random()] as a sample
      [k / 2^53]; the code is six digits without a leading zero, and the
      generator is uniform up to one sample per code.
    - [Validators]: zod's [regex], [email] and [min] checks, with the
      email check an interface ([Class EmailValidator]) and zod 3's check
      its instance; the three schemas of the sign-in page and what each
      reports.
    - [Store]: the interface the pages need of [useAuthStore] ([Class
      AuthStore] with its laws [AuthStoreLaws]) and a zustand model, from
      the spec since the store is not under [src/].
    - [AuthSpec]: the specification's abstract authentication machine,
      independent of the code: the mode, the one-time-code step, the
      issued code, the number carried to registration, the session and
      the route, and one rule per operation of the spec (issue a code for
      a number of the spec's shape, verify, resend, reset, select an
      entry, sign in with the directory's credentials, register data the
      contract accepts).
    - [Theme]: the theme card of the settings page (colour options,
      dark switch), proved against the interface [Store.ThemeStore].
    - [Login]: the sign-in page: [Page] is its hooks, [World] adds the
      store, the route and the registered users; each handler is an
      [upd] built from the setters; [Event], [enabled] (what the JSX
      renders) and [dispatch] give the step relation [page_step].
    - [LoginView]: what the sign-in page renders (forms, field errors,
      alerts, buttons, footer links); the registration form shows exactly
      the resolver's errors.
    - [LoginProps]: the page invariant over reachable states, the
      behaviour of each handler on each branch, with witnesses.
    - [Refinement]: the page implements [AuthSpec]: an abstraction [abs]
      of the page's world, each accepted event on a reachable page one
      spec operation ([step_simulated]), and every run of the page from
      its first render a run of the spec ([page_refines_spec]).
    - [LoginScenarios]: complete runs: phone sign-in and sign-up succeed
      for every valid input, a session is reachable from every state, and
      the spec's scenarios evaluated.
    - [Dashboard]: the effect and render of [src/app/page.tsx], and the
      hand-off from the sign-in page ([handoff_admin]).
    - [Settings]: the settings page: its hooks grouped in [Profile],
      [Linked], [Security], [Prefs], the outside effects in [Env], one
      definition per handler ([handleProfilePhotoChange],
      [handleAddAccountSubmit], [handleRemoveAccountConfirm],
      [handleUpdatePasswordSubmit], [handleDeleteAccountConfirm],
      [toggleNotification], [handleSaveProfile] and its timer) and per
      inline callback, the string operations they use ([toLowerCase],
      [replace], [trim], [slice], [split]), the dialogs' effects (scroll
      lock, Escape), the rendered avatar and account rows, and the event
      layer, where each commit runs the dialogs' effects.
    - [SettingsProps]: the settings invariant (no leaked object URL, at
      most four digits per account, scroll locked exactly while a dialog
      is open) over reachable states, what the page then shows, and each
      handler's behaviour, with witnesses.
    - [Charts]: the widgets: the series of [DebitReductionChart.tsx] by
      period, their enrichment with [__idx] and [payloadsRef], the
      tooltip (its guard, rows, change and colour) and the range of its
      reads, the axis ticks, the composition's total, cells and legend in
      [DebitComposition.tsx] and the cards of [StatsCards.tsx]; [toLocaleString], which depends on the
      runtime's locale, is a parameter.

    ** Bounds and fuel

    [Decimal.to_dec] recurses on a fuel of 16 digits, enough for every
    safe integer below [10^16 > 2^53]; the theorems carry the bound
    [n < 10^16], which the OTP codes and [Date.now()] values meet.  The
    regex matcher recurses structurally on the pattern and on the input;
    bounded repetitions count down.  [Math.random()] is a 53-bit sample,
    the precision of a double in [0, 1), and arithmetic on it is exact.

    ** Not modelled

    Styling (class names, icons, layout), [console.log], the timers that
    only remove toast elements, the DOM of the file input, the stores
    themselves ([useAuthStore], [useThemeStore] in [src/lib], not under
    [src/]: interfaces with a zustand instance), [Layout]'s role check,
    the drawing of the charts, and the libraries the sources call
    (React, Next.js, zod internals, input-otp, recharts), which appear
    only through the interface the code uses.  Characters are ASCII:
    white space of [\s] beyond ASCII is not represented. *)

From Stdlib Require Import String Ascii List Bool Lia ZArith.
Import ListNotations.

Declare Scope finomo_scope.
Delimit Scope finomo_scope with finomo.

(** ** Sequences of state updates

    A React event handler issues a sequence of [setX(v)] calls; with plain
    values, applying them in order gives the state React commits after
    batching (the last write to a field wins).  An update is a function on
    the state, and [u1 ;; u2] runs [u1] then [u2]. *)

Definition upd (S : Type) := S -> S.

Definition seq_upd {S : Type} (u1 u2 : upd S) : upd S := fun s => u2 (u1 s).

Definition skip {S : Type} : upd S := fun s => s.

Notation "u1 ;; u2" := (seq_upd u1 u2)
  (at level 61, right associativity) : finomo_scope.

Open Scope finomo_scope.

Lemma seq_upd_apply {S : Type} (u1 u2 : upd S) (s : S) :
  (u1 ;; u2) s = u2 (u1 s).
Proof. reflexivity. Qed.

(** ** Reflexive-transitive closure of a step relation *)

Section Star.
Context {A : Type} (R : A -> A -> Prop).

Inductive star : A -> A -> Prop :=
| star_refl a : star a a
| star_step a b c : R a b -> star b c -> star a c.

Lemma star_one a b : R a b -> star a b.
Proof. eauto using star. Qed.

Lemma star_trans a b c : star a b -> star b c -> star a c.
Proof. induction 1; eauto using star. Qed.

Lemma star_right a b c : star a b -> R b c -> star a c.
Proof. eauto using star_trans, star_one. Qed.

(** An invariant preserved by every step holds after any number of
    steps: the rule induction every reachability proof reuses. *)
Lemma star_invariant (P : A -> Prop) :
  (forall a b, P a -> R a b -> P b) ->
  forall a b, star a b -> P a -> P b.
Proof. intros Hpres a b H. induction H; eauto. Qed.
End Star.

Arguments star_refl {A R a}.

(** ** Simulation diagrams

    A relation [rel] between the configurations of two transition systems
    is a simulation when each step of the first is matched by some steps
    of the second that re-establish [rel]; it then extends to sequences
    of steps (the diagram of [Simulation.simulation_star] in Leroy's
    course, without the measure since no step of the first is left
    unmatched). *)

Section Simulation.
Context {C1 C2 : Type} (step1 : C1 -> C1 -> Prop) (step2 : C2 -> C2 -> Prop) (rel : C1 -> C2 -> Prop).

Hypothesis simulation :
  forall c1 c1' c2, step1 c1 c1' -> rel c1 c2 -> exists c2', star step2 c2 c2' /\ rel c1' c2'.

Lemma simulation_star c1 c1' c2 :
  star step1 c1 c1' -> rel c1 c2 -> exists c2', star step2 c2 c2' /\ rel c1' c2'.
Proof.
  intros H. revert c2. induction H as [a | a b c Hab Hbc IH]; intros c2 Hr.
  - exists c2. split; [apply star_refl | exact Hr].
  - destruct (simulation a b c2 Hab Hr) as (c2' & Hs & Hr').
    destruct (IH c2' Hr') as (c2'' & Hs' & Hr''). exists c2''. split; [eapply star_trans; eauto | exact Hr''].
Qed.
End Simulation.

(** ** Characters and strings *)

Definition is_digit (c : ascii) : bool :=
  let n := nat_of_ascii c in (48 <=? n) && (n <=? 57).

Definition is_nonzero_digit (c : ascii) : bool :=
  let n := nat_of_ascii c in (49 <=? n) && (n <=? 57).

Definition all_digits (l : list ascii) : bool := forallb is_digit l.

Lemma nonzero_digit_is_digit c : is_nonzero_digit c = true -> is_digit c = true.
Proof.
  unfold is_nonzero_digit, is_digit.
  rewrite !andb_true_iff, !Nat.leb_le. lia.
Qed.

Lemma all_digits_app l1 l2 :
  all_digits (l1 ++ l2) = all_digits l1 && all_digits l2.
Proof. apply forallb_app. Qed.

Lemma string_eqb_refl_true (s : string) : String.eqb s s = true.
Proof. apply String.eqb_refl. Qed.

Lemma length_list_ascii_of_string (s : string) :
  List.length (list_ascii_of_string s) = String.length s.
Proof. induction s; simpl; congruence. Qed.

(** ** Automation *)

Create HintDb finomo discriminated.
#[export] Hint Resolve star_refl star_one nonzero_digit_is_digit : finomo.
Create Rewrite HintDb finomo_rw.
#[export] Hint Rewrite @seq_upd_apply all_digits_app string_eqb_refl_true : finomo_rw.

(** [inv H] inverts [H] and substitutes; [case_if] splits the first
    [if] of the goal, naming the equation of its test. *)
Ltac inv H := inversion H; subst; clear H.

Ltac case_if :=
  match goal with
  | |- context [if ?b then _ else _] => let E := fresh "E" in destruct b eqn:E
  end.

(** [bool_to_prop] turns the boolean tests the code makes into the
    propositions they decide. *)
Ltac bool_to_prop :=
  repeat match goal with
  | H : (_ && _)%bool = true |- _ => apply andb_true_iff in H as [? ?]
  | H : (_ =? _)%string = true |- _ => apply String.eqb_eq in H
  | H : (_ =? _)%string = false |- _ => apply String.eqb_neq in H
  | H : (_ <=? _)%nat = true |- _ => apply Nat.leb_le in H
  | H : (_ <=? _)%nat = false |- _ => apply Nat.leb_gt in H
  | H : (_ =? _)%nat = true |- _ => apply Nat.eqb_eq in H
  | H : (_ =? _)%nat = false |- _ => apply Nat.eqb_neq in H
  end.
