(* ===== verification/Regex.v ===== *)
(** * Regular expressions of the schemas

    The zod schemas of [src/app/login/page.tsx] check the phone field with
    [z.string().regex(/^\+?[1-9]\d{9,14}$/)], which runs JavaScript's
    [RegExp.prototype.test].  This file models the fragment of JavaScript
    regular expressions such a pattern uses: character classes ([\d],
    ranges, literal characters), concatenation, alternation and bounded
    greedy repetition ([?] is [{0,1}]).

    - [matches r p] is the relational semantics: the abstract
      specification of which inputs a pattern denotes.
    - [rests r s] is the executable backtracking matcher: the list of the
      suffixes of [s] left after [r] matched a prefix, in the order a
      greedy backtracking engine tries them.
    - [test_anchored r s] is [test] on a pattern anchored by [^] and [$]
      (no multiline flag): some match consumes the whole input.

    [rests_correct] proves the matcher sound and complete for the
    semantics; [test_anchored_correct] lifts it to anchored [test].
    Inputs are lists of ASCII characters: a UTF-16 code unit outside
    ASCII is not modelled (no class of the patterns matches one). *)

From Stdlib Require Import String Ascii List Bool Arith Lia.
From S2P Require Import Prelude.
Import ListNotations.

Module Regex.

(** Character classes. *)
Inductive cls : Type :=
| CChar (a : ascii)             (** a literal character, e.g. [\+] *)
| CRange (lo hi : ascii)        (** [[lo-hi]] *)
| CDigit                        (** [\d], i.e. [[0-9]] *)
| CUnion (c1 c2 : cls).         (** [[...]] with several members *)

Fixpoint cls_match (c : cls) (a : ascii) : bool :=
  match c with
  | CChar b => Ascii.eqb a b
  | CRange lo hi =>
      (nat_of_ascii lo <=? nat_of_ascii a)%nat && (nat_of_ascii a <=? nat_of_ascii hi)%nat
  | CDigit => is_digit a
  | CUnion c1 c2 => cls_match c1 a || cls_match c2 a
  end.

Inductive regex : Type :=
| Eps                           (** the empty pattern *)
| Cls (c : cls)                 (** one character of a class *)
| Cat (r1 r2 : regex)           (** [r1 r2] *)
| Alt (r1 r2 : regex)           (** [r1|r2] *)
| Rep (r : regex) (m n : nat).  (** [r{m,n}], greedy *)

(** [r?] is [r{0,1}]. *)
Definition Opt (r : regex) : regex := Rep r 0 1.

(** ** Relational semantics *)
Inductive matches : regex -> list ascii -> Prop :=
| m_eps : matches Eps []
| m_cls c a : cls_match c a = true -> matches (Cls c) [a]
| m_cat r1 r2 p1 p2 : matches r1 p1 -> matches r2 p2 -> matches (Cat r1 r2) (p1 ++ p2)
| m_altl r1 r2 p : matches r1 p -> matches (Alt r1 r2) p
| m_altr r1 r2 p : matches r2 p -> matches (Alt r1 r2) p
| m_rep_stop r n : matches (Rep r 0 n) []
| m_rep_more r m n p1 p2 :
    matches r p1 -> matches (Rep r (m - 1) n) p2 -> matches (Rep r m (S n)) (p1 ++ p2).

(** ** Backtracking matcher *)

(** The suffixes left by [m] to [n] repetitions of a pattern whose own
    suffix function is [f]; more repetitions are tried first (greedy). *)
Fixpoint rep_rests (f : list ascii -> list (list ascii)) (m n : nat) (s : list ascii)
  : list (list ascii) :=
  match n with
  | 0 => if (m =? 0)%nat then [s] else []
  | S n' => flat_map (rep_rests f (m - 1) n') (f s) ++ (if (m =? 0)%nat then [s] else [])
  end.

Fixpoint rests (r : regex) (s : list ascii) : list (list ascii) :=
  match r with
  | Eps => [s]
  | Cls c => match s with
             | a :: t => if cls_match c a then [t] else []
             | [] => []
             end
  | Cat r1 r2 => flat_map (rests r2) (rests r1 s)
  | Alt r1 r2 => rests r1 s ++ rests r2 s
  | Rep r1 m n => rep_rests (rests r1) m n s
  end.

Definition test_anchored (r : regex) (s : list ascii) : bool :=
  existsb (fun t => match t with [] => true | _ => false end) (rests r s).

(** ** Correctness of the matcher *)

(** The specification a suffix function meets for a pattern. *)
Definition rests_spec (r : regex) (f : list ascii -> list (list ascii)) : Prop :=
  forall s t, In t (f s) <-> exists p, s = p ++ t /\ matches r p.

Lemma matches_Rep_inv r m n p :
  matches (Rep r m n) p ->
  (m = 0 /\ p = []) \/
  exists n' p1 p2, n = S n' /\ p = p1 ++ p2 /\ matches r p1 /\ matches (Rep r (m - 1) n') p2.
Proof. intros H. inv H; [left; auto | right; eauto 7]. Qed.

Lemma rep_rests_correct r f :
  rests_spec r f -> forall n m, rests_spec (Rep r m n) (rep_rests f m n).
Proof.
  intros Hf n. induction n as [|n IH]; intros m s t; simpl.
  - destruct (Nat.eqb_spec m 0) as [->|Hm]; simpl.
    + split.
      * intros [<-|[]]. exists []. split; [reflexivity | constructor].
      * intros (p & -> & Hp). apply matches_Rep_inv in Hp as [[_ ->]|(? & ? & ? & ? & _)];
          [auto | discriminate].
    + split; [intros []|].
      intros (p & _ & Hp). apply matches_Rep_inv in Hp as [[? _]|(? & ? & ? & ? & _)];
        [contradiction | discriminate].
  - rewrite in_app_iff, in_flat_map. split.
    + intros [(u & Hu & Ht)|Hstop].
      * apply Hf in Hu as (p1 & -> & Hp1). apply IH in Ht as (p2 & -> & Hp2).
        exists (p1 ++ p2). split; [apply app_assoc | constructor; assumption].
      * destruct (Nat.eqb_spec m 0) as [->|]; [|destruct Hstop].
        destruct Hstop as [<-|[]]. exists []. split; [reflexivity | constructor].
    + intros (p & -> & Hp). apply matches_Rep_inv in Hp as [[-> ->]|(n' & p1 & p2 & Hn & -> & H1 & H2)].
      * right. simpl. auto.
      * injection Hn as <-. left. exists (p2 ++ t). split.
        -- apply Hf. exists p1. split; [symmetry; apply app_assoc | assumption].
        -- apply IH. eauto.
Qed.

Lemma rests_correct r : rests_spec r (rests r).
Proof.
  induction r as [|c|r1 IH1 r2 IH2|r1 IH1 r2 IH2|r IH m n]; intros s t; simpl.
  - split.
    + intros [<-|[]]. exists []. split; [reflexivity | constructor].
    + intros (p & -> & Hp). inv Hp. auto.
  - split.
    + destruct s as [|a s]; [intros []|]. destruct (cls_match c a) eqn:E; [|intros []].
      intros [<-|[]]. exists [a]. split; [reflexivity | constructor; assumption].
    + intros (p & -> & Hp). inversion Hp as [| c0 a Ha | | | | |]; subst. simpl. rewrite Ha. left; reflexivity.
  - rewrite in_flat_map. split.
    + intros (u & Hu & Ht). apply IH1 in Hu as (p1 & -> & Hp1).
      apply IH2 in Ht as (p2 & -> & Hp2).
      exists (p1 ++ p2). split; [apply app_assoc | constructor; assumption].
    + intros (p & -> & Hp). inv Hp. exists (p2 ++ t). split.
      * apply IH1. exists p1. split; [symmetry; apply app_assoc | assumption].
      * apply IH2. eauto.
  - rewrite in_app_iff, (IH1 s t), (IH2 s t). split.
    + intros [(p & -> & Hp)|(p & -> & Hp)]; exists p; split; auto; constructor; assumption.
    + intros (p & -> & Hp). inv Hp; [left|right]; eauto.
  - apply rep_rests_correct. exact IH.
Qed.

Lemma existsb_nil_In (l : list (list ascii)) :
  existsb (fun t => match t with [] => true | _ => false end) l = true <-> In [] l.
Proof.
  rewrite existsb_exists. split.
  - intros ([|a t] & Hin & Ht); [assumption | discriminate].
  - intros Hin. exists []. auto.
Qed.

Lemma test_anchored_iff r s : test_anchored r s = true <-> matches r s.
Proof.
  unfold test_anchored. rewrite existsb_nil_In, (rests_correct r s []). split.
  - intros (p & -> & Hp). rewrite app_nil_r. assumption.
  - intros Hp. exists s. rewrite app_nil_r. auto.
Qed.


(** ** Inversion lemmas for the shapes the schemas use *)

Lemma matches_Cls_iff c p : matches (Cls c) p <-> exists a, p = [a] /\ cls_match c a = true.
Proof.
  split.
  - intros H. inversion H as [|c0 a Ha| | | | |]; subst. eauto.
  - intros (a & -> & Ha). constructor. exact Ha.
Qed.

Lemma matches_Cat_iff r1 r2 p :
  matches (Cat r1 r2) p <-> exists p1 p2, p = p1 ++ p2 /\ matches r1 p1 /\ matches r2 p2.
Proof.
  split.
  - intros H. inv H. eauto.
  - intros (p1 & p2 & -> & H1 & H2). constructor; assumption.
Qed.

(** [c{m,n}] denotes the words of [m] to [n] characters of class [c]. *)
Lemma matches_Rep_Cls_iff c n m p :
  matches (Rep (Cls c) m n) p <-> forallb (cls_match c) p = true /\ m <= length p <= n.
Proof.
  revert m p. induction n as [|n IH]; intros m p.
  - split.
    + intros H. apply matches_Rep_inv in H as [[-> ->]|(? & ? & ? & ? & _)]; [simpl; lia|discriminate].
    + intros [_ Hl]. destruct p; [|simpl in Hl; lia].
      replace m with 0 by lia. constructor.
  - split.
    + intros H. apply matches_Rep_inv in H as [[-> ->]|(n' & p1 & p2 & Hn & -> & H1 & H2)];
        [simpl; lia|].
      injection Hn as <-. apply matches_Cls_iff in H1 as (a & -> & Ha).
      apply IH in H2 as [Hf Hl]. simpl. rewrite Ha, Hf. simpl. lia.
    + intros [Hf Hl]. destruct p as [|a p].
      * replace m with 0 by (simpl in Hl; lia). constructor.
      * simpl in Hf, Hl. apply andb_true_iff in Hf as [Ha Hf].
        change (a :: p) with ([a] ++ p). constructor.
        -- apply matches_Cls_iff. eauto.
        -- apply IH. split; [assumption | lia].
Qed.

End Regex.
