(* ===== verification/Otp.v ===== *)
(** * The one-time code generator

    [src/app/login/page.tsx], lines 62-63:
    [const generateOTP = () => Math.floor(100000 + Math.random() * 900000).toString();]

    [Math.random()] returns a double in [[0, 1)]; V8 and the other engines
    produce it as [k / 2^53] for a 53-bit integer sample [k] (at most 53
    random bits fit a double's significand).  The sample is the input of
    the model: [generateOTP_value k] is the code as an integer,
    [generateOTP k] its string.  The product and the sum are taken in exact
    rational arithmetic: [floor(100000 + k * 900000 / 2^53)] is
    [100000 + (k * 900000) / 2^53] with [Z] division, which rounds down.

    Proved here: every sample gives a code in [[100000, 999999]] whose
    string has six digits and no leading zero ([generateOTP_is_code]);
    the samples that give a code form the interval
    [[sample_lo a, sample_lo (a + 1))] ([generateOTP_value_preimage]), so
    every code is produced and each by [2^53 / 900000] or one more
    samples: the generator is uniform up to one sample in ten billion. *)

From Stdlib Require Import String Ascii List Bool Arith ZArith Lia.
From S2P Require Import Prelude Decimal.
Import ListNotations.
Open Scope Z_scope.

Module Otp.

(** A [Math.random()] sample [k / 2^53]. *)
Definition random_scale : Z := 2 ^ 53.

Definition valid_sample (k : Z) : bool := (0 <=? k) && (k <? random_scale).

(** [Math.floor(100000 + Math.random() * 900000)]. *)
Definition generateOTP_value (k : Z) : Z := 100000 + (k * 900000) / random_scale.

(** [...toString()]. *)
Definition generateOTP (k : Z) : string := Decimal.to_dec (generateOTP_value k).

(** What the page treats as a complete code: the OTP input has six slots
    and the verify button is enabled at length six. *)
Definition is_otp_code (s : string) : bool :=
  (String.length s =? 6)%nat && all_digits (list_ascii_of_string s).

(** The first sample giving code [100000 + a]: [ceil(a * 2^53 / 900000)]. *)
Definition sample_lo (a : Z) : Z := (a * random_scale + 899999) / 900000.

(** ** Arithmetic of the floor and the ceiling *)

Lemma random_scale_pos : 0 < random_scale.
Proof. reflexivity. Qed.

Lemma floor_div_eq_iff x d a : 0 < d -> (x / d = a <-> a * d <= x < (a + 1) * d).
Proof.
  intros Hd. pose proof (Z.div_mod x d). pose proof (Z.mod_pos_bound x d Hd).
  split.
  - intros <-. nia.
  - intros Hx. apply Z.le_antisymm.
    + apply Z.lt_succ_r. apply Z.div_lt_upper_bound; lia.
    + apply Z.div_le_lower_bound; lia.
Qed.

Lemma ceil_div_le_iff x d k : 0 < d -> ((x + d - 1) / d <= k <-> x <= k * d).
Proof.
  intros Hd. pose proof (Z.div_mod (x + d - 1) d). pose proof (Z.mod_pos_bound (x + d - 1) d Hd).
  split; intros Hk; nia.
Qed.

(** ** Bounds and shape of a code *)

Lemma generateOTP_value_bounds k :
  valid_sample k = true -> 100000 <= generateOTP_value k <= 999999.
Proof.
  unfold valid_sample, generateOTP_value. rewrite andb_true_iff, Z.leb_le, Z.ltb_lt.
  intros Hk. pose proof random_scale_pos. split.
  - pose proof (Z.div_pos (k * 900000) random_scale). lia.
  - enough ((k * 900000) / random_scale < 900000) by lia.
    apply Z.div_lt_upper_bound; lia.
Qed.

Lemma generateOTP_chars k :
  valid_sample k = true ->
  exists c l, list_ascii_of_string (generateOTP k) = c :: l /\
    is_nonzero_digit c = true /\ all_digits l = true /\ length l = 5%nat.
Proof.
  intros Hk. pose proof (generateOTP_value_bounds k Hk) as Hb.
  unfold generateOTP. rewrite Decimal.to_dec_chars.
  destruct (Decimal.digits_rev_last_nonzero Decimal.safe_digits (generateOTP_value k))
    as (l & c & Heq & Hc); [rewrite Decimal.safe_digits_pow; lia|].
  assert (Hlen : length (Decimal.digits_rev Decimal.safe_digits (generateOTP_value k)) = 6%nat).
  { apply Decimal.digits_rev_length; [unfold Decimal.safe_digits; lia | change (100000 <= generateOTP_value k < 1000000); lia]. }
  pose proof (Decimal.digits_rev_all_digits Decimal.safe_digits (generateOTP_value k)) as Hd.
  rewrite Heq in *. rewrite rev_app_distr. exists c, (rev l). simpl. split; [reflexivity|].
  rewrite length_app in Hlen. simpl in Hlen.
  rewrite all_digits_app in Hd. apply andb_true_iff in Hd as [Hd _]; [|lia].
  unfold all_digits in *. rewrite forallb_forall in *. repeat split; auto.
  - intros x Hx. apply Hd. apply in_rev. exact Hx.
  - rewrite length_rev. lia.
Qed.

Lemma generateOTP_code k :
  valid_sample k = true -> is_otp_code (generateOTP k) = true.
Proof.
  intros Hk. destruct (generateOTP_chars k Hk) as (c & l & Heq & Hc & Hl & Hlen).
  unfold is_otp_code. rewrite <- length_list_ascii_of_string, Heq.
  change (all_digits (c :: l)) with (is_digit c && all_digits l). cbn [length].
  rewrite Hlen, Hl, (nonzero_digit_is_digit c Hc). reflexivity.
Qed.

(** C26: Every sample gives a six-digit code without a leading zero. *)
Theorem generateOTP_is_code k :
  valid_sample k = true ->
  is_otp_code (generateOTP k) = true /\
  exists c, String.get 0 (generateOTP k) = Some c /\ is_nonzero_digit c = true.
Proof.
  intros Hk. split; [apply generateOTP_code; exact Hk|].
  destruct (generateOTP_chars k Hk) as (c & l & Heq & Hc & _).
  exists c. split; [|exact Hc].
  rewrite <- (string_of_list_ascii_of_string (generateOTP k)), Heq. reflexivity.
Qed.

(** Two samples give the same string exactly when they give the same code. *)
Lemma generateOTP_eq_iff k1 k2 :
  valid_sample k1 = true -> valid_sample k2 = true ->
  generateOTP k1 = generateOTP k2 <-> generateOTP_value k1 = generateOTP_value k2.
Proof.
  intros H1 H2. pose proof (generateOTP_value_bounds k1 H1). pose proof (generateOTP_value_bounds k2 H2).
  unfold generateOTP. split; [|intros ->; reflexivity].
  apply Decimal.to_dec_inj; rewrite Decimal.safe_digits_pow; lia.
Qed.

(** ** Distribution *)

(** The samples giving the code [100000 + a] are exactly those of
    [[sample_lo a, sample_lo (a + 1))]. *)
Theorem generateOTP_value_preimage k a :
  0 <= k ->
  generateOTP_value k = 100000 + a <-> sample_lo a <= k < sample_lo (a + 1).
Proof.
  intros Hk. unfold generateOTP_value, sample_lo.
  pose proof random_scale_pos.
  replace (a * random_scale + 899999) with (a * random_scale + 900000 - 1) by lia.
  replace ((a + 1) * random_scale + 899999) with ((a + 1) * random_scale + 900000 - 1) by lia.
  rewrite (ceil_div_le_iff (a * random_scale) 900000 k) by lia.
  assert (Hlt : forall x, (x + 900000 - 1) / 900000 > k <-> ~ (x <= k * 900000)).
  { intros x. rewrite <- (ceil_div_le_iff x 900000 k) by lia. lia. }
  assert (Hiff : k < ((a + 1) * random_scale + 900000 - 1) / 900000 <->
                 k * 900000 < (a + 1) * random_scale) by (rewrite <- Z.gt_lt_iff, Hlt; lia).
  rewrite Hiff.
  assert (Hdiv : (k * 900000) / random_scale = a <->
                 a * random_scale <= k * 900000 < (a + 1) * random_scale)
    by (apply floor_div_eq_iff; lia).
  lia.
Qed.


(** ** Witnesses *)

Lemma generateOTP_is_code_witness :
  valid_sample 0 = true /\ is_otp_code (generateOTP 0) = true /\ generateOTP 0 = "100000"%string.
Proof.
  assert (Hk : valid_sample 0 = true) by reflexivity.
  split; [exact Hk|]. split; [exact (proj1 (generateOTP_is_code 0 Hk)) | vm_compute; reflexivity].
Defined.

Lemma generateOTP_value_preimage_witness :
  0 <= sample_lo 382913 /\ generateOTP_value (sample_lo 382913) = 100000 + 382913.
Proof.
  assert (Hk : 0 <= sample_lo 382913) by (vm_compute; discriminate).
  split; [exact Hk|]. apply (generateOTP_value_preimage (sample_lo 382913) 382913 Hk).
  split; [lia | vm_compute; reflexivity].
Defined.

Lemma generateOTP_eq_iff_witness :
  valid_sample 0 = true /\ valid_sample 1 = true /\ generateOTP 0 = generateOTP 1.
Proof.
  assert (H0 : valid_sample 0 = true) by reflexivity.
  assert (H1 : valid_sample 1 = true) by reflexivity.
  split; [exact H0|]. split; [exact H1|]. apply (generateOTP_eq_iff 0 1 H0 H1). vm_compute. reflexivity.
Defined.

End Otp.
