(* ===== verification/Validators.v ===== *)
(** * The zod schemas of the sign-in page

    [src/app/login/page.tsx], lines 23-42, declares three zod object
    schemas; react-hook-form's [zodResolver] runs them on every submission
    and keeps, for each field, the message of its first failing check.

    - [Zod]: the part of zod the page uses.  A string field carries a list
      of checks ([.regex], [.email], [.min]); [field_error] is the first
      failing check's message, [validate] the per-field errors of an
      object, in the schema's key order.  [.email()] is a predicate of the
      library, reached through the interface [EmailValidator]; [ZodEmail]
      implements it after zod 3's [emailRegex]
      (no leading dot, no two dots in a row, a local part of letters,
      digits and [_'+-.] ending in one of letters, digits and [_+-], an
      [@], dot-terminated labels of letters, digits and [-] starting with
      a letter or digit, and a top-level label of two or more letters,
      letters in either case);
      zod's version is not pinned under [src/], so the theorems about the
      page are proved for any [EmailValidator] and the instance is used
      for the concrete witnesses only.
    - [Schemas]: the form value types, [phoneSchema], [emailSchema],
      [registerSchema], the phone pattern as a [Regex.regex] value and its
      direct characterisation [phone_ok], proved equal to the anchored
      match ([phone_regex_equiv]). *)

From Stdlib Require Import String Ascii List Bool Arith Lia.
From S2P Require Import Prelude Regex.
Import ListNotations.
Open Scope string_scope.
Open Scope nat_scope.

Module Zod.

(** The interface zod's [.email()] check offers the schemas. *)
Class EmailValidator := { is_email : string -> bool }.

Inductive check : Type :=
| Matches (r : Regex.regex) (msg : string)    (** [.regex(/^...$/, msg)] *)
| Email (msg : string)                        (** [.email(msg)] *)
| Min (n : nat) (msg : string).               (** [.min(n, msg)] *)

Section WithEmail.
Context `{EmailValidator}.

Definition check_passes (c : check) (v : string) : bool :=
  match c with
  | Matches r _ => Regex.test_anchored r (list_ascii_of_string v)
  | Email _ => is_email v
  | Min n _ => (n <=? String.length v)%nat
  end.

Definition check_msg (c : check) : string :=
  match c with Matches _ m | Email m | Min _ m => m end.

(** [zodResolver] keeps the first issue of each path. *)
Fixpoint field_error (cs : list check) (v : string) : option string :=
  match cs with
  | [] => None
  | c :: cs' => if check_passes c v then field_error cs' v else Some (check_msg c)
  end.

Definition schema := list (string * list check).

(** The value of a registered input; an empty input gives [""]. *)
Fixpoint value_of (name : string) (vals : list (string * string)) : string :=
  match vals with
  | [] => ""
  | (k, v) :: t => if String.eqb k name then v else value_of name t
  end.

(** [safeParse] of an object of strings, as the resolver reports it: the
    errors of the fields, in key order; none means the handler runs. *)
Fixpoint validate (sch : schema) (vals : list (string * string)) : list (string * string) :=
  match sch with
  | [] => []
  | (name, cs) :: sch' =>
      match field_error cs (value_of name vals) with
      | Some m => (name, m) :: validate sch' vals
      | None => validate sch' vals
      end
  end.

Lemma field_error_single c v :
  field_error [c] v = if check_passes c v then None else Some (check_msg c).
Proof. simpl. destruct (check_passes c v); reflexivity. Qed.
End WithEmail.

End Zod.

(** ** zod 3's email pattern *)

Module ZodEmail.

Definition in_range (lo hi : nat) (c : ascii) : bool :=
  (lo <=? nat_of_ascii c) && (nat_of_ascii c <=? hi).

(** Letters of either case ([/i]) and digits. *)
Definition is_alpha (c : ascii) : bool := in_range 65 90 c || in_range 97 122 c.
Definition is_alnum (c : ascii) : bool := is_alpha c || is_digit c.

Definition local_char (c : ascii) : bool :=
  is_alnum c || existsb (Ascii.eqb c) ["_"; "'"; "+"; "-"; "."]%char.
Definition local_last (c : ascii) : bool :=
  is_alnum c || existsb (Ascii.eqb c) ["_"; "+"; "-"]%char.
Definition label_char (c : ascii) : bool := is_alnum c || Ascii.eqb c "-"%char.

Fixpoint split_on (sep : ascii) (l : list ascii) : list (list ascii) :=
  match l with
  | [] => [[]]
  | x :: t =>
      if Ascii.eqb x sep then [] :: split_on sep t
      else match split_on sep t with
           | p :: ps => (x :: p) :: ps
           | [] => [[x]]
           end
  end.

Fixpoint has_double_dot (l : list ascii) : bool :=
  match l with
  | "."%char :: ("."%char :: _) as t => true
  | _ :: t => has_double_dot t
  | [] => false
  end.

Definition label_ok (p : list ascii) : bool :=
  match p with c :: t => is_alnum c && forallb label_char t | [] => false end.

Definition tld_ok (p : list ascii) : bool := (2 <=? length p) && forallb is_alpha p.

Definition local_ok (p : list ascii) : bool :=
  match rev p with
  | c :: t => local_last c && forallb local_char t
  | [] => false
  end.

Definition domain_ok (d : list ascii) : bool :=
  match rev (split_on "."%char d) with
  | tld :: (_ :: _) as labels => tld_ok tld && forallb label_ok labels
  | _ => false
  end.

(** Local part and domain are separated by the only [@]: neither side's
    classes contain one. *)
Definition zod3_email (l : list ascii) : bool :=
  match l with "."%char :: _ => false | _ => true end &&
  negb (has_double_dot l) &&
  match split_on "@"%char l with
  | [local; domain] => local_ok local && domain_ok domain
  | _ => false
  end.

#[export] Instance zod_email : Zod.EmailValidator :=
  {| Zod.is_email s := zod3_email (list_ascii_of_string s) |}.

End ZodEmail.

(** ** The schemas of [login/page.tsx] *)

Module Schemas.
Import Zod.

(** [/^\+?[1-9]\d{9,14}$/] *)
Definition phone_regex : Regex.regex :=
  Regex.Cat (Regex.Opt (Regex.Cls (Regex.CChar "+")))
            (Regex.Cat (Regex.Cls (Regex.CRange "1" "9"))
                       (Regex.Rep (Regex.Cls Regex.CDigit) 9 14)).

(** [type PhoneForm], [type EmailForm], [type RegisterForm]. *)
Record PhoneForm := { pf_phoneNumber : string }.
Record EmailForm := { ef_email : string; ef_password : string }.
Record RegisterForm := {
  rf_firstName : string; rf_lastName : string; rf_email : string;
  rf_password : string; rf_phoneNumber : string }.

Definition phoneSchema : schema :=
  [("phoneNumber", [Matches phone_regex "Invalid phone number"])].

Definition emailSchema : schema :=
  [("email", [Email "Invalid email address"]);
   ("password", [Min 6 "Password must be at least 6 characters"])].

Definition registerSchema : schema :=
  [("firstName", [Min 1 "Required"]);
   ("lastName", [Min 1 "Required"]);
   ("email", [Email "Invalid email"]);
   ("password", [Min 6 "Password must be at least 6 characters"]);
   ("phoneNumber", [Matches phone_regex "Invalid phone number"])].

Definition phone_values (v : PhoneForm) := [("phoneNumber", pf_phoneNumber v)].
Definition email_values (v : EmailForm) := [("email", ef_email v); ("password", ef_password v)].
Definition register_values (v : RegisterForm) :=
  [("firstName", rf_firstName v); ("lastName", rf_lastName v); ("email", rf_email v);
   ("password", rf_password v); ("phoneNumber", rf_phoneNumber v)].

(** The phone pattern read directly: an optional [+], a digit [1-9] and
    nine to fourteen digits. *)
Definition phone_ok (l : list ascii) : bool :=
  let body := match l with c :: t => if Ascii.eqb c "+"%char then t else l | [] => l end in
  match body with
  | d :: ds => is_nonzero_digit d && all_digits ds && (9 <=? length ds) && (length ds <=? 14)
  | [] => false
  end.

Definition valid_phone (s : string) : bool := phone_ok (list_ascii_of_string s).

(** ** The phone pattern *)

Lemma cls_range_1_9 a : Regex.cls_match (Regex.CRange "1" "9") a = is_nonzero_digit a.
Proof. reflexivity. Qed.

Lemma forallb_digit l : forallb (Regex.cls_match Regex.CDigit) l = all_digits l.
Proof. reflexivity. Qed.

Lemma plus_not_digit : is_nonzero_digit "+"%char = false.
Proof. reflexivity. Qed.

Definition phone_shape (l : list ascii) : Prop :=
  exists pre d ds, l = (pre ++ d :: ds)%list /\ (pre = [] \/ pre = ["+"%char]) /\
    is_nonzero_digit d = true /\ all_digits ds = true /\ 9 <= length ds <= 14.

Lemma matches_phone_shape l : Regex.matches phone_regex l <-> phone_shape l.
Proof.
  unfold phone_regex, Regex.Opt, phone_shape.
  rewrite Regex.matches_Cat_iff. split.
  - intros (pre & rest & -> & Hpre & Hrest).
    apply Regex.matches_Cat_iff in Hrest as (p1 & ds & -> & H1 & H2).
    apply Regex.matches_Cls_iff in H1 as (d & -> & Hd).
    apply Regex.matches_Rep_Cls_iff in H2 as [Hds Hlen].
    apply Regex.matches_Rep_Cls_iff in Hpre as [Hp Hplen].
    exists pre, d, ds. repeat split; try assumption; try lia.
    destruct pre as [|a [|b pre]]; [auto| |simpl in Hplen; lia].
    simpl in Hp. rewrite andb_true_r in Hp. apply Ascii.eqb_eq in Hp. subst. auto.
  - intros (pre & d & ds & -> & Hpre & Hd & Hds & Hlen).
    exists pre, (d :: ds). split; [reflexivity|]. split.
    + apply Regex.matches_Rep_Cls_iff. destruct Hpre as [->| ->]; simpl; auto.
    + apply Regex.matches_Cat_iff. exists [d], ds. split; [reflexivity|]. split.
      * apply Regex.matches_Cls_iff. eauto.
      * apply Regex.matches_Rep_Cls_iff. auto.
Qed.

Lemma phone_ok_shape l : phone_ok l = true <-> phone_shape l.
Proof.
  unfold phone_ok, phone_shape.
  assert (Hbody : forall pre body, l = (pre ++ body)%list -> (pre = [] \/ pre = ["+"%char]) ->
    match body with
    | d :: ds => is_nonzero_digit d && all_digits ds && (9 <=? length ds) && (length ds <=? 14)
    | [] => false
    end = true <-> exists d ds, body = d :: ds /\ is_nonzero_digit d = true /\
                   all_digits ds = true /\ 9 <= length ds <= 14).
  { intros pre [|d ds] _ _; split.
    - discriminate.
    - intros (? & ? & ? & _); discriminate.
    - intros Hb. bool_to_prop. eauto 8.
    - intros (d' & ds' & [= <- <-] & Hd & Hds & Hlen). rewrite Hd, Hds.
      rewrite !andb_true_l. apply andb_true_iff. rewrite !Nat.leb_le. lia. }
  destruct l as [|a t]; [split; [discriminate|] |].
  - intros ([|? ?] & ? & ? & ? & _); discriminate.
  - destruct (Ascii.eqb_spec a "+"%char) as [->|Hne].
    + rewrite (Hbody ["+"%char] t) by auto. split.
      * intros (d & ds & -> & H). exists ["+"%char], d, ds. auto.
      * intros ([|b [|? ?]] & d & ds & Heq & [Hp|Hp] & H); try discriminate.
        -- simpl in Heq. injection Heq as Hd Ht. subst d. destruct H as [Hd _]. rewrite plus_not_digit in Hd. discriminate.
        -- injection Hp as ->. injection Heq as ->. eauto.
    + rewrite (Hbody [] (a :: t)) by auto. split.
      * intros (d & ds & Heq & H). exists [], d, ds. auto.
      * intros ([|b [|? ?]] & d & ds & Heq & [Hp|Hp] & H); try discriminate; eauto.
        injection Hp as ->. injection Heq as ->. contradiction.
Qed.

Lemma phone_regex_phone_ok l : Regex.test_anchored phone_regex l = phone_ok l.
Proof.
  apply Bool.eq_true_iff_eq.
  rewrite Regex.test_anchored_iff, matches_phone_shape, phone_ok_shape. reflexivity.
Qed.

(** C24: The anchored phone pattern [/^\+?[1-9]\d{9,14}$/] accepts exactly
    what [phone_ok] accepts: an optional [+], a digit [1-9], then nine to
    fourteen digits. *)
Theorem phone_regex_equiv l : Regex.test_anchored phone_regex l = phone_ok l.
Proof. apply phone_regex_phone_ok. Qed.

(** ** What each schema reports *)

Section Reports.
Context `{EmailValidator}.

(** The phone form is accepted exactly when the number has the shape
    [phone_ok] describes; otherwise its one error is on the field. *)
Lemma phoneSchema_report v :
  validate phoneSchema (phone_values v) =
  if valid_phone (pf_phoneNumber v) then [] else [("phoneNumber", "Invalid phone number")].
Proof.
  unfold valid_phone. cbn - [Regex.test_anchored phone_regex].
  rewrite phone_regex_phone_ok. destruct (phone_ok _); reflexivity.
Qed.

(** Both email-form errors are reported independently of each other. *)
Lemma emailSchema_report v :
  validate emailSchema (email_values v) = (
  (if is_email (ef_email v) then [] else [("email", "Invalid email address")]) ++
  (if (6 <=? String.length (ef_password v)) then []
   else [("password", "Password must be at least 6 characters")]))%list.
Proof.
  cbn - [is_email Nat.leb String.length].
  destruct (is_email _), (6 <=? _); reflexivity.
Qed.

Lemma registerSchema_report v :
  validate registerSchema (register_values v) = (
  (if (1 <=? String.length (rf_firstName v)) then [] else [("firstName", "Required")]) ++
  (if (1 <=? String.length (rf_lastName v)) then [] else [("lastName", "Required")]) ++
  (if is_email (rf_email v) then [] else [("email", "Invalid email")]) ++
  (if (6 <=? String.length (rf_password v)) then []
   else [("password", "Password must be at least 6 characters")]) ++
  (if valid_phone (rf_phoneNumber v) then [] else [("phoneNumber", "Invalid phone number")]))%list.
Proof.
  unfold valid_phone. cbn - [is_email Nat.leb String.length Regex.test_anchored phone_regex].
  rewrite phone_regex_phone_ok.
  destruct (1 <=? String.length (rf_firstName v)), (1 <=? String.length (rf_lastName v)),
    (is_email _), (6 <=? _), (phone_ok _); reflexivity.
Qed.
(** The email form reports each of its two violations on its own
    field, independently of the other. *)
Theorem emailSchema_errors v :
  validate emailSchema (email_values v) = (
  (if is_email (ef_email v) then [] else [("email", "Invalid email address")]) ++
  (if (6 <=? String.length (ef_password v)) then []
   else [("password", "Password must be at least 6 characters")]))%list.
Proof. apply emailSchema_report. Qed.

End Reports.

End Schemas.
