(* ===== verification/Store.v ===== *)
(** * The session store and the user record

    The pages call [useAuthStore()] of [@/lib/store] (a zustand store; the
    file is not under [src/]): [login(user)] establishes the session, and
    [isAuthenticated] and [user] are read by the dashboard.  The spec
    (section 6, [SessionBridge.login]) fixes the contract: after
    [login(u)] the session is authenticated as [u].

    - [User]: the shape of [mockAdmin.user] in [src/app/login/page.tsx]
      (lines 48-57), with the three roles the dashboard distinguishes.
    - [AuthStore]: the interface the page relies on, a [Class] over the
      store's state type, and [AuthStoreLaws] its contract.
    - [Zustand]: the store modelled from the spec, an instance of both;
      the page's theorems are proved against the interface.
    - [ThemeStore], [ThemeStoreLaws]: what the settings page uses of
      [useThemeStore] (same file, not under [src/]), with a zustand
      instance; the spec leaves the theme out, so its contract is the one
      the page's use implies. *)

From Stdlib Require Import String List Bool.
From S2P Require Import Prelude.
Import ListNotations.
Open Scope string_scope.

Module Store.

Inductive Role := Admin | Teacher | Parent.

Record User := {
  u_id : string; u_name : string; u_email : string; u_role : Role;
  u_avatar : string; u_isActive : bool; u_createdAt : string }.

(** What the pages use of [useAuthStore]. *)
Class AuthStore (S : Type) := {
  login : User -> S -> S;
  current_user : S -> option User;
  isAuthenticated : S -> bool }.

(** The contract: [login(u)] authenticates the session as [u]. *)
Class AuthStoreLaws (S : Type) `{AuthStore S} := {
  login_user : forall u s, current_user (login u s) = Some u;
  login_authenticated : forall u s, isAuthenticated (login u s) = true }.

(** What the settings page uses of [useThemeStore] (line 90): the
    colour theme's name, the dark flag, and their two setters. *)
Class ThemeStore (T : Type) := {
  theme : T -> string;
  isDark : T -> bool;
  setTheme : string -> T -> T;
  toggleDark : T -> T }.

(** Its contract: [setTheme(n)] selects [n] and keeps the mode;
    [toggleDark] flips the mode and keeps the theme. *)
Class ThemeStoreLaws (T : Type) `{ThemeStore T} := {
  setTheme_theme : forall n t, theme (setTheme n t) = n;
  setTheme_dark : forall n t, isDark (setTheme n t) = isDark t;
  toggleDark_dark : forall t, isDark (toggleDark t) = negb (isDark t);
  toggleDark_theme : forall t, theme (toggleDark t) = theme t }.

Module Zustand.
Record state := { user : option User; authenticated : bool }.

Definition initial : state := {| user := None; authenticated := false |}.

Definition zlogin (u : User) (_ : state) : state := {| user := Some u; authenticated := true |}.

#[export] Instance zustand_store : AuthStore state :=
  {| login := zlogin; current_user := user; isAuthenticated := authenticated |}.

#[export] Instance zustand_laws : AuthStoreLaws state.
Proof. split; reflexivity. Qed.
Record theme_state := { th_theme : string; th_dark : bool }.

Definition theme_initial : theme_state := {| th_theme := "default"; th_dark := false |}.

#[export] Instance zustand_theme : ThemeStore theme_state :=
  {| theme := th_theme; isDark := th_dark;
     setTheme := fun n t => {| th_theme := n; th_dark := th_dark t |};
     toggleDark := fun t => {| th_theme := th_theme t; th_dark := negb (th_dark t) |} |}.

#[export] Instance zustand_theme_laws : ThemeStoreLaws theme_state.
Proof. split; reflexivity. Qed.
End Zustand.

End Store.
