(* ===== verification/AuthSpec.v ===== *)
(** * The specification of the authentication subsystem

    The abstract state machine of the spec (sections 3 and 4): the mode
    ([AuthMode]), the step of the one-time code ([OtcStep]), the
    outstanding challenge, the identifier draft carried into
    registration, and what the subsystem hands to the outside: the
    session's identity and the navigation.  [spec_step] is the
    transition table of section 4.3 together with the operations of
    [OtcChallenge] (section 4.2); every rule is written from the spec's
    words, not from the code.  What the spec leaves to the outside is a
    parameter: the demo credential directory (one email and password
    and the identity they resolve to) and the email syntax check.

    [Refinement] proves that the sign-in page implements this machine. *)

From Stdlib Require Import String Ascii List Bool Arith Lia.
From S2P Require Import Prelude Store.
Import ListNotations.
Open Scope string_scope.

Module AuthSpec.
Import Store.

Inductive AuthMode := PhoneSignIn | EmailSignIn | SignupPhone | SignupForm.
Inductive OtcStep := EnterIdentifier | EnterCode.

Definition phone_driven (m : AuthMode) : bool :=
  match m with PhoneSignIn | SignupPhone => true | _ => false end.

(** The state the spec describes.  [code] is the outstanding
    [OtcChallenge], [draft] the phone number of [IdentifierDraft] and
    then of [RegistrationDraft]; [session] and [route] are what
    [SessionBridge.login] and the navigation have been given. *)
Record AState := {
  amode : AuthMode; astep : OtcStep; code : option string; draft : string;
  session : option User; route : string }.

(** "Initial state: PhoneSignIn / EnterIdentifier", at the page's path. *)
Definition ainit (s : option User) : AState :=
  {| amode := PhoneSignIn; astep := EnterIdentifier; code := None; draft := ""; session := s;
     route := "/login" |}.

(** The phone contract, section 4.1: an optional leading [+], then 10 to
    15 digits, the first one non-zero. *)
Definition phone_contract (s : string) : Prop :=
  exists d ds, (list_ascii_of_string s = d :: ds \/ list_ascii_of_string s = "+"%char :: d :: ds) /\
    is_nonzero_digit d = true /\ all_digits ds = true /\ (9 <= length ds <= 14)%nat.

(** A code: a 6-digit numeric string (section 3). *)
Definition six_digit (c : string) : Prop :=
  String.length c = 6%nat /\ all_digits (list_ascii_of_string c) = true.

(** The operations the spec names. *)
Inductive Op :=
| Issue (identifier c : string)             (** [OtcChallenge.issue] *)
| VerifyOk (candidate : string)             (** [verify] succeeds *)
| VerifyFail (candidate : string)           (** [verify] on a mismatch *)
| Resend (c : string)                       (** [OtcChallenge.resend] *)
| Reset                                     (** edit: [OtcChallenge.reset] *)
| SelectPhone | SelectEmail | SelectSignup  (** the entry controls *)
| BackToLogin
| EmailOk (email password : string) | EmailFail (email password : string)
| Register (u : User)
| Stutter.                                  (** nothing the spec observes *)

Section Machine.
Context (dir_email dir_password : string) (dir_user : User) (email_ok : string -> bool).

(** The registration contract, section 4.1. *)
Definition registration_contract (first last email password phone : string) : Prop :=
  first <> "" /\ last <> "" /\ email_ok email = true /\ (6 <= String.length password)%nat /\
  phone_contract phone.

Definition reset_to (m : AuthMode) (a : AState) : AState :=
  {| amode := m; astep := EnterIdentifier; code := None; draft := ""; session := session a; route := route a |}.

Definition succeed (u : User) (a : AState) : AState :=
  {| amode := amode a; astep := astep a; code := code a; draft := draft a; session := Some u; route := "/" |}.

Inductive spec_step : AState -> Op -> AState -> Prop :=
| st_issue a id c :
    phone_driven (amode a) = true -> astep a = EnterIdentifier -> phone_contract id -> six_digit c ->
    spec_step a (Issue id c)
      {| amode := amode a; astep := EnterCode; code := Some c;
         draft := (if amode a is SignupPhone then id else ""); session := session a; route := route a |}
| st_verify_fail a c cand :
    astep a = EnterCode -> code a = Some c -> String.length cand = 6%nat -> cand <> c ->
    spec_step a (VerifyFail cand) a
| st_verify_signin a c :
    amode a = PhoneSignIn -> astep a = EnterCode -> code a = Some c ->
    spec_step a (VerifyOk c) (succeed dir_user a)
| st_verify_signup a c :
    amode a = SignupPhone -> astep a = EnterCode -> code a = Some c ->
    spec_step a (VerifyOk c)
      {| amode := SignupForm; astep := EnterIdentifier; code := None; draft := draft a;
         session := session a; route := route a |}
| st_resend a c c' :
    astep a = EnterCode -> code a = Some c -> six_digit c' ->
    spec_step a (Resend c')
      {| amode := amode a; astep := EnterCode; code := Some c'; draft := draft a;
         session := session a; route := route a |}
| st_reset a :
    astep a = EnterCode -> spec_step a Reset (reset_to (amode a) a)
| st_select_phone a : spec_step a SelectPhone (reset_to PhoneSignIn a)
| st_select_email a : spec_step a SelectEmail (reset_to EmailSignIn a)
| st_select_signup a : spec_step a SelectSignup (reset_to SignupPhone a)
| st_back a : amode a = SignupForm -> spec_step a BackToLogin (reset_to PhoneSignIn a)
| st_email_ok a e pw :
    amode a = EmailSignIn -> (e, pw) = (dir_email, dir_password) -> spec_step a (EmailOk e pw) (succeed dir_user a)
| st_email_fail a e pw :
    amode a = EmailSignIn -> (e, pw) <> (dir_email, dir_password) -> spec_step a (EmailFail e pw) a
| st_register a f l e pw u :
    amode a = SignupForm -> registration_contract f l e pw (draft a) ->
    u_name u = f ++ " " ++ l -> u_email u = e ->
    spec_step a (Register u) (succeed u a)
| st_stutter a : spec_step a Stutter a.

(** Some operation of the spec. *)
Definition spec_any (a a' : AState) : Prop := exists op, spec_step a op a'.
End Machine.

End AuthSpec.
