(* ===== verification/Theme.v ===== *)
(** * The theme card of the settings page

    [src/app/settings/page.tsx], lines 24-30 and 667-733: the dark-mode
    switch and one button per colour theme, wired to [useThemeStore].
    The card reads and writes only the theme store, so it is modelled on
    its own, against the interface [Store.ThemeStore]. *)

From Stdlib Require Import String List Bool.
From S2P Require Import Prelude Store.
Import ListNotations.
Open Scope string_scope.

Module Theme.
Import Store.

(** [themeOptions], lines 24-30. *)
Record ThemeOption := { opt_name : string; opt_label : string; opt_color : string }.

Definition themeOptions : list ThemeOption :=
  [ {| opt_name := "default"; opt_label := "Default Purple"; opt_color := "#8B5CF6" |};
    {| opt_name := "ocean"; opt_label := "Ocean Blue"; opt_color := "#0EA5E9" |};
    {| opt_name := "forest"; opt_label := "Forest Green"; opt_color := "#059669" |};
    {| opt_name := "sunset"; opt_label := "Sunset Orange"; opt_color := "#EA580C" |};
    {| opt_name := "royal"; opt_label := "Royal Purple"; opt_color := "#7C3AED" |} ].

(** The card's controls: the switch (line 688) and the option buttons
    (lines 700-726). *)
Inductive ThemeEvent := DarkSwitch | PickTheme (o : ThemeOption).

Section Card.
Context {T : Type} `{ThemeStore T}.

(** A button is rendered for each option only. *)
Definition theme_enabled (e : ThemeEvent) : bool :=
  match e with
  | DarkSwitch => true
  | PickTheme o => existsb (fun o' => String.eqb (opt_name o') (opt_name o)) themeOptions
  end.

(** [onCheckedChange={toggleDark}] and [onClick={() => setTheme(option.name)}]. *)
Definition theme_handle (e : ThemeEvent) (t : T) : T :=
  match e with DarkSwitch => toggleDark t | PickTheme o => setTheme (opt_name o) t end.

Definition theme_dispatch (e : ThemeEvent) (t : T) : option T :=
  if theme_enabled e then Some (theme_handle e t) else None.

(** The highlighted border, [theme === option.name], lines 704-708. *)
Definition selected (t : T) (o : ThemeOption) : bool := String.eqb (theme t) (opt_name o).

(** What the card shows: the switch's state and, per button, its label,
    colour and whether it is highlighted. *)
Definition theme_card_view (t : T) : bool * list (string * string * bool) :=
  (isDark t, map (fun o => (opt_label o, opt_color o, selected t o)) themeOptions).
End Card.

(** ** Properties *)

Lemma option_names_nodup : NoDup (map opt_name themeOptions).
Proof. repeat constructor; cbn; intuition discriminate. Qed.

Section Laws.
Context {T : Type} `{ThemeStoreLaws T}.

(** C17: Clicking a colour highlights exactly that option, and only it,
    and leaves the dark mode as it was; the switch flips the mode and
    keeps the highlighted option. *)
Theorem pick_theme_highlights_one (o : ThemeOption) (t : T) :
  In o themeOptions ->
  exists t', theme_dispatch (PickTheme o) t = Some t' /\
    filter (selected t') themeOptions = [o] /\ isDark t' = isDark t /\
    theme_dispatch DarkSwitch t' = Some (toggleDark t') /\
    isDark (toggleDark t') = negb (isDark t) /\
    filter (selected (toggleDark t')) themeOptions = [o].
Proof.
  intros Ho. exists (setTheme (opt_name o) t).
  assert (He : theme_enabled (PickTheme o) = true).
  { apply existsb_exists. exists o. split; [exact Ho | apply String.eqb_refl]. }
  unfold theme_dispatch. rewrite He. split; [reflexivity|].
  unfold selected. rewrite toggleDark_theme, toggleDark_dark, setTheme_theme, setTheme_dark.
  split; [|repeat split].
  all: destruct Ho as [<- | [<- | [<- | [<- | [<- | []]]]]]; reflexivity.
Qed.
End Laws.

Module Witnesses.
Import Zustand.

Definition ocean : ThemeOption := {| opt_name := "ocean"; opt_label := "Ocean Blue"; opt_color := "#0EA5E9" |}.

Lemma pick_theme_highlights_one_witness :
  In ocean themeOptions /\
  exists t', theme_dispatch (PickTheme ocean) theme_initial = Some t' /\ filter (selected t') themeOptions = [ocean] /\
    theme_card_view t' =
      (false, [("Default Purple", "#8B5CF6", false); ("Ocean Blue", "#0EA5E9", true);
               ("Forest Green", "#059669", false); ("Sunset Orange", "#EA580C", false);
               ("Royal Purple", "#7C3AED", false)]).
Proof.
  assert (Ho : In ocean themeOptions) by (cbn; tauto).
  split; [exact Ho|].
  destruct (pick_theme_highlights_one ocean theme_initial Ho) as (t' & Hd & Hf & _).
  exists t'. split; [exact Hd|]. split; [exact Hf|].
  vm_compute in Hd. injection Hd as <-. vm_compute. reflexivity.
Defined.
End Witnesses.

End Theme.
