(* ===== verification/Login.v ===== *)
(** * The sign-in page [AuthPage]

    [src/app/login/page.tsx], lines 44-602.  The page's [useState] hooks
    are the fields of [Page]; the state outside the page that its handlers
    touch (the session store, the router's location, the module-level
    array [mockRegisteredUsers]) completes it into [World].

    - Each handler is an update of the world written as the sequence of
      setter calls of the source ([u1 ;; u2] of [Prelude]); values read
      inside a handler come from the render it was created in ([w0]), as
      React closures read them.
    - [handleSubmit] of react-hook-form is [submit_with]: the schema's
      errors are stored for the form when there are some, and the handler
      runs when there are none.
    - [enabled p e] is what the rendered JSX offers: which form or button
      exists in the current mode and step, and the [disabled] test of the
      verify button.  [dispatch e w] runs the handler of an offered event
      and is [None] for an event the page cannot receive.
    - [page_step] is the transition relation of the page, one event at a time
      (React handles events one after another, each committing its batch).

    The randomness of [generateOTP] is an argument of the events that
    call it (a [Math.random()] sample, see [Otp]); [Date.now()] and
    [new Date().toISOString()] are arguments of the registration event. *)

From Stdlib Require Import String Ascii List Bool Arith ZArith Lia.
From S2P Require Import Prelude Decimal Otp Validators Store.
Import ListNotations.
Open Scope string_scope.
Open Scope finomo_scope.

Module Login.
Import Store Zod Schemas.

(** ** State *)

(** ["phone-signin" | "email-signin" | "signup-phone" | "signup-form"] *)
Inductive Mode := PhoneSignin | EmailSignin | SignupPhone | SignupForm.

(** ["enter-phone" | "enter-otp"] *)
Inductive Step := EnterPhone | EnterOtp.

Definition Mode_eqb (a b : Mode) : bool :=
  match a, b with
  | PhoneSignin, PhoneSignin | EmailSignin, EmailSignin
  | SignupPhone, SignupPhone | SignupForm, SignupForm => true
  | _, _ => false
  end.

Definition errors := list (string * string).

Record Page := {
  mode : Mode;
  step : Step;
  generatedOtp : string;
  otp : string;
  otpSuccess : string;
  otpError : string;
  showPassword : bool;
  authError : string;
  phoneErrors : errors;          (** [formState.errors] of the phone form *)
  emailErrors : errors;          (** ... of the email form *)
  signupErrors : errors;         (** ... of the registration form *)
  signupPhone : string }.        (** the registration form's [phoneNumber] value *)

Definition initial_page : Page := {|
  mode := PhoneSignin; step := EnterPhone; generatedOtp := ""; otp := "";
  otpSuccess := ""; otpError := ""; showPassword := false; authError := "";
  phoneErrors := []; emailErrors := []; signupErrors := []; signupPhone := "" |}.

Record World (S : Type) := {
  page : Page;
  store : S;
  route : string;
  registered : list User }.     (** [mockRegisteredUsers] *)

Arguments page {S}. Arguments store {S}. Arguments route {S}. Arguments registered {S}.

(** ** The mock directory *)

Definition mockAdmin_email : string := "ramesh@gmail.com".
Definition mockAdmin_password : string := "Ramesh@123".
Definition mockAdmin_user : User := {|
  u_id := "1"; u_name := "Ramesh"; u_email := "ramesh@gmail.com"; u_role := Admin;
  u_avatar := "https://images.pexels.com/photos/774909/pexels-photo-774909.jpeg?auto=compress&cs=tinysrgb&w=400";
  u_isActive := true; u_createdAt := "2024-01-15" |}.

Definition mockRegisteredUsers_init : list User := [mockAdmin_user].

Section Handlers.
Context {S : Type} `{AuthStore S} `{EmailValidator}.

Abbreviation W := (World S).

(** ** Setters *)

Definition upd_page (f : Page -> Page) : upd W :=
  fun w => {| page := f (page w); store := store w; route := route w; registered := registered w |}.

Definition setMode (m : Mode) : upd W := upd_page (fun p => {|
  mode := m; step := step p; generatedOtp := generatedOtp p; otp := otp p;
  otpSuccess := otpSuccess p; otpError := otpError p; showPassword := showPassword p;
  authError := authError p; phoneErrors := phoneErrors p; emailErrors := emailErrors p;
  signupErrors := signupErrors p; signupPhone := signupPhone p |}).

Definition setStep (st : Step) : upd W := upd_page (fun p => {|
  mode := mode p; step := st; generatedOtp := generatedOtp p; otp := otp p;
  otpSuccess := otpSuccess p; otpError := otpError p; showPassword := showPassword p;
  authError := authError p; phoneErrors := phoneErrors p; emailErrors := emailErrors p;
  signupErrors := signupErrors p; signupPhone := signupPhone p |}).

Definition setGeneratedOtp (v : string) : upd W := upd_page (fun p => {|
  mode := mode p; step := step p; generatedOtp := v; otp := otp p;
  otpSuccess := otpSuccess p; otpError := otpError p; showPassword := showPassword p;
  authError := authError p; phoneErrors := phoneErrors p; emailErrors := emailErrors p;
  signupErrors := signupErrors p; signupPhone := signupPhone p |}).

Definition setOtp (v : string) : upd W := upd_page (fun p => {|
  mode := mode p; step := step p; generatedOtp := generatedOtp p; otp := v;
  otpSuccess := otpSuccess p; otpError := otpError p; showPassword := showPassword p;
  authError := authError p; phoneErrors := phoneErrors p; emailErrors := emailErrors p;
  signupErrors := signupErrors p; signupPhone := signupPhone p |}).

Definition setOtpSuccess (v : string) : upd W := upd_page (fun p => {|
  mode := mode p; step := step p; generatedOtp := generatedOtp p; otp := otp p;
  otpSuccess := v; otpError := otpError p; showPassword := showPassword p;
  authError := authError p; phoneErrors := phoneErrors p; emailErrors := emailErrors p;
  signupErrors := signupErrors p; signupPhone := signupPhone p |}).

Definition setOtpError (v : string) : upd W := upd_page (fun p => {|
  mode := mode p; step := step p; generatedOtp := generatedOtp p; otp := otp p;
  otpSuccess := otpSuccess p; otpError := v; showPassword := showPassword p;
  authError := authError p; phoneErrors := phoneErrors p; emailErrors := emailErrors p;
  signupErrors := signupErrors p; signupPhone := signupPhone p |}).

Definition setShowPassword (b : bool) : upd W := upd_page (fun p => {|
  mode := mode p; step := step p; generatedOtp := generatedOtp p; otp := otp p;
  otpSuccess := otpSuccess p; otpError := otpError p; showPassword := b;
  authError := authError p; phoneErrors := phoneErrors p; emailErrors := emailErrors p;
  signupErrors := signupErrors p; signupPhone := signupPhone p |}).

Definition setAuthError (v : string) : upd W := upd_page (fun p => {|
  mode := mode p; step := step p; generatedOtp := generatedOtp p; otp := otp p;
  otpSuccess := otpSuccess p; otpError := otpError p; showPassword := showPassword p;
  authError := v; phoneErrors := phoneErrors p; emailErrors := emailErrors p;
  signupErrors := signupErrors p; signupPhone := signupPhone p |}).

Definition setPhoneErrors (e : errors) : upd W := upd_page (fun p => {|
  mode := mode p; step := step p; generatedOtp := generatedOtp p; otp := otp p;
  otpSuccess := otpSuccess p; otpError := otpError p; showPassword := showPassword p;
  authError := authError p; phoneErrors := e; emailErrors := emailErrors p;
  signupErrors := signupErrors p; signupPhone := signupPhone p |}).

Definition setEmailErrors (e : errors) : upd W := upd_page (fun p => {|
  mode := mode p; step := step p; generatedOtp := generatedOtp p; otp := otp p;
  otpSuccess := otpSuccess p; otpError := otpError p; showPassword := showPassword p;
  authError := authError p; phoneErrors := phoneErrors p; emailErrors := e;
  signupErrors := signupErrors p; signupPhone := signupPhone p |}).

Definition setSignupErrors (e : errors) : upd W := upd_page (fun p => {|
  mode := mode p; step := step p; generatedOtp := generatedOtp p; otp := otp p;
  otpSuccess := otpSuccess p; otpError := otpError p; showPassword := showPassword p;
  authError := authError p; phoneErrors := phoneErrors p; emailErrors := emailErrors p;
  signupErrors := e; signupPhone := signupPhone p |}).

(** [setSignupValue("phoneNumber", v)] *)
Definition setSignupPhone (v : string) : upd W := upd_page (fun p => {|
  mode := mode p; step := step p; generatedOtp := generatedOtp p; otp := otp p;
  otpSuccess := otpSuccess p; otpError := otpError p; showPassword := showPassword p;
  authError := authError p; phoneErrors := phoneErrors p; emailErrors := emailErrors p;
  signupErrors := signupErrors p; signupPhone := v |}).

(** The effects outside the page: [login(user)], [router.push(path)],
    [mockRegisteredUsers.push(user)]. *)
Definition do_login (u : User) : upd W :=
  fun w => {| page := page w; store := login u (store w); route := route w; registered := registered w |}.

Definition router_push (path : string) : upd W :=
  fun w => {| page := page w; store := store w; route := path; registered := registered w |}.

Definition push_registered (u : User) : upd W :=
  fun w => {| page := page w; store := store w; route := route w; registered := registered w ++ [u] |}.

(** ** Handlers *)

(** [handleSendOtp], lines 117-134; [k] is the [Math.random()] sample. *)
Definition handleSendOtp (w0 : W) (data : PhoneForm) (k : Z) : upd W :=
  let newOtp := Otp.generateOTP k in
  setOtp "" ;; setOtpError "" ;; setOtpSuccess "" ;;
  setGeneratedOtp newOtp ;;
  setStep EnterOtp ;;
  setOtpSuccess (" (Demo OTP: " ++ newOtp ++ ")") ;;
  (if Mode_eqb (mode (page w0)) SignupPhone
   then setSignupPhone (pf_phoneNumber data) else skip).

(** [handleVerifyOtp], lines 137-161. *)
Definition handleVerifyOtp (w0 : W) : upd W :=
  setOtpError "" ;; setOtpSuccess "" ;;
  if negb (String.eqb (otp (page w0)) (generatedOtp (page w0)))
  then setOtpError "Invalid OTP. Please try again."
  else
    setOtpSuccess "OTP verified." ;;
    match mode (page w0) with
    | PhoneSignin => do_login mockAdmin_user ;; router_push "/"
    | SignupPhone =>
        setMode SignupForm ;; setStep EnterPhone ;; setGeneratedOtp "" ;;
        setOtp "" ;; setOtpSuccess "" ;; setOtpError ""
    | _ => skip
    end.

(** [handleResendOtp], lines 164-171. *)
Definition handleResendOtp (k : Z) : upd W :=
  let newOtp := Otp.generateOTP k in
  setGeneratedOtp newOtp ;; setOtp "" ;; setOtpError "" ;;
  setOtpSuccess ("New OTP sent (Demo): " ++ newOtp).

(** [onEmailSignIn], lines 174-188. *)
Definition onEmailSignIn (data : EmailForm) : upd W :=
  setAuthError "" ;;
  if String.eqb (ef_email data) mockAdmin_email && String.eqb (ef_password data) mockAdmin_password
  then do_login mockAdmin_user ;; router_push "/"
  else setAuthError "Invalid email or password".

(** [onRegister], lines 191-208; [now] is [Date.now()], [iso] is
    [new Date().toISOString()]. *)
Definition newUser (data : RegisterForm) (now : Z) (iso : string) : User := {|
  u_id := Decimal.to_dec now;
  u_name := rf_firstName data ++ " " ++ rf_lastName data;
  u_email := rf_email data; u_role := Admin; u_avatar := "";
  u_isActive := true; u_createdAt := iso |}.

Definition onRegister (data : RegisterForm) (now : Z) (iso : string) : upd W :=
  let u := newUser data now iso in
  push_registered u ;; do_login u ;; router_push "/".

(** [quickFillDemoPhone], lines 211-215: declared but wired to no
    control of the page. *)
Definition quickFillDemoPhone (w0 : W) (k : Z) : upd W :=
  handleSendOtp w0 {| pf_phoneNumber := "+12345678901" |} k.

(** [handleSubmit(onValid)] of react-hook-form with [zodResolver]. *)
Definition submit_with (errs : errors) (setErrs : errors -> upd W) (onValid : upd W) : upd W :=
  match errs with
  | [] => setErrs [] ;; onValid
  | _ => setErrs errs
  end.

(** The inline callbacks of the JSX. *)

(** [InputOTP onChange], lines 327-330. *)
Definition onOtpChange (v : string) : upd W := setOtp v ;; setOtpError "".

(** The "Edit" button, lines 355-361. *)
Definition onEdit : upd W :=
  setStep EnterPhone ;; setOtp "" ;; setGeneratedOtp "" ;; setOtpError "" ;; setOtpSuccess "".

(** The password visibility toggle, line 418. *)
Definition onTogglePassword (w0 : W) : upd W := setShowPassword (negb (showPassword (page w0))).

(** "Back to Login", lines 515-521. *)
Definition onBackToLogin : upd W :=
  setMode PhoneSignin ;; setOtp "" ;; setGeneratedOtp "" ;; setOtpError "" ;; setOtpSuccess "".

(** The footer: "Login with phone", lines 537-544. *)
Definition onNavPhone : upd W :=
  setMode PhoneSignin ;; setStep EnterPhone ;; setOtp "" ;; setGeneratedOtp "" ;;
  setOtpError "" ;; setOtpSuccess "".

(** "Login with email", lines 557-564. *)
Definition onNavEmail : upd W :=
  setMode EmailSignin ;; setAuthError "" ;; setOtp "" ;; setGeneratedOtp "" ;;
  setOtpError "" ;; setOtpSuccess "".

(** "Sign up", lines 578-585. *)
Definition onNavSignup : upd W :=
  setMode SignupPhone ;; setStep EnterPhone ;; setOtp "" ;; setGeneratedOtp "" ;;
  setOtpError "" ;; setOtpSuccess "".

(** ** Events and what the page offers *)

Inductive Event :=
| SubmitPhone (phone : string) (k : Z)
| OtpChange (v : string)
| VerifyClick
| EditClick
| ResendClick (k : Z)
| SubmitEmail (email password : string)
| TogglePassword
| SubmitSignup (first last email password : string) (now : Z) (iso : string)
| BackToLogin
| NavPhone
| NavEmail
| NavSignup.

Definition phone_mode (m : Mode) : bool :=
  match m with PhoneSignin | SignupPhone => true | _ => false end.

(** The phone form is rendered, lines 255-256. *)
Definition phone_form_shown (p : Page) : bool :=
  phone_mode (mode p) && match step p with EnterPhone => true | EnterOtp => false end.

(** The code panel, lines 302-303, and the verify button's
    [disabled={otp.length !== 6}], line 346. *)
Definition otp_panel_shown (p : Page) : bool :=
  phone_mode (mode p) && match step p with EnterOtp => true | EnterPhone => false end.

Definition verify_enabled (p : Page) : bool :=
  otp_panel_shown p && (String.length (otp p) =? 6)%nat.

(** The email form, line 380, and the registration form, line 448. *)
Definition email_form_shown (p : Page) : bool := Mode_eqb (mode p) EmailSignin.
Definition signup_form_shown (p : Page) : bool := Mode_eqb (mode p) SignupForm.

(** The page receives events while it is mounted, at ["/login"].  The
    OTP input holds at most [maxLength={6}] characters, and a
    [Math.random()] sample is a valid one. *)
Definition enabled (w : W) (e : Event) : bool :=
  String.eqb (route w) "/login" &&
  let p := page w in
  match e with
  | SubmitPhone _ k => phone_form_shown p && Otp.valid_sample k
  | OtpChange v => otp_panel_shown p && (String.length v <=? 6)%nat
  | VerifyClick => verify_enabled p
  | EditClick => otp_panel_shown p
  | ResendClick k => otp_panel_shown p && Otp.valid_sample k
  | SubmitEmail _ _ | TogglePassword => email_form_shown p
  | SubmitSignup _ _ _ _ _ _ | BackToLogin => signup_form_shown p
  | NavPhone | NavEmail | NavSignup => true
  end.

(** The handler each event runs. *)
Definition handle (w : W) (e : Event) : upd W :=
  match e with
  | SubmitPhone phone k =>
      let data := {| pf_phoneNumber := phone |} in
      submit_with (validate phoneSchema (phone_values data)) setPhoneErrors
                  (handleSendOtp w data k)
  | OtpChange v => onOtpChange v
  | VerifyClick => handleVerifyOtp w
  | EditClick => onEdit
  | ResendClick k => handleResendOtp k
  | SubmitEmail e pw =>
      let data := {| ef_email := e; ef_password := pw |} in
      submit_with (validate emailSchema (email_values data)) setEmailErrors (onEmailSignIn data)
  | TogglePassword => onTogglePassword w
  | SubmitSignup f l e pw now iso =>
      let data := {| rf_firstName := f; rf_lastName := l; rf_email := e; rf_password := pw;
                     rf_phoneNumber := signupPhone (page w) |} in
      submit_with (validate registerSchema (register_values data)) setSignupErrors
                  (onRegister data now iso)
  | BackToLogin => onBackToLogin
  | NavPhone => onNavPhone
  | NavEmail => onNavEmail
  | NavSignup => onNavSignup
  end.

Definition dispatch (e : Event) (w : W) : option W :=
  if enabled w e then Some (handle w e w) else None.

Definition page_step (w w' : W) : Prop := exists e, dispatch e w = Some w'.

Definition run (es : list Event) (w : W) : option W :=
  fold_left (fun ow e => match ow with Some w => dispatch e w | None => None end) es (Some w).

(** The page as mounted at ["/login"], with a given store and directory. *)
Definition mount (s : S) (users : list User) : W :=
  {| page := initial_page; store := s; route := "/login"; registered := users |}.
End Handlers.

(** [subtitle], lines 218-225. *)
Definition subtitle (m : Mode) : string :=
  match m with
  | SignupForm => "Complete Registration"
  | SignupPhone => "Sign Up"
  | EmailSignin => "Sign In with Email"
  | PhoneSignin => "Sign In with Phone"
  end.

End Login.
