(* ===== verification/LoginView.v ===== *)
(** * What the sign-in page renders

    [src/app/login/page.tsx], lines 226-603: the heading with the
    subtitle, then, by mode and step, the phone form, the code panel, the
    email form or the registration form, and the footer navigation.  The
    view is the list of the elements that carry behaviour: inputs with
    their [aria-invalid], the field errors react-hook-form exposes
    ([errors.x && <p>{errors.x.message}</p>]), the alerts, the buttons
    with their labels and [disabled], and the footer links with
    [aria-current].  Class names and icons are left out.

    [view_shows_resolver_errors] ties the view to the schemas: the
    registration form shows, under its own field, exactly the messages
    zod's resolver reports. *)

From Stdlib Require Import String List Bool Arith Lia.
From S2P Require Import Prelude Validators Store Login.
Import ListNotations.
Open Scope string_scope.

Module LoginView.
Import Zod Schemas Login.

Inductive Elem :=
| Heading (subtitle : string)
| Input (name : string) (invalid : bool)
| ReadOnlyInput (name : string) (invalid : bool)
| PasswordInput (name : string) (visible : bool) (invalid : bool)
| OtpInput (value : string)
| FieldError (name : string) (message : string)
| AlertError (message : string)
| AlertInfo (message : string)
| Button (label : string) (disabled : bool)
| TextButton (label : string)
| NavLink (label : string) (current : bool).

(** [errors.name?.message]: the message react-hook-form keeps for a
    field, the first of the resolver's for that path. *)
Definition field_msg (errs : errors) (f : string) : option string :=
  option_map snd (find (fun p => String.eqb (fst p) f) errs).

(** [{errors.f && <p>{errors.f.message}</p>}]. *)
Definition field_error_view (errs : errors) (f : string) : list Elem :=
  match field_msg errs f with Some m => [FieldError f m] | None => [] end.

Definition is_invalid (errs : errors) (f : string) : bool :=
  match field_msg errs f with Some _ => true | None => false end.

(** [{msg && <Alert ...>{msg}</Alert>}]. *)
Definition alert_error (m : string) : list Elem := if String.eqb m "" then [] else [AlertError m].
Definition alert_info (m : string) : list Elem := if String.eqb m "" then [] else [AlertInfo m].

(** The phone form, lines 257-298. *)
Definition phone_form_view (p : Page) : list Elem :=
  [Input "phoneNumber" (is_invalid (phoneErrors p) "phoneNumber")] ++
  field_error_view (phoneErrors p) "phoneNumber" ++ alert_error (otpError p) ++ alert_info (otpSuccess p) ++
  [Button (match mode p with SignupPhone => "Send OTP to Register" | _ => "Send OTP" end) false].

(** The code panel, lines 303-376. *)
Definition otp_panel_view (p : Page) : list Elem :=
  alert_info (otpSuccess p) ++ alert_error (otpError p) ++
  [OtpInput (otp p); Button "Verify OTP" (negb (String.length (otp p) =? 6)%nat);
   TextButton "Edit"; TextButton "Resend OTP"].

(** The email form, lines 380-445. *)
Definition email_form_view (p : Page) : list Elem :=
  [Input "email" (is_invalid (emailErrors p) "email")] ++ field_error_view (emailErrors p) "email" ++
  [PasswordInput "password" (showPassword p) (is_invalid (emailErrors p) "password");
   TextButton (if showPassword p then "Hide password" else "Show password")] ++
  field_error_view (emailErrors p) "password" ++ alert_error (authError p) ++ [Button "Sign In" false].

(** The registration form's fields, in the order they are rendered,
    lines 453-510. *)
Definition signup_fields : list string := ["firstName"; "lastName"; "email"; "phoneNumber"; "password"].

Definition signup_field_view (errs : errors) (f : string) : list Elem :=
  (if String.eqb f "phoneNumber" then [ReadOnlyInput f (is_invalid errs f)]
   else if String.eqb f "password" then [PasswordInput f false (is_invalid errs f)]
   else [Input f (is_invalid errs f)]) ++ field_error_view errs f.

(** The registration form, lines 448-527. *)
Definition signup_form_view (p : Page) : list Elem :=
  flat_map (signup_field_view (signupErrors p)) signup_fields ++
  [TextButton "Back to Login"; Button "Complete Registration" false].

(** The footer, lines 533-593: [aria-current] on the link of the mode,
    ["Sign up"] for both sign-up modes ([mode.startsWith("signup")]). *)
Definition footer_view (p : Page) : list Elem :=
  [NavLink "Login with phone" (Mode_eqb (mode p) PhoneSignin);
   NavLink "Login with email" (Mode_eqb (mode p) EmailSignin);
   NavLink "Sign up" (Mode_eqb (mode p) SignupPhone || Mode_eqb (mode p) SignupForm)].

(** The page, lines 226-603. *)
Definition login_view (p : Page) : list Elem :=
  [Heading (subtitle (mode p))] ++
  (if phone_form_shown p then phone_form_view p else []) ++
  (if otp_panel_shown p then otp_panel_view p else []) ++
  (if email_form_shown p then email_form_view p else []) ++
  (if signup_form_shown p then signup_form_view p else []) ++
  footer_view p.

(** ** The field errors shown *)

Section Shown.
Context `{EmailValidator}.

Lemma validate_keys (sch : schema) vals f :
  In f (map fst (validate sch vals)) -> In f (map fst sch).
Proof.
  induction sch as [|[n cs] sch IH]; cbn; [auto|].
  destruct (field_error cs (value_of n vals)); cbn; intuition.
Qed.

Lemma validate_nodup (sch : schema) vals : NoDup (map fst sch) -> NoDup (map fst (validate sch vals)).
Proof.
  induction sch as [|[n cs] sch IH]; cbn; intros Hnd; [constructor|].
  inversion Hnd as [|? ? Hn Hnd']; subst.
  destruct (field_error cs (value_of n vals)); cbn; [constructor|]; auto.
  intros Hin. apply Hn, (validate_keys _ vals), Hin.
Qed.

Lemma field_msg_In (errs : errors) f m :
  NoDup (map fst errs) -> field_msg errs f = Some m <-> In (f, m) errs.
Proof.
  induction errs as [|[g m'] errs IH]; cbn; intros Hnd; [split; [discriminate | contradiction]|].
  inversion Hnd as [|? ? Hg Hnd']; subst. unfold field_msg in *. cbn.
  destruct (String.eqb_spec g f) as [->|Hne]; cbn.
  - split; [intros [= ->]; left; reflexivity|].
    intros [[= ->] | Hin]; [reflexivity|]. exfalso. apply Hg. apply (in_map fst) in Hin. exact Hin.
  - rewrite IH by exact Hnd'. split; [auto|]. intros [[= -> _] | Hin]; [congruence | exact Hin].
Qed.

Lemma In_field_error_view errs f g m :
  In (FieldError g m) (field_error_view errs f) <-> g = f /\ field_msg errs f = Some m.
Proof.
  unfold field_error_view. destruct (field_msg errs f) as [m'|]; cbn.
  - split; [intros [[= -> ->] | []]; auto | intros [-> [= ->]]; auto].
  - split; [contradiction | intros [_ Hd]; discriminate].
Qed.

Lemma In_signup_fields_view errs g m :
  In (FieldError g m) (flat_map (signup_field_view errs) signup_fields) <->
  In g signup_fields /\ field_msg errs g = Some m.
Proof.
  rewrite in_flat_map. unfold signup_field_view. split.
  - intros (f & Hf & Hin). apply in_app_iff in Hin as [Hin | Hin].
    + destruct (String.eqb f "phoneNumber"), (String.eqb f "password"); cbn in Hin; intuition discriminate.
    + apply In_field_error_view in Hin as [-> Hm]. auto.
  - intros [Hg Hm]. exists g. split; [exact Hg|]. apply in_app_iff. right.
    apply In_field_error_view. auto.
Qed.

(** C12: When the registration form is shown with the errors zod's
    resolver reported for any values, the page shows exactly those
    messages, each under its own field: none is hidden and none is shown
    that the resolver did not report. *)
Theorem view_shows_resolver_errors (p : Page) (vals : list (string * string)) :
  mode p = SignupForm -> signupErrors p = validate registerSchema vals ->
  forall f m, In (FieldError f m) (login_view p) <-> In (f, m) (signupErrors p).
Proof.
  intros Hm He f m. unfold login_view, phone_form_shown, otp_panel_shown, email_form_shown, signup_form_shown.
  rewrite Hm. cbn [phone_mode Mode_eqb andb app].
  assert (Hnd : NoDup (map fst (signupErrors p))).
  { rewrite He. apply validate_nodup. cbn. repeat constructor; cbn; intuition discriminate. }
  rewrite <- field_msg_In by exact Hnd.
  unfold signup_form_view. cbn [In]. rewrite !in_app_iff, In_signup_fields_view. cbn [In].
  split.
  - intros [H1 | [[[Hg Hmsg] | H2] | H3]]; [discriminate | exact Hmsg | intuition discriminate |].
    unfold footer_view in H3. cbn in H3. intuition discriminate.
  - intros Hmsg. right. left. left. split; [|exact Hmsg].
    assert (Hk : In f (map fst (signupErrors p))).
    { apply field_msg_In in Hmsg; [|exact Hnd]. apply (in_map fst) in Hmsg. exact Hmsg. }
    rewrite He in Hk. apply validate_keys in Hk. cbn in Hk. cbn. intuition.
Qed.
End Shown.

Module Witnesses.
Import ZodEmail.

Definition bad_vals : list (string * string) :=
  [("firstName", ""); ("lastName", "Rao"); ("email", "nope"); ("password", "123");
   ("phoneNumber", "+12345678901")].

Definition signup_page : Page := {|
  mode := SignupForm; step := EnterPhone; generatedOtp := ""; otp := "";
  otpSuccess := ""; otpError := ""; showPassword := false; authError := "";
  phoneErrors := []; emailErrors := []; signupErrors := validate registerSchema bad_vals;
  signupPhone := "+12345678901" |}.

Lemma view_shows_resolver_errors_witness :
  mode signup_page = SignupForm /\ signupErrors signup_page = validate registerSchema bad_vals /\
  In ("email", "Invalid email") (signupErrors signup_page) /\
  In (FieldError "email" "Invalid email") (login_view signup_page).
Proof.
  assert (Hm : mode signup_page = SignupForm) by reflexivity.
  assert (He : signupErrors signup_page = validate registerSchema bad_vals) by reflexivity.
  assert (Hin : In ("email", "Invalid email") (signupErrors signup_page)) by (vm_compute; tauto).
  split; [exact Hm|]. split; [exact He|]. split; [exact Hin|].
  apply (view_shows_resolver_errors signup_page bad_vals Hm He). exact Hin.
Defined.
End Witnesses.

End LoginView.
