(* ===== verification/LoginProps.v ===== *)
(** * Properties of the sign-in page

    The theorems about [Login]: the invariant of every reachable page
    state ([page_inv], preserved by [dispatch], hence along [star
    page_step]), the behaviour of each handler on each of its branches,
    the safety of code verification, and the scenarios of the spec.
    They are proved for any session store meeting [Store.AuthStoreLaws]
    and any [Zod.EmailValidator]; the witnesses run them with the zustand
    store and zod 3's email check. *)

From Stdlib Require Import String Ascii List Bool Arith ZArith Lia.
From S2P Require Import Prelude Decimal Otp Validators Store Login.
Import ListNotations.
Open Scope string_scope.
Open Scope finomo_scope.

Module LoginProps.
Import Store Zod Schemas Login.

(** The proofs compute with the handlers' record updates; the code
    generator, the schemas and the phone check stay folded. *)
#[local] Arguments Otp.generateOTP : simpl never.
#[local] Arguments Otp.is_otp_code : simpl never.
#[local] Arguments Otp.valid_sample : simpl never.
#[local] Arguments valid_phone : simpl never.
#[local] Arguments validate : simpl never.

(** ** The invariant of the page *)

(** - the code panel is shown only with a six-digit code issued;
    - the registration form is shown at the identifier step, with a phone
      number that passed [phoneSchema];
    - in sign-up mode at the code step, the registration form's phone
      number is the validated one the code was sent for;
    - the typed code has at most six characters. *)
Definition page_inv (p : Page) : Prop :=
  (otp_panel_shown p = true -> Otp.is_otp_code (generatedOtp p) = true) /\
  (mode p = SignupForm -> step p = EnterPhone /\ valid_phone (signupPhone p) = true) /\
  (mode p = SignupPhone -> step p = EnterOtp -> valid_phone (signupPhone p) = true) /\
  (String.length (otp p) <= 6)%nat.

Lemma initial_page_inv : page_inv initial_page.
Proof. repeat split; simpl; try discriminate; lia. Qed.

Section Inv.
Context {S : Type} `{AuthStore S} `{EmailValidator}.

Lemma phone_errors_nil phone :
  validate phoneSchema (phone_values {| pf_phoneNumber := phone |}) = [] ->
  valid_phone phone = true.
Proof.
  rewrite phoneSchema_report. simpl. destruct (valid_phone phone); [auto | discriminate].
Qed.

Lemma submit_with_page (errs : errors) (setErrs : errors -> upd (World S)) onValid w :
  submit_with errs setErrs onValid w =
  match errs with [] => onValid (setErrs [] w) | _ => setErrs errs w end.
Proof. destruct errs; reflexivity. Qed.

Ltac inv_split :=
  unfold page_inv in *; cbn in *;
  repeat match goal with
  | H : ?x = ?x -> _ |- _ => specialize (H eq_refl)
  | H : _ /\ _ |- _ => destruct H
  | |- _ /\ _ => split
  end; auto; try discriminate; try lia.

Lemma dispatch_preserves_inv (e : Event) (w w' : World S) :
  page_inv (page w) -> dispatch e w = Some w' -> page_inv (page w').
Proof.
  unfold dispatch. destruct (enabled w e) eqn:En; [|discriminate]. intros Hinv [= <-].
  unfold enabled in En. apply andb_true_iff in En as [_ En].
  destruct w as [p s r us]. destruct p as [m st g o os oe sp ae pe ee se ph]. cbn in *.
  destruct e; cbn [handle]; destruct m, st; cbn in En; try discriminate.
  all: try rewrite submit_with_page.
  (* SubmitPhone: the code is issued for a validated number *)
  all: try (destruct (validate phoneSchema _) eqn:Ev;
            [apply phone_errors_nil in Ev; pose proof (Otp.generateOTP_code k En)|]).
  (* ResendClick *)
  all: try match type of En with
           | Otp.valid_sample ?k = true => pose proof (Otp.generateOTP_code k En)
           end.
  (* OtpChange: at most six characters *)
  all: try apply Nat.leb_le in En.
  all: try (destruct (validate emailSchema _)).
  all: try (destruct (validate registerSchema _)).
  all: try (unfold handleVerifyOtp; cbn; destruct (negb (o =? g))).
  all: try (unfold onEmailSignIn; cbn; destruct (_ && _)).
  all: inv_split.
Qed.

Lemma run_none_fold (es : list Event) :
  fold_left (fun ow e => match ow with Some w => dispatch e w | None => None end) es
            (@None (World S)) = None.
Proof. induction es; simpl; auto. Qed.

(** A run that succeeds is a path of the step relation. *)
Lemma run_star (es : list Event) (w w' : World S) :
  run es w = Some w' -> star page_step w w'.
Proof.
  unfold run. revert w. induction es as [|e es IH]; intros w Hr; simpl in Hr.
  - injection Hr as <-. apply star_refl.
  - destruct (dispatch e w) as [w1|] eqn:Hd.
    + eapply star_step; [exists e; exact Hd | apply IH; exact Hr].
    + rewrite run_none_fold in Hr. discriminate.
Qed.

Lemma reachable_page_inv (s : S) (users : list User) (w : World S) :
  star page_step (mount s users) w -> page_inv (page w).
Proof.
  intros Hr. apply (star_invariant page_step (fun w => page_inv (page w))) with (mount s users);
    [| assumption | apply initial_page_inv].
  intros a b Ha [e He]. exact (dispatch_preserves_inv e a b Ha He).
Qed.

(** C1: Every state the page can reach from its initial render satisfies
    the invariant. *)
Theorem reachable_inv (s : S) (users : list User) (w : World S) :
  star page_step (mount s users) w -> page_inv (page w).
Proof. apply reachable_page_inv. Qed.
End Inv.

(** ** Code verification *)

Section Verify.
Context {S : Type} `{AuthStoreLaws S} `{EmailValidator}.

Lemma dispatch_enabled (e : Event) (w w' : World S) :
  dispatch e w = Some w' -> enabled w e = true /\ w' = handle w e w.
Proof. unfold dispatch. destruct (enabled w e); [intros [= <-]; auto | discriminate]. Qed.

Lemma verify_mismatch_fields (w w' : World S) :
  dispatch VerifyClick w = Some w' -> otp (page w) <> generatedOtp (page w) ->
  mode (page w') = mode (page w) /\ step (page w') = step (page w) /\
  otp (page w') = otp (page w) /\ generatedOtp (page w') = generatedOtp (page w) /\
  otpError (page w') = "Invalid OTP. Please try again." /\ otpSuccess (page w') = "" /\
  store w' = store w /\ route w' = route w.
Proof.
  intros [_ ->]%dispatch_enabled Hne. destruct w as [[] s r us]; cbn in *.
  unfold handleVerifyOtp. cbn. apply String.eqb_neq in Hne. rewrite Hne. cbn. auto 10.
Qed.

(** C4: A wrong code sets the error banner and changes nothing else the
    user relies on: the mode, the step, the typed code and the issued
    code stay, and no session is opened. *)
Theorem verify_mismatch (w w' : World S) :
  dispatch VerifyClick w = Some w' -> otp (page w) <> generatedOtp (page w) ->
  mode (page w') = mode (page w) /\ step (page w') = step (page w) /\
  otp (page w') = otp (page w) /\ generatedOtp (page w') = generatedOtp (page w) /\
  otpError (page w') = "Invalid OTP. Please try again." /\ otpSuccess (page w') = "" /\
  store w' = store w /\ route w' = route w.
Proof. apply verify_mismatch_fields. Qed.

(** C5: The right code in phone sign-in opens a session as the mock
    administrator and navigates to the root, whatever number was
    entered and whoever registered. *)
Theorem verify_signin (w w' : World S) :
  dispatch VerifyClick w = Some w' -> mode (page w) = PhoneSignin ->
  otp (page w) = generatedOtp (page w) ->
  current_user (store w') = Some mockAdmin_user /\ isAuthenticated (store w') = true /\
  route w' = "/" /\ registered w' = registered w.
Proof.
  intros [_ ->]%dispatch_enabled Hm Heq. destruct w as [[] s r us]; cbn in *. subst.
  unfold handleVerifyOtp. cbn. rewrite String.eqb_refl. cbn.
  rewrite login_user, login_authenticated. auto.
Qed.

(** C6: The right code in sign-up mode moves to the registration form at
    the identifier step, clears the code state and keeps the verified
    number in the registration form; no session is opened. *)
Theorem verify_signup (w w' : World S) :
  dispatch VerifyClick w = Some w' -> mode (page w) = SignupPhone ->
  otp (page w) = generatedOtp (page w) ->
  mode (page w') = SignupForm /\ step (page w') = EnterPhone /\
  generatedOtp (page w') = "" /\ otp (page w') = "" /\ otpError (page w') = "" /\
  otpSuccess (page w') = "" /\ signupPhone (page w') = signupPhone (page w) /\
  store w' = store w /\ route w' = route w.
Proof.
  intros [_ ->]%dispatch_enabled Hm Heq. destruct w as [[] s r us]; cbn in *. subst.
  unfold handleVerifyOtp. cbn. rewrite String.eqb_refl. cbn. auto 10.
Qed.

(** C2: Safety of verification: on a reachable page, a verification that
    leaves no error accepted a typed code equal to the issued one, and
    that code is a six-digit code; the empty issued code ([""] after
    an edit or a mode change) is never accepted. *)
Theorem verify_accepts_only_issued_code (s : S) (us : list User) (w w' : World S) :
  star page_step (mount s us) w -> dispatch VerifyClick w = Some w' ->
  otpError (page w') = "" ->
  otp (page w) = generatedOtp (page w) /\ Otp.is_otp_code (generatedOtp (page w)) = true.
Proof.
  intros Hr Hd Herr. pose proof (reachable_page_inv s us w Hr) as (Hcode & _).
  destruct (dispatch_enabled _ _ _ Hd) as [En ->].
  apply andb_true_iff in En as [_ En]. unfold verify_enabled in En.
  apply andb_true_iff in En as [Hshown _].
  destruct (String.eqb_spec (otp (page w)) (generatedOtp (page w))) as [Heq|Hne].
  - auto.
  - exfalso. destruct (verify_mismatch_fields w _ Hd Hne) as (_ & _ & _ & _ & He & _).
    rewrite He in Herr. discriminate.
Qed.

(** C19: [handleResendOtp]: a fresh code is issued, the typed code and the
    error are cleared, the step stays at code entry. *)
Theorem resend_fresh (k : Z) (w w' : World S) :
  dispatch (ResendClick k) w = Some w' ->
  generatedOtp (page w') = Otp.generateOTP k /\ Otp.is_otp_code (generatedOtp (page w')) = true /\
  otp (page w') = "" /\ otpError (page w') = "" /\
  otpSuccess (page w') = "New OTP sent (Demo): " ++ Otp.generateOTP k /\
  step (page w') = step (page w) /\ mode (page w') = mode (page w).
Proof.
  intros [En ->]%dispatch_enabled. apply andb_true_iff in En as [_ En].
  apply andb_true_iff in En as [_ Hk]. pose proof (Otp.generateOTP_code k Hk).
  destruct w as [[] s r us]; cbn in *. auto 10.
Qed.
End Verify.

(** ** Navigation between the forms *)

Section Nav.
Context {S : Type} `{AuthStore S} `{EmailValidator}.

(** "Login with phone" and "Sign up" return to the identifier step and
    discard the outstanding code. *)
Theorem nav_phone_signup_reset (e : Event) (w w' : World S) :
  (e = NavPhone \/ e = NavSignup) -> dispatch e w = Some w' ->
  step (page w') = EnterPhone /\ generatedOtp (page w') = "" /\ otp (page w') = "" /\
  otpError (page w') = "" /\ otpSuccess (page w') = "" /\
  mode (page w') = (if Mode_eqb (mode (page w')) PhoneSignin then PhoneSignin else SignupPhone).
Proof.
  intros [-> | ->] [_ ->]%dispatch_enabled; destruct w as [[] s r us]; cbn; auto 10.
Qed.

(** C32: "Login with email" clears the code, not the step: a page left at
    the code step keeps [step = EnterOtp] behind the email form. *)
Theorem nav_email_keeps_step (w w' : World S) :
  dispatch NavEmail w = Some w' ->
  mode (page w') = EmailSignin /\ step (page w') = step (page w) /\
  generatedOtp (page w') = "" /\ otp (page w') = "" /\ authError (page w') = "".
Proof. intros [_ ->]%dispatch_enabled. destruct w as [[] s r us]; cbn; auto 10. Qed.

(** After "Back to Login" on a reachable page the identifier step is
    shown: the handler does not reset the step, the invariant does. *)
Theorem back_to_login_step (s : S) (us : list User) (w w' : World S) :
  star page_step (mount s us) w -> dispatch BackToLogin w = Some w' ->
  mode (page w') = PhoneSignin /\ step (page w') = EnterPhone /\ generatedOtp (page w') = "".
Proof.
  intros Hr Hd. pose proof (reachable_page_inv s us w Hr) as (_ & Hform & _).
  destruct (dispatch_enabled _ _ _ Hd) as [En ->].
  destruct w as [[m st] s' r us']; cbn in *.
  destruct m; unfold enabled in En; cbn in En; try (rewrite andb_false_r in En; discriminate).
  destruct (Hform eq_refl) as [-> _]. auto.
Qed.
End Nav.

(** ** Email sign-in *)

Section Email.
Context {S : Type} `{AuthStoreLaws S} `{EmailValidator}.

Lemma email_errors_nil e pw :
  validate emailSchema (email_values {| ef_email := e; ef_password := pw |}) = [] <->
  is_email e = true /\ (6 <= String.length pw)%nat.
Proof.
  rewrite emailSchema_report. cbn [ef_email ef_password].
  destruct (is_email e), (Nat.leb_spec 6 (String.length pw)); cbn; split;
    intros; try discriminate; intuition (try lia; try discriminate).
Qed.

(** C7: A submission the schema accepts signs in exactly with the demo
    credentials; any other pair gets the one generic message and the
    page stays on the email form. *)
Theorem email_signin (e pw : string) (w w' : World S) :
  dispatch (SubmitEmail e pw) w = Some w' ->
  is_email e = true -> (6 <= String.length pw)%nat ->
  mode (page w') = EmailSignin /\ emailErrors (page w') = [] /\
  if String.eqb e mockAdmin_email && String.eqb pw mockAdmin_password
  then current_user (store w') = Some mockAdmin_user /\ route w' = "/" /\ authError (page w') = ""
  else authError (page w') = "Invalid email or password" /\ store w' = store w /\ route w' = route w.
Proof.
  intros Hd He Hp. destruct (dispatch_enabled _ _ _ Hd) as [En ->].
  assert (Hv : validate emailSchema (email_values {| ef_email := e; ef_password := pw |}) = [])
    by (apply email_errors_nil; auto).
  destruct w as [[m] s r us]. destruct m; unfold enabled in En; cbn in En;
    try (rewrite andb_false_r in En; discriminate).
  cbn [handle]. rewrite submit_with_page, Hv. unfold onEmailSignIn. cbn.
  destruct (String.eqb e mockAdmin_email && String.eqb pw mockAdmin_password); cbn; [rewrite login_user|]; auto 10.
Qed.

(** C27: A submission the schema rejects stores the field errors and runs
    nothing: no authentication message, no session. *)
Theorem email_invalid (e pw : string) (w w' : World S) :
  dispatch (SubmitEmail e pw) w = Some w' ->
  validate emailSchema (email_values {| ef_email := e; ef_password := pw |}) <> [] ->
  emailErrors (page w') = validate emailSchema (email_values {| ef_email := e; ef_password := pw |}) /\
  authError (page w') = authError (page w) /\ mode (page w') = mode (page w) /\
  store w' = store w /\ route w' = route w.
Proof.
  intros [_ ->]%dispatch_enabled Hne. cbn [handle]. rewrite submit_with_page.
  destruct (validate emailSchema _) as [|x l]; [contradiction|].
  destruct w as [[] s r us]; cbn; auto 10.
Qed.
End Email.

(** ** Registration *)

Section Register.
Context {S : Type} `{AuthStoreLaws S} `{EmailValidator}.

Definition register_form (w : World S) (f l e pw : string) : RegisterForm :=
  {| rf_firstName := f; rf_lastName := l; rf_email := e; rf_password := pw;
     rf_phoneNumber := signupPhone (page w) |}.

(** C20: An accepted registration appends the new user to
    [mockRegisteredUsers], signs in as that user and navigates to the
    root; the user is an administrator named ["first last"], and carries
    no phone number. *)
Theorem register_success f l e pw now iso (w w' : World S) :
  dispatch (SubmitSignup f l e pw now iso) w = Some w' ->
  validate registerSchema (register_values (register_form w f l e pw)) = [] ->
  let u := newUser (register_form w f l e pw) now iso in
  registered w' = (registered w ++ [u])%list /\ current_user (store w') = Some u /\ route w' = "/" /\
  u_role u = Admin /\ u_name u = f ++ " " ++ l /\ u_email u = e.
Proof.
  intros [_ ->]%dispatch_enabled Hv. cbn [handle]. unfold register_form in Hv.
  rewrite submit_with_page, Hv. destruct w as [[] s r us]; cbn. rewrite login_user. auto 10.
Qed.

(** C28: The registration contract rejects an empty first name with an error
    on that field, and the rejection has no side effect. *)
Theorem register_empty_first_name l e pw now iso (w w' : World S) :
  dispatch (SubmitSignup "" l e pw now iso) w = Some w' ->
  In ("firstName", "Required") (signupErrors (page w')) /\
  registered w' = registered w /\ store w' = store w /\ route w' = route w /\
  mode (page w') = mode (page w).
Proof.
  intros [_ ->]%dispatch_enabled. cbn [handle]. rewrite submit_with_page, registerSchema_report.
  destruct w as [[] s r us]; cbn. auto 10.
Qed.
End Register.

(** ** Concrete runs: the witnesses *)

Module Witnesses.
Import Zustand ZodEmail.

Definition w_start : World Zustand.state := mount Zustand.initial mockRegisteredUsers_init.

(** The [Math.random()] sample whose code is ["482913"]. *)
Definition k0 : Z := Otp.sample_lo 382913.

Definition after (es : list Event) (w : World Zustand.state) : World Zustand.state :=
  match run es w with Some w' => w' | None => w end.

Definition w_code := after [SubmitPhone "+12345678901" k0] w_start.
Definition w_typed := after [OtpChange "482913"] w_code.
Definition w_wrong := after [OtpChange "111111"] w_code.
Definition w_signup := after [NavSignup; SubmitPhone "+19998887777" k0; OtpChange "482913"] w_start.
Definition w_form := after [VerifyClick] w_signup.
Definition w_email := after [NavEmail] w_start.

(** Reachability of a concrete state, checked by evaluating the run. *)
Ltac by_run es := apply (run_star es); vm_compute; reflexivity.

Lemma reachable_inv_witness :
  star page_step w_start w_code /\ page_inv (page w_code).
Proof.
  assert (Hr : star page_step w_start w_code)
    by (by_run [SubmitPhone "+12345678901" k0]).
  split; [exact Hr | exact (reachable_inv Zustand.initial mockRegisteredUsers_init w_code Hr)].
Defined.

Lemma verify_accepts_only_issued_code_witness :
  star page_step w_start w_typed /\ dispatch VerifyClick w_typed = Some (after [VerifyClick] w_typed) /\
  otpError (page (after [VerifyClick] w_typed)) = "" /\
  otp (page w_typed) = generatedOtp (page w_typed) /\ Otp.is_otp_code (generatedOtp (page w_typed)) = true.
Proof.
  assert (Hr : star page_step w_start w_typed)
    by (by_run [SubmitPhone "+12345678901" k0; OtpChange "482913"]).
  assert (Hd : dispatch VerifyClick w_typed = Some (after [VerifyClick] w_typed)) by (vm_compute; reflexivity).
  assert (He : otpError (page (after [VerifyClick] w_typed)) = "") by (vm_compute; reflexivity).
  split; [exact Hr|]. split; [exact Hd|]. split; [exact He|].
  exact (verify_accepts_only_issued_code Zustand.initial mockRegisteredUsers_init _ _ Hr Hd He).
Defined.

Lemma verify_mismatch_witness :
  dispatch VerifyClick w_wrong = Some (after [VerifyClick] w_wrong) /\
  otp (page w_wrong) <> generatedOtp (page w_wrong) /\
  otpError (page (after [VerifyClick] w_wrong)) = "Invalid OTP. Please try again." /\
  step (page (after [VerifyClick] w_wrong)) = step (page w_wrong).
Proof.
  assert (Hd : dispatch VerifyClick w_wrong = Some (after [VerifyClick] w_wrong)) by (vm_compute; reflexivity).
  assert (Hne : otp (page w_wrong) <> generatedOtp (page w_wrong)) by (vm_compute; discriminate).
  destruct (verify_mismatch _ _ Hd Hne) as (_ & Hst & _ & _ & He & _).
  repeat split; assumption.
Defined.

Lemma verify_signin_witness :
  dispatch VerifyClick w_typed = Some (after [VerifyClick] w_typed) /\
  mode (page w_typed) = PhoneSignin /\ otp (page w_typed) = generatedOtp (page w_typed) /\
  current_user (store (after [VerifyClick] w_typed)) = Some mockAdmin_user /\
  route (after [VerifyClick] w_typed) = "/".
Proof.
  assert (Hd : dispatch VerifyClick w_typed = Some (after [VerifyClick] w_typed)) by (vm_compute; reflexivity).
  assert (Hm : mode (page w_typed) = PhoneSignin) by (vm_compute; reflexivity).
  assert (Heq : otp (page w_typed) = generatedOtp (page w_typed)) by (vm_compute; reflexivity).
  destruct (verify_signin _ _ Hd Hm Heq) as (Hu & _ & Hr & _). repeat split; assumption.
Defined.

Lemma verify_signup_witness :
  dispatch VerifyClick w_signup = Some w_form /\ mode (page w_signup) = SignupPhone /\
  otp (page w_signup) = generatedOtp (page w_signup) /\
  mode (page w_form) = SignupForm /\ signupPhone (page w_form) = "+19998887777".
Proof.
  assert (Hd : dispatch VerifyClick w_signup = Some w_form) by (vm_compute; reflexivity).
  assert (Hm : mode (page w_signup) = SignupPhone) by (vm_compute; reflexivity).
  assert (Heq : otp (page w_signup) = generatedOtp (page w_signup)) by (vm_compute; reflexivity).
  destruct (verify_signup _ _ Hd Hm Heq) as (Hf & _ & _ & _ & _ & _ & Hp & _).
  split; [exact Hd|]. split; [exact Hm|]. split; [exact Heq|]. split; [exact Hf|].
  rewrite Hp. vm_compute. reflexivity.
Defined.

Lemma resend_fresh_witness :
  dispatch (ResendClick 0) w_code = Some (after [ResendClick 0] w_code) /\
  generatedOtp (page (after [ResendClick 0] w_code)) = "100000".
Proof.
  assert (Hd : dispatch (ResendClick 0) w_code = Some (after [ResendClick 0] w_code)) by (vm_compute; reflexivity).
  destruct (resend_fresh 0 _ _ Hd) as (Hg & _). split; [exact Hd|]. rewrite Hg. vm_compute. reflexivity.
Defined.

Lemma nav_phone_signup_reset_witness :
  (NavSignup = NavPhone \/ NavSignup = NavSignup) /\
  dispatch NavSignup w_code = Some (after [NavSignup] w_code) /\
  step (page (after [NavSignup] w_code)) = EnterPhone.
Proof.
  assert (He : NavSignup = NavPhone \/ NavSignup = NavSignup) by (right; reflexivity).
  assert (Hd : dispatch NavSignup w_code = Some (after [NavSignup] w_code)) by (vm_compute; reflexivity).
  destruct (nav_phone_signup_reset _ _ _ He Hd) as (Hs & _). auto.
Defined.

Lemma nav_email_keeps_step_witness :
  dispatch NavEmail w_code = Some (after [NavEmail] w_code) /\
  step (page (after [NavEmail] w_code)) = EnterOtp /\ mode (page (after [NavEmail] w_code)) = EmailSignin.
Proof.
  assert (Hd : dispatch NavEmail w_code = Some (after [NavEmail] w_code)) by (vm_compute; reflexivity).
  destruct (nav_email_keeps_step _ _ Hd) as (Hm & Hs & _).
  split; [exact Hd|]. rewrite Hs. split; [vm_compute; reflexivity | exact Hm].
Defined.

Lemma back_to_login_step_witness :
  star page_step w_start w_form /\ dispatch BackToLogin w_form = Some (after [BackToLogin] w_form) /\
  step (page (after [BackToLogin] w_form)) = EnterPhone.
Proof.
  assert (Hr : star page_step w_start w_form)
    by (by_run [NavSignup; SubmitPhone "+19998887777" k0; OtpChange "482913"; VerifyClick]).
  assert (Hd : dispatch BackToLogin w_form = Some (after [BackToLogin] w_form)) by (vm_compute; reflexivity).
  destruct (back_to_login_step Zustand.initial mockRegisteredUsers_init _ _ Hr Hd) as (_ & Hs & _).
  auto.
Defined.

Lemma email_signin_witness :
  dispatch (SubmitEmail "ramesh@gmail.com" "Ramesh@123") w_email =
    Some (after [SubmitEmail "ramesh@gmail.com" "Ramesh@123"] w_email) /\
  is_email "ramesh@gmail.com" = true /\ (6 <= String.length "Ramesh@123")%nat /\
  route (after [SubmitEmail "ramesh@gmail.com" "Ramesh@123"] w_email) = "/".
Proof.
  assert (Hd : dispatch (SubmitEmail "ramesh@gmail.com" "Ramesh@123") w_email =
               Some (after [SubmitEmail "ramesh@gmail.com" "Ramesh@123"] w_email)) by (vm_compute; reflexivity).
  assert (He : is_email "ramesh@gmail.com" = true) by (vm_compute; reflexivity).
  assert (Hp : (6 <= String.length "Ramesh@123")%nat) by (vm_compute; lia).
  pose proof (email_signin _ _ _ _ Hd He Hp) as (_ & _ & Hb). cbv in Hb.
  destruct Hb as (_ & Hr & _). auto.
Defined.

Lemma email_invalid_witness :
  dispatch (SubmitEmail "x@y.com" "wrong") w_email = Some (after [SubmitEmail "x@y.com" "wrong"] w_email) /\
  validate emailSchema (email_values {| ef_email := "x@y.com"; ef_password := "wrong" |}) <> [] /\
  authError (page (after [SubmitEmail "x@y.com" "wrong"] w_email)) = "".
Proof.
  assert (Hd : dispatch (SubmitEmail "x@y.com" "wrong") w_email =
               Some (after [SubmitEmail "x@y.com" "wrong"] w_email)) by (vm_compute; reflexivity).
  assert (Hv : validate emailSchema (email_values {| ef_email := "x@y.com"; ef_password := "wrong" |}) <> [])
    by (vm_compute; discriminate).
  destruct (email_invalid _ _ _ _ Hd Hv) as (_ & Ha & _). split; [exact Hd|]. split; [exact Hv|].
  rewrite Ha. vm_compute. reflexivity.
Defined.

Lemma register_success_witness :
  let w' := after [SubmitSignup "Asha" "Rao" "asha@rao.in" "secret1" 1700000000000 "2023-11-14T22:13:20.000Z"] w_form in
  dispatch (SubmitSignup "Asha" "Rao" "asha@rao.in" "secret1" 1700000000000 "2023-11-14T22:13:20.000Z") w_form = Some w' /\
  validate registerSchema (register_values (register_form w_form "Asha" "Rao" "asha@rao.in" "secret1")) = [] /\
  route w' = "/".
Proof.
  cbv zeta.
  assert (Hd : dispatch (SubmitSignup "Asha" "Rao" "asha@rao.in" "secret1" 1700000000000 "2023-11-14T22:13:20.000Z") w_form =
               Some (after [SubmitSignup "Asha" "Rao" "asha@rao.in" "secret1" 1700000000000 "2023-11-14T22:13:20.000Z"] w_form))
    by (vm_compute; reflexivity).
  assert (Hv : validate registerSchema (register_values (register_form w_form "Asha" "Rao" "asha@rao.in" "secret1")) = [])
    by (vm_compute; reflexivity).
  destruct (register_success _ _ _ _ _ _ _ _ Hd Hv) as (_ & _ & Hr & _). auto.
Defined.

Lemma register_empty_first_name_witness :
  dispatch (SubmitSignup "" "Rao" "asha@rao.in" "secret1" 0 "") w_form =
    Some (after [SubmitSignup "" "Rao" "asha@rao.in" "secret1" 0 ""] w_form) /\
  In ("firstName", "Required") (signupErrors (page (after [SubmitSignup "" "Rao" "asha@rao.in" "secret1" 0 ""] w_form))).
Proof.
  assert (Hd : dispatch (SubmitSignup "" "Rao" "asha@rao.in" "secret1" 0 "") w_form =
               Some (after [SubmitSignup "" "Rao" "asha@rao.in" "secret1" 0 ""] w_form)) by (vm_compute; reflexivity).
  destruct (register_empty_first_name _ _ _ _ _ _ _ Hd) as (Hin & _). auto.
Defined.

End Witnesses.

End LoginProps.
