(* ===== verification/LoginScenarios.v ===== *)
(** * End-to-end runs of the sign-in page

    Sequences of events from the page's first render ([Login.mount]):
    the phone sign-in and the sign-up flows succeed for every valid
    number, code sample and registration ([phone_signin_flow],
    [signup_flow]); from every state of the page at ["/login"] a session
    can still be opened ([signin_always_reachable]); the concrete
    scenarios of the spec (section 8) are their instances, run with the
    zustand store and zod 3's email check. *)

From Stdlib Require Import String Ascii List Bool Arith ZArith Lia.
From S2P Require Import Prelude Decimal Otp Validators Store Login LoginProps.
Import ListNotations.
Open Scope string_scope.
Open Scope finomo_scope.

Module LoginScenarios.
Import Store Zod Schemas Login LoginProps.

#[local] Arguments Otp.generateOTP : simpl never.
#[local] Arguments Otp.is_otp_code : simpl never.
#[local] Arguments Otp.valid_sample : simpl never.
#[local] Arguments valid_phone : simpl never.
#[local] Arguments validate : simpl never.
#[local] Arguments is_email : simpl never.

(** Evaluate the handlers, keeping the generator and the checks folded. *)
Ltac crunch :=
  unfold dispatch, enabled, handle, mount, submit_with, handleSendOtp, handleVerifyOtp,
    onOtpChange, onEmailSignIn, onRegister, onNavEmail, onNavSignup, verify_enabled,
    otp_panel_shown, phone_form_shown, email_form_shown, signup_form_shown in *; simpl.

Section Runs.
Context {S : Type} `{AuthStoreLaws S} `{EmailValidator}.

Lemma run_nil (w : World S) : run [] w = Some w.
Proof. reflexivity. Qed.

Lemma run_none (es : list Event) :
  fold_left (fun ow e => match ow with Some w => dispatch e w | None => None end) es
            (@None (World S)) = None.
Proof. induction es; simpl; auto. Qed.

Lemma run_cons (e : Event) (es : list Event) (w : World S) :
  run (e :: es) w = match dispatch e w with Some w' => run es w' | None => None end.
Proof. unfold run. simpl. destruct (dispatch e w); [reflexivity | apply run_none]. Qed.

Lemma phone_errors_of_valid phone :
  valid_phone phone = true -> validate phoneSchema (phone_values {| pf_phoneNumber := phone |}) = [].
Proof. intros Hv. rewrite phoneSchema_report. cbn. rewrite Hv. reflexivity. Qed.

Lemma otp_code_length c : Otp.is_otp_code c = true -> String.length c = 6%nat.
Proof. unfold Otp.is_otp_code. intros Hc. bool_to_prop. assumption. Qed.

(** C21: The code a user reads from the banner and types is accepted: with
    any valid number and sample, submitting, typing the issued code and
    verifying opens the administrator's session at ["/"]. *)
Theorem phone_signin_flow (s : S) (us : list User) (phone : string) (k : Z) :
  valid_phone phone = true -> Otp.valid_sample k = true ->
  exists w, run [SubmitPhone phone k; OtpChange (Otp.generateOTP k); VerifyClick] (mount s us) = Some w /\
    current_user (store w) = Some mockAdmin_user /\ route w = "/" /\ registered w = us.
Proof.
  intros Hp Hk. pose proof (otp_code_length _ (Otp.generateOTP_code k Hk)) as Hlen.
  rewrite run_cons. crunch. rewrite Hk, (phone_errors_of_valid phone Hp). crunch.
  rewrite run_cons. crunch. rewrite Hlen. crunch.
  rewrite run_cons. crunch. rewrite Hlen, String.eqb_refl. crunch.
  eexists. split; [reflexivity|]. cbn. rewrite login_user. auto.
Qed.

Lemma register_errors_of_valid f l e pw phone :
  (1 <= String.length f)%nat -> (1 <= String.length l)%nat -> is_email e = true ->
  (6 <= String.length pw)%nat -> valid_phone phone = true ->
  validate registerSchema (register_values {| rf_firstName := f; rf_lastName := l; rf_email := e;
                                             rf_password := pw; rf_phoneNumber := phone |}) = [].
Proof.
  intros Hf Hl He Hpw Hp. rewrite registerSchema_report. cbn [rf_firstName rf_lastName rf_email rf_password rf_phoneNumber].
  apply Nat.leb_le in Hf, Hl, Hpw. rewrite Hf, Hl, He, Hpw, Hp. reflexivity.
Qed.

(** C22: Sign-up: the verified number is carried, read-only, into the
    registration form, and completing the form registers and signs in a
    new administrator named after the form. *)
Theorem signup_flow (s : S) (us : list User) phone k f l e pw now iso :
  valid_phone phone = true -> Otp.valid_sample k = true ->
  (1 <= String.length f)%nat -> (1 <= String.length l)%nat -> is_email e = true ->
  (6 <= String.length pw)%nat ->
  exists w1 w,
    run [NavSignup; SubmitPhone phone k; OtpChange (Otp.generateOTP k); VerifyClick] (mount s us) = Some w1 /\
    mode (page w1) = SignupForm /\ signupPhone (page w1) = phone /\
    dispatch (SubmitSignup f l e pw now iso) w1 = Some w /\
    registered w = (us ++ [newUser (register_form w1 f l e pw) now iso])%list /\
    current_user (store w) = Some (newUser (register_form w1 f l e pw) now iso) /\ route w = "/".
Proof.
  intros Hp Hk Hf Hl He Hpw. pose proof (otp_code_length _ (Otp.generateOTP_code k Hk)) as Hlen.
  rewrite run_cons. crunch. rewrite run_cons. crunch. rewrite Hk, (phone_errors_of_valid phone Hp). crunch.
  rewrite run_cons. crunch. rewrite Hlen. crunch.
  rewrite run_cons. crunch. rewrite Hlen, String.eqb_refl. crunch.
  eexists; eexists. split; [reflexivity|]. split; [reflexivity|]. split; [reflexivity|].
  unfold register_form. crunch.
  rewrite register_errors_of_valid by assumption. crunch.
  split; [reflexivity|]. cbn. rewrite login_user. auto.
Qed.

(** C33: From every state of the page at ["/login"], the email form with the
    demo credentials opens a session: no state of the page is a dead
    end. *)
Theorem signin_always_reachable (w : World S) :
  route w = "/login" -> is_email mockAdmin_email = true ->
  exists w', run [NavEmail; SubmitEmail mockAdmin_email mockAdmin_password] w = Some w' /\
    current_user (store w') = Some mockAdmin_user /\ route w' = "/".
Proof.
  intros Hr He. rewrite !run_cons. unfold dispatch at 1, enabled. rewrite Hr. crunch.
  assert (Hv : validate emailSchema (email_values {| ef_email := mockAdmin_email;
                                                    ef_password := mockAdmin_password |}) = [])
    by (apply email_errors_nil; split; [exact He | cbn; lia]).
  rewrite run_cons. crunch. rewrite Hr, Hv. crunch.
  eexists. split; [reflexivity|]. cbn. rewrite login_user. auto.
Qed.
End Runs.

(** ** The scenarios of the spec, with the zustand store and zod's check *)

Module Scenarios.
Import Zustand ZodEmail.

Definition start : World Zustand.state := mount Zustand.initial mockRegisteredUsers_init.

(** The [Math.random()] sample whose code is ["482913"]. *)
Definition k482913 : Z := Otp.sample_lo 382913.

Lemma phone_signin_flow_witness :
  valid_phone "+12345678901" = true /\ Otp.valid_sample k482913 = true /\
  Otp.generateOTP k482913 = "482913" /\
  exists w, run [SubmitPhone "+12345678901" k482913; OtpChange "482913"; VerifyClick] start = Some w /\
    current_user (store w) = Some mockAdmin_user /\ route w = "/" /\ registered w = mockRegisteredUsers_init.
Proof.
  assert (Hp : valid_phone "+12345678901" = true) by (vm_compute; reflexivity).
  assert (Hk : Otp.valid_sample k482913 = true) by (vm_compute; reflexivity).
  assert (Hc : Otp.generateOTP k482913 = "482913") by (vm_compute; reflexivity).
  split; [exact Hp|]. split; [exact Hk|]. split; [exact Hc|]. rewrite <- Hc.
  exact (phone_signin_flow Zustand.initial mockRegisteredUsers_init _ _ Hp Hk).
Defined.

Lemma signup_flow_witness :
  valid_phone "+19998887777" = true /\ Otp.valid_sample k482913 = true /\
  (1 <= String.length "Asha")%nat /\ (1 <= String.length "Rao")%nat /\ is_email "asha@rao.in" = true /\
  (6 <= String.length "secret1")%nat /\
  exists w1 w,
    run [NavSignup; SubmitPhone "+19998887777" k482913; OtpChange (Otp.generateOTP k482913); VerifyClick] start = Some w1 /\
    mode (page w1) = SignupForm /\ signupPhone (page w1) = "+19998887777" /\
    dispatch (SubmitSignup "Asha" "Rao" "asha@rao.in" "secret1" 1700000000000 "2023-11-14T22:13:20.000Z") w1 = Some w /\
    registered w = (mockRegisteredUsers_init ++
      [newUser (register_form w1 "Asha" "Rao" "asha@rao.in" "secret1") 1700000000000 "2023-11-14T22:13:20.000Z"])%list /\
    current_user (store w) =
      Some (newUser (register_form w1 "Asha" "Rao" "asha@rao.in" "secret1") 1700000000000 "2023-11-14T22:13:20.000Z") /\
    route w = "/".
Proof.
  assert (Hp : valid_phone "+19998887777" = true) by (vm_compute; reflexivity).
  assert (Hk : Otp.valid_sample k482913 = true) by (vm_compute; reflexivity).
  assert (Hf : (1 <= String.length "Asha")%nat) by (vm_compute; lia).
  assert (Hl : (1 <= String.length "Rao")%nat) by (vm_compute; lia).
  assert (He : is_email "asha@rao.in" = true) by (vm_compute; reflexivity).
  assert (Hpw : (6 <= String.length "secret1")%nat) by (vm_compute; lia).
  do 6 (split; [assumption|]).
  exact (signup_flow Zustand.initial mockRegisteredUsers_init _ _ _ _ _ _ _ _ Hp Hk Hf Hl He Hpw).
Defined.

Lemma signin_always_reachable_witness :
  route start = "/login" /\ is_email mockAdmin_email = true /\
  exists w', run [NavEmail; SubmitEmail mockAdmin_email mockAdmin_password] start = Some w' /\
    current_user (store w') = Some mockAdmin_user /\ route w' = "/".
Proof.
  assert (Hr : route start = "/login") by reflexivity.
  assert (He : is_email mockAdmin_email = true) by (vm_compute; reflexivity).
  split; [exact Hr|]. split; [exact He|]. exact (signin_always_reachable start Hr He).
Defined.


(** With a password the schema accepts, a wrong pair gets the generic
    message, as the spec says. *)
Example email_mismatch_scenario :
  exists w, run [NavEmail; SubmitEmail "x@y.com" "wrong-password"] start = Some w /\
    emailErrors (page w) = [] /\ authError (page w) = "Invalid email or password" /\
    mode (page w) = EmailSignin /\ store w = Zustand.initial.
Proof. eexists. split; [vm_compute; reflexivity|]. vm_compute. auto. Qed.

End Scenarios.

End LoginScenarios.
