(* ===== verification/Dashboard.v ===== *)
(** * The dashboard landing page and the hand-off from sign-in

    [src/app/page.tsx], lines 13-87: the page at ["/"] reads
    [isAuthenticated] and [user] from the session store.  Its effect
    ([useEffect], lines 17-32) replaces the route with ["/login"] when
    there is no session and with a role's own dashboard for teachers and
    parents; its render (lines 34-86) shows a loading screen, a
    redirecting screen, or the administrator's dashboard greeting the user
    by name.

    [handoff_admin] composes it with the sign-in page: every event of the
    page that leaves ["/login"] has opened a session for an
    administrator, so the dashboard renders and redirects nowhere. *)

From Stdlib Require Import String List Bool.
From S2P Require Import Prelude Store Validators Login LoginProps.
Import ListNotations.
Open Scope string_scope.

Module Dashboard.
Import Store Login LoginProps.

(** What the page renders. *)
Inductive View :=
| LoadingView                        (** lines 34-45 *)
| RedirectingView                    (** lines 47-58 *)
| DashboardView (greeting : string). (** lines 60-86 *)

Section WithStore.
Context {S : Type} `{AuthStore S}.

(** The session as the page reads it: [!isAuthenticated || !user] is
    no session. *)
Definition session_user (s : S) : option User :=
  if isAuthenticated s then current_user s else None.

(** The effect, lines 17-32: the route it replaces the current one with. *)
Definition dashboard_effect (s : S) : option string :=
  match session_user s with
  | None => Some "/login"
  | Some u =>
      match u_role u with
      | Teacher => Some "/teacher/dashboard"
      | Parent => Some "/parent/dashboard"
      | Admin => None
      end
  end.

(** The render, lines 34-86. *)
Definition dashboard_view (s : S) : View :=
  match session_user s with
  | None => LoadingView
  | Some u =>
      match u_role u with
      | Admin => DashboardView ("Good to see you, " ++ u_name u)
      | _ => RedirectingView
      end
  end.
End WithStore.

(** ** The hand-off from the sign-in page *)

Section Handoff.
Context {S : Type} `{AuthStoreLaws S} `{Zod.EmailValidator}.

(** Leaving ["/login"] always follows a [login] of an administrator
    in the same event. *)
Lemma dispatch_leaves_login (e : Event) (w w' : World S) :
  dispatch e w = Some w' -> route w' <> route w ->
  exists u, store w' = login u (store w) /\ u_role u = Admin /\ route w' = "/".
Proof.
  unfold dispatch. destruct (enabled w e) eqn:En; [|discriminate]. intros [= <-] Hr.
  destruct w as [[m st g o] s r us].
  destruct e; destruct m, st; unfold enabled in En; cbn in En;
    rewrite ?andb_false_r in En; try discriminate.
  all: cbn [handle] in *; rewrite ?submit_with_page in *;
    unfold handleVerifyOtp, onEmailSignIn, onRegister in *.
  all: repeat match goal with
       | H : context [match Zod.validate ?a ?b with _ => _ end] |- _ => destruct (Zod.validate a b)
       | H : context [if negb (?x =? ?y) then _ else _] |- _ => destruct (negb (x =? y))
       | H : context [if (?a && ?b)%bool then _ else _] |- _ => destruct (a && b)%bool
       end.
  all: cbn in Hr |- *; try (exfalso; apply Hr; reflexivity); eauto.
Qed.

(** C23: Every event of the sign-in page that navigates away lands on the
    dashboard with an administrator's session: the page renders the
    greeting and its effect redirects nowhere. *)
Theorem handoff_admin (e : Event) (w w' : World S) :
  dispatch e w = Some w' -> route w' <> route w ->
  route w' = "/" /\ dashboard_effect (store w') = None /\
  exists u, current_user (store w') = Some u /\ dashboard_view (store w') = DashboardView ("Good to see you, " ++ u_name u).
Proof.
  intros Hd Hr. destruct (dispatch_leaves_login e w w' Hd Hr) as (u & Hs & Ha & Hroute).
  unfold dashboard_effect, dashboard_view, session_user.
  rewrite Hs, login_authenticated, login_user, Ha. eauto.
Qed.
End Handoff.

Module Witnesses.
Import Zustand ZodEmail LoginProps.Witnesses.

Lemma handoff_admin_witness :
  dispatch VerifyClick w_typed = Some (after [VerifyClick] w_typed) /\
  route (after [VerifyClick] w_typed) <> route w_typed /\
  dashboard_view (store (after [VerifyClick] w_typed)) = DashboardView "Good to see you, Ramesh".
Proof.
  assert (Hd : dispatch VerifyClick w_typed = Some (after [VerifyClick] w_typed)) by (vm_compute; reflexivity).
  assert (Hr : route (after [VerifyClick] w_typed) <> route w_typed) by (vm_compute; discriminate).
  destruct (handoff_admin _ _ _ Hd Hr) as (_ & _ & u & Hu & Hv).
  split; [exact Hd|]. split; [exact Hr|]. rewrite Hv.
  vm_compute in Hu. injection Hu as <-. reflexivity.
Defined.
End Witnesses.

End Dashboard.
