(* ===== verification/Settings.v ===== *)
(** * The settings page

    [src/app/settings/page.tsx], lines 89-890 ([SettingsPage]).  Its
    [useState] hooks are grouped by the card they serve: [Profile] (photo,
    names, email, phone, saving flag), [Linked] (bank accounts and the
    add/remove modals), [Security] (two-factor switch, password modal,
    delete modal) and [Prefs] (notification switches, language).  What the
    handlers do outside React state is [Env]: the [alert] messages, the
    toasts scheduled with [setTimeout], and the object URLs created by
    [URL.createObjectURL] and not yet revoked.

    Each handler is a function of the page state, read from the render it
    was created in, as in [Login].  The string operations the handlers
    use ([toLowerCase], [replace(/\s+/g, "-")], [trim], [slice(-4)],
    [replace(/\D/g, "")], [slice(0, 4)], [split(" ")]) are written out on
    ASCII strings; JavaScript's [\s] also matches non-ASCII spaces, which
    the model does not represent.  [Date.now()], the chosen file and the
    object URL the browser returns are arguments of the events. *)

From Stdlib Require Import String Ascii List Bool Arith ZArith Lia.
From S2P Require Import Prelude Decimal.
Import ListNotations.
Open Scope string_scope.

Module Settings.

(** ** Strings *)

(** [\s] on ASCII: space, tab, line feed, vertical tab, form feed, return. *)
Definition is_ws (c : ascii) : bool :=
  let n := nat_of_ascii c in (n =? 32)%nat || ((9 <=? n)%nat && (n <=? 13)%nat).

(** [toLowerCase] on ASCII. *)
Definition lower_char (c : ascii) : ascii :=
  let n := nat_of_ascii c in
  if (65 <=? n)%nat && (n <=? 90)%nat then ascii_of_nat (n + 32) else c.

Fixpoint to_lower (s : string) : string :=
  match s with
  | EmptyString => EmptyString
  | String c t => String (lower_char c) (to_lower t)
  end.

(** [replace(/\s+/g, "-")]: every maximal run of white space becomes one
    dash; [in_ws] says whether the previous character was white space. *)
Fixpoint dash_runs (in_ws : bool) (s : string) : string :=
  match s with
  | EmptyString => EmptyString
  | String c t =>
      if is_ws c then (if in_ws then dash_runs true t else String "-" (dash_runs true t))
      else String c (dash_runs false t)
  end.

Definition slugify (s : string) : string := dash_runs false s.

Fixpoint drop_ws (s : string) : string :=
  match s with
  | String c t => if is_ws c then drop_ws t else s
  | EmptyString => EmptyString
  end.

Definition rev_string (s : string) : string := string_of_list_ascii (rev (list_ascii_of_string s)).

(** [trim()]. *)
Definition trim (s : string) : string := rev_string (drop_ws (rev_string (drop_ws s))).

(** [slice(-4)]: the last four characters, or all of a shorter string. *)
Definition slice_last4 (s : string) : string :=
  substring (String.length s - 4) 4 s.

(** [replace(/\D/g, "").slice(0, 4)], the last-four-digits input. *)
Fixpoint digits_of (s : string) : string :=
  match s with
  | EmptyString => EmptyString
  | String c t => if is_digit c then String c (digits_of t) else digits_of t
  end.

Definition sanitize_last4 (raw : string) : string := substring 0 4 (digits_of raw).

(** [split(" ")]. *)
Fixpoint split_space (s : string) : list string :=
  match s with
  | EmptyString => [EmptyString]
  | String c t =>
      if Ascii.eqb c " "%char then EmptyString :: split_space t
      else match split_space t with
           | p :: ps => String c p :: ps
           | [] => [String c EmptyString]
           end
  end.

(** [p[0]] of a part, [undefined] (joined as nothing) for an empty part. *)
Definition first_char (p : string) : string :=
  match p with EmptyString => EmptyString | String c _ => String c EmptyString end.

(** The avatar initials of an account, lines 443-447:
    [acc.bank.split(" ").slice(0, 2).map((p) => p[0]).join("")]. *)
Definition initials (bank : string) : string :=
  String.concat "" (map first_char (firstn 2 (split_space bank))).

(** ** State *)

Inductive Status := Active | Inactive.

(** [type BankAccount], lines 32-37. *)
Record BankAccount := { acc_id : string; acc_bank : string; acc_last4 : string; acc_status : Status }.

(** A file chosen in the photo input. *)
Record File := { file_name : string; file_size : Z }.

Record Notifications := {
  emiReminders : bool; refinancing : bool; paymentConfirmations : bool;
  creditScore : bool; marketingEmails : bool }.

Inductive NotifKey := EmiReminders | Refinancing | PaymentConfirmations | CreditScore | MarketingEmails.

Scheme Equality for NotifKey.

Record Profile := {
  profilePhotoFile : option File; profilePhotoPreview : option string;
  firstName : string; lastName : string; email : string; phone : string;
  isSavingProfile : bool }.

Record Linked := {
  accounts : list BankAccount; addAccountOpen : bool; removeAccountOpen : option string;
  newAccountBank : string; newAccountLast4 : string }.

Record Security := {
  twoFactor : bool; updatePwdOpen : bool; deleteOpen : bool;
  currentPassword : string; newPassword : string; confirmPassword : string }.

Record Prefs := { notifications : Notifications; language : string }.

(** What the handlers do outside React state; [overflow] is
    [document.body.style.overflow], which the dialogs set. *)
Record Env := { alerts : list string; toasts : list string; live_urls : list string; overflow : string }.

Record State := { profile : Profile; linked : Linked; security : Security; prefs : Prefs; env : Env }.

(** The initial values of the hooks, lines 93-134. *)
Definition initial_accounts : list BankAccount :=
  [ {| acc_id := "hdfc"; acc_bank := "HDFC Bank"; acc_last4 := "4521"; acc_status := Active |};
    {| acc_id := "icici"; acc_bank := "ICICI Bank"; acc_last4 := "7823"; acc_status := Active |};
    {| acc_id := "axis"; acc_bank := "Axis Bank"; acc_last4 := "2910"; acc_status := Active |} ].

Definition initial_state : State := {|
  profile := {| profilePhotoFile := None; profilePhotoPreview := None; firstName := "Rajesh";
                lastName := "Kumar"; email := "rajesh.kumar@email.com"; phone := "+91 98765 43210";
                isSavingProfile := false |};
  linked := {| accounts := initial_accounts; addAccountOpen := false; removeAccountOpen := None;
               newAccountBank := ""; newAccountLast4 := "" |};
  security := {| twoFactor := false; updatePwdOpen := false; deleteOpen := false;
                 currentPassword := ""; newPassword := ""; confirmPassword := "" |};
  prefs := {| notifications := {| emiReminders := true; refinancing := true;
                                  paymentConfirmations := true; creditScore := true;
                                  marketingEmails := false |};
              language := "en" |};
  env := {| alerts := []; toasts := []; live_urls := []; overflow := "" |} |}.

(** ** Updates of each group *)

Definition with_profile (s : State) (p : Profile) : State :=
  {| profile := p; linked := linked s; security := security s; prefs := prefs s; env := env s |}.
Definition with_linked (s : State) (l : Linked) : State :=
  {| profile := profile s; linked := l; security := security s; prefs := prefs s; env := env s |}.
Definition with_security (s : State) (x : Security) : State :=
  {| profile := profile s; linked := linked s; security := x; prefs := prefs s; env := env s |}.
Definition with_prefs (s : State) (x : Prefs) : State :=
  {| profile := profile s; linked := linked s; security := security s; prefs := x; env := env s |}.
Definition with_env (s : State) (e : Env) : State :=
  {| profile := profile s; linked := linked s; security := security s; prefs := prefs s; env := e |}.

(** [alert(msg)]; a toast scheduled by [setTimeout]; [URL.revokeObjectURL]. *)
Definition alert (msg : string) (s : State) : State :=
  with_env s {| alerts := alerts (env s) ++ [msg]; toasts := toasts (env s); live_urls := live_urls (env s);
                overflow := overflow (env s) |}.

Definition toast (msg : string) (s : State) : State :=
  with_env s {| alerts := alerts (env s); toasts := toasts (env s) ++ [msg]; live_urls := live_urls (env s);
                overflow := overflow (env s) |}.

Definition revoke (url : string) (s : State) : State :=
  with_env s {| alerts := alerts (env s); toasts := toasts (env s);
                live_urls := filter (fun u => negb (String.eqb u url)) (live_urls (env s));
                overflow := overflow (env s) |}.

Definition create_url (url : string) (s : State) : State :=
  with_env s {| alerts := alerts (env s); toasts := toasts (env s); live_urls := live_urls (env s) ++ [url];
                overflow := overflow (env s) |}.

Definition set_photo (f : option File) (preview : option string) (s : State) : State :=
  let p := profile s in
  with_profile s {| profilePhotoFile := f; profilePhotoPreview := preview;
    firstName := firstName p; lastName := lastName p; email := email p; phone := phone p;
    isSavingProfile := isSavingProfile p |}.

Definition set_saving (b : bool) (s : State) : State :=
  let p := profile s in
  with_profile s {| profilePhotoFile := profilePhotoFile p; profilePhotoPreview := profilePhotoPreview p;
    firstName := firstName p; lastName := lastName p; email := email p; phone := phone p;
    isSavingProfile := b |}.

(** ** Handlers *)

(** [handleProfilePhotoChange], lines 145-165: [url] is what
    [URL.createObjectURL(file)] returns. *)
Definition max_photo_size : Z := (2 * 1024 * 1024)%Z.

Definition handleProfilePhotoChange (file : option File) (url : string) (s : State) : State :=
  match file with
  | None => s
  | Some f =>
      if (max_photo_size <? file_size f)%Z then alert "File too large. Max size is 2MB." s
      else
        let s1 := match profilePhotoPreview (profile s) with
                  | Some old => revoke old s
                  | None => s
                  end in
        set_photo (Some f) (Some url) (create_url url s1)
  end.

(** [handleLogoUpload], lines 137-143.  No control is wired to it; unlike
    [handleProfilePhotoChange] it neither checks the size nor revokes the
    previous preview. *)
Definition handleLogoUpload (file : option File) (url : string) (s : State) : State :=
  match file with
  | Some f => set_photo (Some f) (Some url) (create_url url s)
  | None => s
  end.

(** [handleRemoveProfilePhoto], lines 167-173, and the inline "Remove"
    button, lines 341-351, which does the same. *)
Definition handleRemoveProfilePhoto (s : State) : State :=
  match profilePhotoPreview (profile s) with
  | Some url => set_photo None None (revoke url s)
  | None => set_photo None None s
  end.

(** The id of a new account, lines 179-181:
    [`${bank.toLowerCase().replace(/\s+/g, "-")}-${Date.now()}`]. *)
Definition new_account_id (bank : string) (now : Z) : string :=
  slugify (to_lower bank) ++ "-" ++ Decimal.to_dec now.

(** [handleAddAccountSubmit], lines 176-195; [now] is [Date.now()],
    printed by [Decimal.to_dec] in the template literal. *)
Definition handleAddAccountSubmit (now : Z) (s : State) : State :=
  let l := linked s in
  if String.eqb (newAccountBank l) "" || String.eqb (newAccountLast4 l) "" then s
  else
    let acc := {| acc_id := new_account_id (newAccountBank l) now;
                  acc_bank := trim (newAccountBank l);
                  acc_last4 := slice_last4 (newAccountLast4 l);
                  acc_status := Active |} in
    with_linked s {| accounts := accounts l ++ [acc]; addAccountOpen := false;
                     removeAccountOpen := removeAccountOpen l;
                     newAccountBank := ""; newAccountLast4 := "" |}.

(** The last-four input's [onChange], lines 786-788. *)
Definition onLast4Change (raw : string) (s : State) : State :=
  let l := linked s in
  with_linked s {| accounts := accounts l; addAccountOpen := addAccountOpen l;
                   removeAccountOpen := removeAccountOpen l; newAccountBank := newAccountBank l;
                   newAccountLast4 := sanitize_last4 raw |}.

Definition onBankChange (v : string) (s : State) : State :=
  let l := linked s in
  with_linked s {| accounts := accounts l; addAccountOpen := addAccountOpen l;
                   removeAccountOpen := removeAccountOpen l; newAccountBank := v;
                   newAccountLast4 := newAccountLast4 l |}.

(** [handleRemoveAccountConfirm], lines 197-200. *)
Definition handleRemoveAccountConfirm (id : string) (s : State) : State :=
  let l := linked s in
  with_linked s {| accounts := filter (fun a => negb (String.eqb (acc_id a) id)) (accounts l);
                   addAccountOpen := addAccountOpen l; removeAccountOpen := None;
                   newAccountBank := newAccountBank l; newAccountLast4 := newAccountLast4 l |}.

(** The outcome of the password form's checks, lines 205-213. *)
Definition password_check (cur new conf : string) : option string :=
  if String.eqb cur "" || String.eqb new "" || String.eqb conf "" then Some "Please fill all fields."
  else if (String.length new <? 8)%nat then Some "Password must be at least 8 characters."
  else if negb (String.eqb new conf) then Some "Passwords do not match."
  else None.

(** [handleUpdatePasswordSubmit], lines 203-226. *)
Definition handleUpdatePasswordSubmit (s : State) : State :=
  let x := security s in
  match password_check (currentPassword x) (newPassword x) (confirmPassword x) with
  | Some msg => alert msg s
  | None =>
      toast "Password updated"
        (with_security s {| twoFactor := twoFactor x; updatePwdOpen := false; deleteOpen := deleteOpen x;
                            currentPassword := ""; newPassword := ""; confirmPassword := "" |})
  end.

(** [handleDeleteAccountConfirm], lines 228-238. *)
Definition handleDeleteAccountConfirm (s : State) : State :=
  let x := security s in
  toast "Account deleted (demo)"
    (with_security s {| twoFactor := twoFactor x; updatePwdOpen := updatePwdOpen x; deleteOpen := false;
                        currentPassword := currentPassword x; newPassword := newPassword x;
                        confirmPassword := confirmPassword x |}).

Definition notif_get (k : NotifKey) (n : Notifications) : bool :=
  match k with
  | EmiReminders => emiReminders n | Refinancing => refinancing n
  | PaymentConfirmations => paymentConfirmations n | CreditScore => creditScore n
  | MarketingEmails => marketingEmails n
  end.

Definition notif_set (k : NotifKey) (b : bool) (n : Notifications) : Notifications :=
  {| emiReminders := if k is EmiReminders then b else emiReminders n;
     refinancing := if k is Refinancing then b else refinancing n;
     paymentConfirmations := if k is PaymentConfirmations then b else paymentConfirmations n;
     creditScore := if k is CreditScore then b else creditScore n;
     marketingEmails := if k is MarketingEmails then b else marketingEmails n |}.

(** [toggleNotification], lines 240-241: [{ ...s, [key]: !s[key] }]. *)
Definition toggleNotification (k : NotifKey) (s : State) : State :=
  let n := notifications (prefs s) in
  with_prefs s {| notifications := notif_set k (negb (notif_get k n)) n; language := language (prefs s) |}.

(** [handleSaveProfile], lines 248-265: the check, then [isSavingProfile]
    until the 900 ms timer fires ([saveProfileDone]). *)
Definition handleSaveProfile (s : State) : State :=
  let p := profile s in
  if String.eqb (trim (firstName p)) "" || String.eqb (trim (lastName p)) "" || String.eqb (trim (email p)) ""
  then alert "Please fill name and email." s
  else set_saving true s.

Definition saveProfileDone (s : State) : State := toast "Profile saved" (set_saving false s).

(** ** Setters bound directly to the inputs and buttons *)

Definition map_profile (f : Profile -> Profile) (s : State) : State := with_profile s (f (profile s)).
Definition map_linked (f : Linked -> Linked) (s : State) : State := with_linked s (f (linked s)).
Definition map_security (f : Security -> Security) (s : State) : State := with_security s (f (security s)).

Definition setFirstName v : State -> State := map_profile (fun p =>
  {| profilePhotoFile := profilePhotoFile p; profilePhotoPreview := profilePhotoPreview p;
     firstName := v; lastName := lastName p; email := email p; phone := phone p;
     isSavingProfile := isSavingProfile p |}).
Definition setLastName v : State -> State := map_profile (fun p =>
  {| profilePhotoFile := profilePhotoFile p; profilePhotoPreview := profilePhotoPreview p;
     firstName := firstName p; lastName := v; email := email p; phone := phone p;
     isSavingProfile := isSavingProfile p |}).
Definition setEmail v : State -> State := map_profile (fun p =>
  {| profilePhotoFile := profilePhotoFile p; profilePhotoPreview := profilePhotoPreview p;
     firstName := firstName p; lastName := lastName p; email := v; phone := phone p;
     isSavingProfile := isSavingProfile p |}).
Definition setPhone v : State -> State := map_profile (fun p =>
  {| profilePhotoFile := profilePhotoFile p; profilePhotoPreview := profilePhotoPreview p;
     firstName := firstName p; lastName := lastName p; email := email p; phone := v;
     isSavingProfile := isSavingProfile p |}).

Definition setAddAccountOpen b : State -> State := map_linked (fun l =>
  {| accounts := accounts l; addAccountOpen := b; removeAccountOpen := removeAccountOpen l;
     newAccountBank := newAccountBank l; newAccountLast4 := newAccountLast4 l |}).
Definition setRemoveAccountOpen o : State -> State := map_linked (fun l =>
  {| accounts := accounts l; addAccountOpen := addAccountOpen l; removeAccountOpen := o;
     newAccountBank := newAccountBank l; newAccountLast4 := newAccountLast4 l |}).

Definition setTwoFactor b : State -> State := map_security (fun x =>
  {| twoFactor := b; updatePwdOpen := updatePwdOpen x; deleteOpen := deleteOpen x;
     currentPassword := currentPassword x; newPassword := newPassword x; confirmPassword := confirmPassword x |}).
Definition setUpdatePwdOpen b : State -> State := map_security (fun x =>
  {| twoFactor := twoFactor x; updatePwdOpen := b; deleteOpen := deleteOpen x;
     currentPassword := currentPassword x; newPassword := newPassword x; confirmPassword := confirmPassword x |}).
Definition setDeleteOpen b : State -> State := map_security (fun x =>
  {| twoFactor := twoFactor x; updatePwdOpen := updatePwdOpen x; deleteOpen := b;
     currentPassword := currentPassword x; newPassword := newPassword x; confirmPassword := confirmPassword x |}).
Definition setCurrentPassword v : State -> State := map_security (fun x =>
  {| twoFactor := twoFactor x; updatePwdOpen := updatePwdOpen x; deleteOpen := deleteOpen x;
     currentPassword := v; newPassword := newPassword x; confirmPassword := confirmPassword x |}).
Definition setNewPassword v : State -> State := map_security (fun x =>
  {| twoFactor := twoFactor x; updatePwdOpen := updatePwdOpen x; deleteOpen := deleteOpen x;
     currentPassword := currentPassword x; newPassword := v; confirmPassword := confirmPassword x |}).
Definition setConfirmPassword v : State -> State := map_security (fun x =>
  {| twoFactor := twoFactor x; updatePwdOpen := updatePwdOpen x; deleteOpen := deleteOpen x;
     currentPassword := currentPassword x; newPassword := newPassword x; confirmPassword := v |}).

Definition setLanguage v (s : State) : State :=
  with_prefs s {| notifications := notifications (prefs s); language := v |}.

(** The avatar of the profile card, line 313:
    [`${firstName?.[0] ?? ""}${lastName?.[0] ?? ""}`]. *)
Definition profile_initials (p : Profile) : string := first_char (firstName p) ++ first_char (lastName p).

(** ** What the page shows *)

(** The avatar, lines 304-315: the preview image, or the initials. *)
Inductive Avatar := AvatarImage (src : string) | AvatarInitials (text : string).

Definition avatar (p : Profile) : Avatar :=
  match profilePhotoPreview p with Some u => AvatarImage u | None => AvatarInitials (profile_initials p) end.

(** The submit button's label, lines 409-410. *)
Definition save_label (p : Profile) : string := if isSavingProfile p then "Saving..." else "Save Changes".

(** The badge of an account, lines 464-476. *)
Definition status_badge (st : Status) : string :=
  match st with Active => "active" | Inactive => "inactive" end.

(** One row of the linked accounts, lines 449-485: initials, name,
    badge and the masked number. *)
Record AccountRow := { row_initials : string; row_bank : string; row_badge : string; row_digits : string }.

Definition account_row (a : BankAccount) : AccountRow :=
  {| row_initials := initials (acc_bank a); row_bank := acc_bank a;
     row_badge := status_badge (acc_status a); row_digits := "****" ++ acc_last4 a |}.

(** [accounts.map(...)], line 448. *)
Definition accounts_view (s : State) : list AccountRow := map account_row (accounts (linked s)).

(** ** The dialogs

    Each [Modal] (lines 39-86) is rendered with an inline [onClose], a new
    function at every render, so while it is open its effect (lines
    52-63) runs again at every commit of the page: the cleanups of the
    previous render (overflow [""], listener removed) run first, then the
    setups of the open dialogs (overflow ["hidden"], Escape listener
    added).  A commit with no dialog open before or after runs none. *)

Definition any_open (s : State) : bool :=
  addAccountOpen (linked s) ||
  match removeAccountOpen (linked s) with Some _ => true | None => false end ||
  updatePwdOpen (security s) || deleteOpen (security s).

Definition set_overflow (v : string) (s : State) : State :=
  with_env s {| alerts := alerts (env s); toasts := toasts (env s); live_urls := live_urls (env s);
                overflow := v |}.

(** The effects of a commit from [before] to [after]. *)
Definition modal_effects (before after : State) : State :=
  if any_open after then set_overflow "hidden" after
  else if any_open before then set_overflow "" after
  else after.

(** A press of Escape: the [keydown] listener of each open dialog calls
    its [onClose] (lines 54-56), in the order the dialogs are rendered. *)
Definition onEscape (s : State) : State :=
  let s1 := if addAccountOpen (linked s) then setAddAccountOpen false s else s in
  let s2 := match removeAccountOpen (linked s) with Some _ => setRemoveAccountOpen None s1 | None => s1 end in
  let s3 := if updatePwdOpen (security s) then setUpdatePwdOpen false s2 else s2 in
  if deleteOpen (security s) then setDeleteOpen false s3 else s3.

(** ** Events

    What the user and the timers can do, each with the callback the JSX
    binds to it.  An event is offered only when its control is rendered:
    the inline "Remove" photo button when there is a preview (line 338),
    a modal's buttons when the modal is open ([Modal] returns [null]
    otherwise, line 65), a row's delete button for an account of the
    list, "Save Changes" when it is not disabled (line 408).  [SaveTimer]
    is the 900 ms timer of [handleSaveProfile]; it is pending exactly
    while [isSavingProfile] holds, since the submit button is disabled
    meanwhile. *)
Inductive Event :=
| PhotoChosen (file : option File) (url : string)
| RemovePhotoClick
| FirstNameChange (v : string) | LastNameChange (v : string)
| EmailChange (v : string) | PhoneChange (v : string)
| SaveProfile | SaveTimer
| OpenAdd | CloseAdd | BankChange (v : string) | Last4Change (raw : string) | AddSubmit (now : Z)
| AskRemove (id : string) | CancelRemove | ConfirmRemove
| CurrentPwdChange (v : string) | NewPwdChange (v : string) | ConfirmPwdChange (v : string)
| OpenPwd | ClosePwd | PwdSubmit
| TwoFactorChange (b : bool) | ToggleNotif (k : NotifKey) | LanguageChange (v : string)
| OpenDelete | CloseDelete | DeleteConfirm
| Escape.

Definition has_preview (s : State) : bool :=
  match profilePhotoPreview (profile s) with Some _ => true | None => false end.

Definition enabled (s : State) (e : Event) : bool :=
  match e with
  | RemovePhotoClick => has_preview s
  | SaveProfile => negb (isSavingProfile (profile s))
  | SaveTimer => isSavingProfile (profile s)
  | CloseAdd | BankChange _ | Last4Change _ | AddSubmit _ => addAccountOpen (linked s)
  | AskRemove id => existsb (fun a => String.eqb (acc_id a) id) (accounts (linked s))
  | CancelRemove | ConfirmRemove =>
      match removeAccountOpen (linked s) with Some _ => true | None => false end
  | ClosePwd | PwdSubmit => updatePwdOpen (security s)
  | CloseDelete | DeleteConfirm => deleteOpen (security s)
  | _ => true
  end.

(** The callback of each control. *)
Definition handle (e : Event) (s : State) : State :=
  match e with
  | PhotoChosen f url => handleProfilePhotoChange f url s
  | RemovePhotoClick => handleRemoveProfilePhoto s
  | FirstNameChange v => setFirstName v s
  | LastNameChange v => setLastName v s
  | EmailChange v => setEmail v s
  | PhoneChange v => setPhone v s
  | SaveProfile => handleSaveProfile s
  | SaveTimer => saveProfileDone s
  | OpenAdd => setAddAccountOpen true s
  | CloseAdd => setAddAccountOpen false s
  | BankChange v => onBankChange v s
  | Last4Change raw => onLast4Change raw s
  | AddSubmit now => handleAddAccountSubmit now s
  | AskRemove id => setRemoveAccountOpen (Some id) s
  | CancelRemove => setRemoveAccountOpen None s
  | ConfirmRemove =>
      (* [removeAccountOpen && handleRemoveAccountConfirm(removeAccountOpen)] *)
      match removeAccountOpen (linked s) with
      | Some id => if String.eqb id "" then s else handleRemoveAccountConfirm id s
      | None => s
      end
  | CurrentPwdChange v => setCurrentPassword v s
  | NewPwdChange v => setNewPassword v s
  | ConfirmPwdChange v => setConfirmPassword v s
  | OpenPwd => setUpdatePwdOpen true s
  | ClosePwd => setUpdatePwdOpen false s
  | PwdSubmit => handleUpdatePasswordSubmit s
  | TwoFactorChange b => setTwoFactor b s
  | ToggleNotif k => toggleNotification k s
  | LanguageChange v => setLanguage v s
  | OpenDelete => setDeleteOpen true s
  | CloseDelete => setDeleteOpen false s
  | DeleteConfirm => handleDeleteAccountConfirm s
  | Escape => onEscape s
  end.

(** An event runs its callback; the commit then runs the dialogs' effects. *)
Definition dispatch (e : Event) (s : State) : option State :=
  if enabled s e then Some (modal_effects s (handle e s)) else None.

Definition settings_step (s s' : State) : Prop := exists e, dispatch e s = Some s'.

Definition run (es : list Event) (s : State) : option State :=
  fold_left (fun os e => match os with Some s => dispatch e s | None => None end) es (Some s).

End Settings.
