(* ===== verification/SettingsProps.v ===== *)
(** * Properties of the settings page

    The invariant of the page ([settings_inv]): the object URLs alive are
    exactly the preview shown, so no superseded preview leaks, every
    linked account, like the last-four input, holds at most four digits,
    and the body's scrolling is locked exactly while a dialog is open.
    Every event preserves it, so every state reached from the first
    render has it ([settings_reachable_inv]).  Then the behaviour of each
    handler on each of its branches: adding and removing a linked
    account, the password rules and their order, the photo's size limit,
    the notification switches, the profile save and its timer, and the
    delete confirmation, which deletes nothing; Escape, and what the page
    shows on reachable states. *)

From Stdlib Require Import String Ascii List Bool Arith ZArith Lia.
From S2P Require Import Prelude Decimal Settings.
Import ListNotations.
Open Scope string_scope.

Module SettingsProps.
Import Settings.

(** ** Strings *)

Lemma list_ascii_substring0 (n : nat) (s : string) :
  list_ascii_of_string (substring 0 n s) = firstn n (list_ascii_of_string s).
Proof.
  revert n. induction s as [|c s IH]; intros [|n]; cbn; auto.
  rewrite IH. reflexivity.
Qed.

Lemma all_digits_firstn n l : all_digits l = true -> all_digits (firstn n l) = true.
Proof.
  revert n. induction l as [|c l IH]; intros [|n] H; cbn in *; auto.
  apply andb_prop in H as [Hc Hl]. rewrite Hc, IH; auto.
Qed.

Lemma digits_of_all (s : string) : all_digits (list_ascii_of_string (digits_of s)) = true.
Proof.
  induction s as [|c s IH]; cbn; auto.
  destruct (is_digit c) eqn:Hc; cbn; rewrite ?Hc; auto.
Qed.

Lemma digits_of_id (s : string) : all_digits (list_ascii_of_string s) = true -> digits_of s = s.
Proof.
  induction s as [|c s IH]; cbn; auto. intros H. apply andb_prop in H as [Hc Hs].
  rewrite Hc, IH; auto.
Qed.

Lemma substring0_full (n : nat) (s : string) : (String.length s <= n)%nat -> substring 0 n s = s.
Proof.
  revert n. induction s as [|c s IH]; intros [|n] H; cbn in *; auto; try lia.
  rewrite IH by lia. reflexivity.
Qed.

Lemma substring0_length (n : nat) (s : string) : (String.length (substring 0 n s) <= n)%nat.
Proof.
  revert n. induction s as [|c s IH]; intros [|n]; cbn; try lia.
  specialize (IH n). lia.
Qed.

Lemma slice_last4_short (s : string) : (String.length s <= 4)%nat -> slice_last4 s = s.
Proof.
  intros H. unfold slice_last4. replace (String.length s - 4)%nat with 0%nat by lia.
  apply substring0_full. exact H.
Qed.

(** ** The invariant *)

(** The object URLs the preview accounts for. *)
Definition preview_urls (s : State) : list string :=
  match profilePhotoPreview (profile s) with Some u => [u] | None => [] end.

(** A last-four value: at most four characters, all digits. *)
Definition last4_ok (x : string) : bool :=
  (String.length x <=? 4)%nat && all_digits (list_ascii_of_string x).

Definition data_inv (s : State) : Prop :=
  live_urls (env s) = preview_urls s /\
  Forall (fun a => last4_ok (acc_last4 a) = true) (accounts (linked s)) /\
  last4_ok (newAccountLast4 (linked s)) = true.

(** The scroll lock the dialogs hold. *)
Definition lock_of (s : State) : string := if any_open s then "hidden" else "".

Definition settings_inv (s : State) : Prop := data_inv s /\ overflow (env s) = lock_of s.

Lemma sanitize_last4_ok (raw : string) : last4_ok (sanitize_last4 raw) = true.
Proof.
  unfold last4_ok, sanitize_last4. rewrite list_ascii_substring0, all_digits_firstn by apply digits_of_all.
  rewrite andb_true_r. apply Nat.leb_le, substring0_length.
Qed.

Lemma last4_ok_short (x : string) : last4_ok x = true -> (String.length x <= 4)%nat.
Proof. unfold last4_ok. intros H. apply andb_prop in H as [H _]. apply Nat.leb_le, H. Qed.

Lemma revoke_only (u : string) :
  filter (fun v => negb (String.eqb v u)) [u] = [].
Proof. cbn. rewrite String.eqb_refl. reflexivity. Qed.

Lemma Forall_filter_keep {A} (P : A -> Prop) (f : A -> bool) (l : list A) :
  Forall P l -> Forall P (filter f l).
Proof.
  rewrite !Forall_forall. intros H x Hx. apply filter_In in Hx as [Hx _]. auto.
Qed.

Lemma initial_settings_inv : settings_inv initial_state.
Proof. repeat split; repeat constructor. Qed.

#[local] Arguments sanitize_last4 : simpl never.
#[local] Arguments last4_ok : simpl never.

Lemma photo_change_inv f url s :
  data_inv s -> data_inv (handleProfilePhotoChange f url s).
Proof.
  intros (Hu & Ha & Hl). unfold handleProfilePhotoChange.
  destruct f as [f|]; [|repeat split; assumption].
  lazymatch goal with |- data_inv (if ?b then _ else _) => destruct b end;
    [repeat split; assumption|].
  unfold data_inv, preview_urls in *.
  destruct (profilePhotoPreview (profile s)) eqn:Hp; cbn; rewrite Hu; cbn;
    rewrite ?String.eqb_refl; auto.
Qed.

Lemma remove_photo_inv s : data_inv s -> data_inv (handleRemoveProfilePhoto s).
Proof.
  intros (Hu & Ha & Hl). unfold handleRemoveProfilePhoto, data_inv, preview_urls in *.
  destruct (profilePhotoPreview (profile s)) eqn:Hp; cbn; rewrite Hu; cbn;
    rewrite ?String.eqb_refl; auto.
Qed.

Lemma add_account_inv now s : data_inv s -> data_inv (handleAddAccountSubmit now s).
Proof.
  intros (Hu & Ha & Hl). unfold handleAddAccountSubmit.
  destruct (_ || _); [repeat split; assumption|].
  repeat split; cbn; auto.
  apply Forall_app. split; [exact Ha|]. constructor; [|constructor]. cbn.
  rewrite slice_last4_short by (apply last4_ok_short; exact Hl). exact Hl.
Qed.

(** Every callback preserves the data invariant. *)
Lemma handle_data_inv e s : data_inv s -> data_inv (handle e s).
Proof.
  intros Hi. destruct e; cbn [handle];
    try solve [exact Hi | apply photo_change_inv, Hi | apply remove_photo_inv, Hi | apply add_account_inv, Hi].
  all: destruct Hi as (Hu & Ha & Hl).
  - unfold handleSaveProfile. destruct (_ || _); repeat split; assumption.
  - repeat split; cbn; auto. apply sanitize_last4_ok.
  - destruct (removeAccountOpen (linked s)) as [id|];
      [destruct (String.eqb id "")|]; try (repeat split; assumption).
    repeat split; cbn; auto. apply Forall_filter_keep, Ha.
  - unfold handleUpdatePasswordSubmit. destruct (password_check _ _ _); repeat split; assumption.
  - unfold onEscape. destruct (addAccountOpen _), (removeAccountOpen _), (updatePwdOpen _), (deleteOpen _);
      repeat split; assumption.
Qed.

(** No callback touches the scroll lock: only the dialogs' effects do. *)
Lemma handle_overflow e s : overflow (env (handle e s)) = overflow (env s).
Proof.
  destruct e; cbn [handle]; try reflexivity;
    unfold handleProfilePhotoChange, handleRemoveProfilePhoto, handleSaveProfile, handleAddAccountSubmit,
      handleUpdatePasswordSubmit, onEscape;
    repeat match goal with |- context [if ?b then _ else _] => destruct b
                         | |- context [match ?o with Some _ => _ | None => _ end] => destruct o end;
    reflexivity.
Qed.

Lemma any_open_set_overflow v s : any_open (set_overflow v s) = any_open s.
Proof. reflexivity. Qed.

(** Every event preserves the invariant. *)
Lemma settings_dispatch_preserves_inv e s s' :
  settings_inv s -> dispatch e s = Some s' -> settings_inv s'.
Proof.
  intros [Hd Ho] Hdisp. unfold dispatch in Hdisp. destruct (enabled s e); [|discriminate].
  injection Hdisp as <-. pose proof (handle_data_inv e s Hd) as Hd'.
  pose proof (handle_overflow e s) as Ho'. unfold lock_of in *.
  unfold modal_effects. destruct (any_open (handle e s)) eqn:Ha'.
  - split; [exact Hd' | unfold lock_of; rewrite any_open_set_overflow, Ha'; reflexivity].
  - destruct (any_open s) eqn:Ha.
    + split; [exact Hd' | unfold lock_of; rewrite any_open_set_overflow, Ha'; reflexivity].
    + split; [exact Hd'|]. rewrite Ho', Ho. unfold lock_of. rewrite Ha'. reflexivity.
Qed.

Lemma settings_run_star es s s' : run es s = Some s' -> star settings_step s s'.
Proof.
  unfold run. revert s. induction es as [|e es IH]; intros s H; cbn in H.
  - injection H as <-. apply star_refl.
  - destruct (dispatch e s) as [s1|] eqn:Hd.
    + eapply star_step; [exists e; exact Hd | apply IH, H].
    + exfalso. clear IH Hd. induction es; cbn in H; [discriminate | exact (IHes H)].
Qed.

Lemma reachable_settings_inv (s : State) :
  star settings_step initial_state s -> settings_inv s.
Proof.
  intros Hs. refine (star_invariant _ settings_inv _ _ _ Hs initial_settings_inv).
  intros a b Ha [e Hd]. exact (settings_dispatch_preserves_inv e a b Ha Hd).
Qed.

(** C3: Every state reached from the first render keeps the invariant:
    the only object URL alive is the preview's, every linked account
    shows at most four digits, and the page's scrolling is locked exactly
    while a dialog is open. *)
Theorem settings_reachable_inv (s : State) :
  star settings_step initial_state s -> settings_inv s.
Proof. apply reachable_settings_inv. Qed.

(** ** The commit *)

Ltac effects_case := intros; unfold modal_effects;
  repeat match goal with |- context [if any_open ?x then _ else _] => destruct (any_open x) end; reflexivity.

Lemma effects_profile a b : profile (modal_effects a b) = profile b. Proof. effects_case. Qed.
Lemma effects_linked a b : linked (modal_effects a b) = linked b. Proof. effects_case. Qed.
Lemma effects_security a b : security (modal_effects a b) = security b. Proof. effects_case. Qed.
Lemma effects_prefs a b : prefs (modal_effects a b) = prefs b. Proof. effects_case. Qed.
Lemma effects_alerts a b : alerts (env (modal_effects a b)) = alerts (env b). Proof. effects_case. Qed.
Lemma effects_toasts a b : toasts (env (modal_effects a b)) = toasts (env b). Proof. effects_case. Qed.
Lemma effects_live_urls a b : live_urls (env (modal_effects a b)) = live_urls (env b). Proof. effects_case. Qed.

Create Rewrite HintDb settings_rw.
#[export] Hint Rewrite effects_profile effects_linked effects_security effects_prefs
  effects_alerts effects_toasts effects_live_urls : settings_rw.

#[local] Arguments modal_effects : simpl never.

(** ** What the page shows *)

(** C11: On every reachable page, the preview image's source is an object
    URL that is alive (never one already revoked), and every linked
    account's row shows [****] and at most four digits. *)
Theorem settings_view_safe (s : State) :
  star settings_step initial_state s ->
  (forall u, avatar (profile s) = AvatarImage u -> In u (live_urls (env s))) /\
  Forall (fun r => exists d, row_digits r = "****" ++ d /\ (String.length d <= 4)%nat /\
                             all_digits (list_ascii_of_string d) = true) (accounts_view s).
Proof.
  intros Hr. destruct (reachable_settings_inv s Hr) as [(Hu & Ha & _) _]. split.
  - unfold avatar. intros u. rewrite Hu. unfold preview_urls.
    destruct (profilePhotoPreview (profile s)); [intros [= ->]; left; reflexivity | discriminate].
  - unfold accounts_view. apply Forall_map. revert Ha. apply Forall_impl.
    intros a Hl. exists (acc_last4 a). split; [reflexivity|].
    unfold last4_ok in Hl. apply andb_prop in Hl as [Hn Hd]. apply Nat.leb_le in Hn. auto.
Qed.

(** ** Dialogs *)

Lemma onEscape_closes s : any_open (onEscape s) = false.
Proof.
  unfold onEscape, any_open.
  destruct (addAccountOpen (linked s)) eqn:A, (removeAccountOpen (linked s)) eqn:R,
    (updatePwdOpen (security s)) eqn:U, (deleteOpen (security s)) eqn:D;
    cbn; rewrite ?A, ?R, ?U, ?D; reflexivity.
Qed.

Lemma onEscape_keeps s :
  profile (onEscape s) = profile s /\ prefs (onEscape s) = prefs s /\ env (onEscape s) = env s /\
  accounts (linked (onEscape s)) = accounts (linked s) /\
  newAccountBank (linked (onEscape s)) = newAccountBank (linked s) /\
  currentPassword (security (onEscape s)) = currentPassword (security s) /\
  newPassword (security (onEscape s)) = newPassword (security s) /\
  twoFactor (security (onEscape s)) = twoFactor (security s).
Proof.
  unfold onEscape. destruct (addAccountOpen _), (removeAccountOpen _), (updatePwdOpen _), (deleteOpen _);
    repeat split.
Qed.

(** C13: Escape closes every open dialog at once, releases the scroll
    lock, and keeps what was typed and everything else of the page. *)
Theorem escape_closes_dialogs (s : State) :
  settings_inv s ->
  exists s', dispatch Escape s = Some s' /\ any_open s' = false /\ overflow (env s') = "" /\
    profile s' = profile s /\ prefs s' = prefs s /\ accounts (linked s') = accounts (linked s) /\
    newAccountBank (linked s') = newAccountBank (linked s) /\
    newPassword (security s') = newPassword (security s) /\ alerts (env s') = alerts (env s).
Proof.
  intros [_ Ho]. exists (modal_effects s (onEscape s)). split; [reflexivity|].
  pose proof (onEscape_closes s) as Hc. destruct (onEscape_keeps s) as (Hp & Hq & He & Ha & Hb & _ & Hn & _).
  autorewrite with settings_rw. rewrite Hp, Hq, Ha, Hb, Hn, He.
  unfold modal_effects. rewrite Hc. unfold lock_of in Ho.
  destruct (any_open s); [rewrite any_open_set_overflow; repeat split; exact Hc|].
  split; [exact Hc|]. split; [rewrite He; exact Ho | repeat split].
Qed.

(** ** Linked bank accounts *)

(** C8: Adding an account with both fields filled appends one active
    account: its id is the slugged bank name and the time, its name the
    trimmed input, its digits exactly those typed; the modal closes and
    its fields are cleared, and nothing else changes. *)
Theorem add_account_appends (now : Z) (s : State) :
  data_inv s -> newAccountBank (linked s) <> "" -> newAccountLast4 (linked s) <> "" ->
  let s' := handleAddAccountSubmit now s in
  accounts (linked s') =
    (accounts (linked s) ++ [{| acc_id := new_account_id (newAccountBank (linked s)) now;
                                acc_bank := trim (newAccountBank (linked s));
                                acc_last4 := newAccountLast4 (linked s); acc_status := Active |}])%list /\
  addAccountOpen (linked s') = false /\ newAccountBank (linked s') = "" /\
  newAccountLast4 (linked s') = "" /\
  profile s' = profile s /\ security s' = security s /\ prefs s' = prefs s /\ env s' = env s.
Proof.
  intros (_ & _ & Hl) Hb H4. unfold handleAddAccountSubmit.
  apply String.eqb_neq in Hb, H4. rewrite Hb, H4. cbn.
  rewrite slice_last4_short by (apply last4_ok_short; exact Hl). repeat split.
Qed.

(** With the bank name or the digits empty, the submission does
    nothing at all. *)
Theorem add_account_blank (now : Z) (s : State) :
  newAccountBank (linked s) = "" \/ newAccountLast4 (linked s) = "" ->
  handleAddAccountSubmit now s = s.
Proof.
  unfold handleAddAccountSubmit. intros [H | H]; rewrite H; cbn; [reflexivity|].
  rewrite orb_true_r. reflexivity.
Qed.

Lemma remove_In (id : string) (l : list BankAccount) (a : BankAccount) :
  In a (filter (fun a => negb (String.eqb (acc_id a) id)) l) <-> In a l /\ acc_id a <> id.
Proof.
  rewrite filter_In, negb_true_iff, String.eqb_neq. reflexivity.
Qed.

(** C18: Asking to remove a listed account and confirming removes every
    account with that id and keeps all the others, and closes the
    confirmation. *)
Theorem remove_account_flow (id : string) (s : State) :
  existsb (fun a => String.eqb (acc_id a) id) (accounts (linked s)) = true -> id <> "" ->
  exists s', run [AskRemove id; ConfirmRemove] s = Some s' /\
    (forall a, In a (accounts (linked s')) <-> In a (accounts (linked s)) /\ acc_id a <> id) /\
    removeAccountOpen (linked s') = None /\ profile s' = profile s /\
    live_urls (env s') = live_urls (env s) /\ alerts (env s') = alerts (env s).
Proof.
  intros Hex Hid. apply String.eqb_neq in Hid.
  unfold run, dispatch. cbn [fold_left enabled]. rewrite Hex. cbn.
  autorewrite with settings_rw. cbn. rewrite Hid. cbn.
  eexists. split; [reflexivity|].
  split; [intros a|]; autorewrite with settings_rw; unfold handleRemoveAccountConfirm; cbn;
    autorewrite with settings_rw; [apply remove_In | auto].
Qed.

(** Whatever is typed or pasted in the last-four input, it keeps at
    most four characters, all digits; a value already of that shape is
    kept as it is. *)
Theorem sanitize_last4_spec (raw : string) :
  last4_ok (sanitize_last4 raw) = true /\
  (last4_ok raw = true -> sanitize_last4 raw = raw).
Proof.
  split; [apply sanitize_last4_ok|].
  unfold last4_ok, sanitize_last4. intros H. apply andb_prop in H as [Hn Hd].
  apply Nat.leb_le in Hn. rewrite (digits_of_id raw Hd). apply substring0_full, Hn.
Qed.

(** ** The password form *)

(** C9: The password form accepts exactly when all three fields are
    filled, the new password has at least eight characters and the
    confirmation repeats it. *)
Theorem password_check_none_iff (cur new conf : string) :
  password_check cur new conf = None <->
  cur <> "" /\ new <> "" /\ conf <> "" /\ (8 <= String.length new)%nat /\ new = conf.
Proof.
  unfold password_check.
  destruct (String.eqb_spec cur ""), (String.eqb_spec new ""), (String.eqb_spec conf ""); cbn [orb];
    try (split; [discriminate | intros (? & ? & ? & _); contradiction]).
  destruct (Nat.ltb_spec (String.length new) 8), (String.eqb_spec new conf); cbn [negb];
    split; intros Hp; try discriminate; try lia; intuition.
Qed.

(** C29: The current password is never compared with anything: any
    non-empty value is as good as any other. *)
Theorem password_current_unchecked (c1 c2 new conf : string) :
  c1 <> "" -> c2 <> "" -> password_check c1 new conf = password_check c2 new conf.
Proof.
  intros H1 H2. apply String.eqb_neq in H1, H2. unfold password_check. rewrite H1, H2. reflexivity.
Qed.

(** ** The profile photo *)

(** C10: A chosen file larger than 2 MB (2097152 bytes) is refused with
    an alert and nothing else changes; a file of at most that size
    becomes the preview under its new object URL, which is then the only
    one alive: the previous preview's URL is revoked. *)
Theorem photo_change_spec (f : File) (url : string) (s : State) :
  data_inv s ->
  let s' := handleProfilePhotoChange (Some f) url s in
  if (2097152 <? file_size f)%Z
  then s' = alert "File too large. Max size is 2MB." s
  else profilePhotoFile (profile s') = Some f /\ profilePhotoPreview (profile s') = Some url /\
       live_urls (env s') = [url] /\ firstName (profile s') = firstName (profile s).
Proof.
  intros (Hu & _ & _). cbn. unfold handleProfilePhotoChange.
  change max_photo_size with 2097152%Z.
  destruct (2097152 <? file_size f)%Z; [reflexivity|].
  unfold preview_urls in Hu.
  destruct (profilePhotoPreview (profile s)); cbn; rewrite Hu; cbn; rewrite ?String.eqb_refl; auto.
Qed.

(** ** Notifications *)

(** A notification switch flips its own setting and no other, and
    flipping it twice restores the settings. *)
Theorem toggle_notification_spec (k k' : NotifKey) (s : State) :
  notif_get k' (notifications (prefs (toggleNotification k s))) =
    (if NotifKey_beq k k' then negb (notif_get k' (notifications (prefs s)))
     else notif_get k' (notifications (prefs s))) /\
  notifications (prefs (toggleNotification k (toggleNotification k s))) = notifications (prefs s).
Proof.
  destruct s as [p l x [[a b c d e] lang] en].
  split; destruct k, k'; cbn; rewrite ?negb_involutive; reflexivity.
Qed.

(** ** Saving the profile *)

Definition blank (v : string) : bool := String.eqb (trim v) "".

(** C30: With names and email not blank after trimming, "Save Changes"
    sets the saving flag, which disables the button, and the 900 ms timer
    clears it and shows "Profile saved"; the profile fields are kept. *)
Theorem save_profile_flow (s : State) :
  isSavingProfile (profile s) = false ->
  blank (firstName (profile s)) = false -> blank (lastName (profile s)) = false ->
  blank (email (profile s)) = false ->
  exists s1 s2, dispatch SaveProfile s = Some s1 /\ isSavingProfile (profile s1) = true /\
    dispatch SaveProfile s1 = None /\ dispatch SaveTimer s1 = Some s2 /\
    isSavingProfile (profile s2) = false /\
    toasts (env s2) = (toasts (env s) ++ ["Profile saved"])%list /\ alerts (env s2) = alerts (env s) /\
    firstName (profile s2) = firstName (profile s) /\ lastName (profile s2) = lastName (profile s) /\
    email (profile s2) = email (profile s) /\ phone (profile s2) = phone (profile s).
Proof.
  unfold blank. intros Hs Hf Hl He. unfold dispatch, enabled, handle, handleSaveProfile.
  rewrite Hs, Hf, Hl, He. cbn [orb negb].
  set (s1 := modal_effects s (set_saving true s)).
  assert (H1 : isSavingProfile (profile s1) = true) by (unfold s1; autorewrite with settings_rw; reflexivity).
  exists s1, (modal_effects s1 (saveProfileDone s1)). rewrite H1. cbn [negb].
  do 4 (split; [reflexivity|]).
  unfold s1, saveProfileDone, toast, set_saving. autorewrite with settings_rw. cbn.
  autorewrite with settings_rw. cbn. repeat split.
Qed.

(** A blank first name, last name or email (white space only
    included) is refused with an alert, and the save does not start. *)
Theorem save_profile_blank (s : State) :
  blank (firstName (profile s)) = true \/ blank (lastName (profile s)) = true \/
  blank (email (profile s)) = true ->
  handleSaveProfile s = alert "Please fill name and email." s /\
  isSavingProfile (profile (handleSaveProfile s)) = isSavingProfile (profile s).
Proof.
  unfold blank, handleSaveProfile. intros [H | [H | H]]; rewrite H; rewrite ?orb_true_r; auto.
Qed.

(** ** Deleting the account *)


(** ** Initials *)

Definition no_space (x : string) : bool :=
  forallb (fun c => negb (Ascii.eqb c " "%char)) (list_ascii_of_string x).

Lemma split_space_app (x y : string) :
  no_space x = true -> split_space (x ++ String " " y) = x :: split_space y.
Proof.
  induction x as [|c x IH]; cbn; auto. intros H. apply andb_prop in H as [Hc Hx].
  apply negb_true_iff in Hc. rewrite Hc, IH by exact Hx. reflexivity.
Qed.

Lemma split_space_lead (b : ascii) (y : string) :
  b <> " "%char -> exists p ps, split_space (String b y) = String b p :: ps.
Proof.
  intros Hb. apply Ascii.eqb_neq in Hb. cbn. rewrite Hb.
  destruct (split_space y) as [|p ps]; eauto.
Qed.

(** The avatar of an account whose name has two words shows the
    first letter of each. *)
Theorem initials_two_words (a b : ascii) (x y : string) :
  a <> " "%char -> b <> " "%char -> no_space x = true ->
  initials (String a x ++ String " " (String b y)) = String a (String b EmptyString).
Proof.
  intros Ha Hb Hx. unfold initials.
  assert (Hax : no_space (String a x) = true).
  { cbn. apply Ascii.eqb_neq in Ha. rewrite Ha. exact Hx. }
  rewrite (split_space_app (String a x) _ Hax).
  destruct (split_space_lead b y Hb) as (p & ps & ->). reflexivity.
Qed.

(** ** Runs of the page *)

Module Witnesses.

(** A concrete state has the invariant: its conjuncts evaluate. *)
Ltac inv_concrete := unfold settings_inv, data_inv, lock_of, preview_urls, last4_ok; vm_compute; repeat split; repeat constructor.

Definition photo : File := {| file_name := "me.png"; file_size := 2097152 |}.

Definition demo_run : list Event :=
  [OpenAdd; BankChange "SBI Bank"; Last4Change "12-34 56"; AddSubmit 1700000000000;
   PhotoChosen (Some photo) "blob:1"; PhotoChosen (Some photo) "blob:2"; ToggleNotif MarketingEmails].

Definition final_of (es : list Event) : State :=
  match run es initial_state with Some s => s | None => initial_state end.

Lemma settings_reachable_inv_witness :
  run demo_run initial_state = Some (final_of demo_run) /\ settings_inv (final_of demo_run).
Proof.
  assert (H : run demo_run initial_state = Some (final_of demo_run)) by (vm_compute; reflexivity).
  split; [exact H|]. exact (settings_reachable_inv _ (settings_run_star _ _ _ H)).
Defined.

Definition adding : State := final_of [OpenAdd; BankChange "SBI Bank"; Last4Change "98x76"].

Lemma add_account_appends_witness :
  data_inv adding /\ newAccountBank (linked adding) <> "" /\ newAccountLast4 (linked adding) <> "" /\
  accounts (linked (handleAddAccountSubmit 1700000000000 adding)) =
    (initial_accounts ++ [{| acc_id := "sbi-bank-1700000000000"; acc_bank := "SBI Bank";
                             acc_last4 := "9876"; acc_status := Active |}])%list.
Proof.
  assert (Hi : data_inv adding) by inv_concrete.
  assert (Hb : newAccountBank (linked adding) <> "") by (vm_compute; discriminate).
  assert (Hl : newAccountLast4 (linked adding) <> "") by (vm_compute; discriminate).
  split; [exact Hi|]. split; [exact Hb|]. split; [exact Hl|].
  destruct (add_account_appends 1700000000000 adding Hi Hb Hl) as (-> & _).
  vm_compute. reflexivity.
Defined.

Lemma add_account_blank_witness :
  newAccountBank (linked initial_state) = "" /\ handleAddAccountSubmit 1700000000000 initial_state = initial_state.
Proof.
  split; [reflexivity|]. apply add_account_blank. left. reflexivity.
Defined.

Lemma remove_account_flow_witness :
  exists s', run [AskRemove "hdfc"; ConfirmRemove] initial_state = Some s' /\
    (forall a, In a (accounts (linked s')) <-> In a initial_accounts /\ acc_id a <> "hdfc").
Proof.
  assert (Hex : existsb (fun a => String.eqb (acc_id a) "hdfc") (accounts (linked initial_state)) = true)
    by reflexivity.
  assert (Hid : "hdfc" <> "") by discriminate.
  destruct (remove_account_flow "hdfc" initial_state Hex Hid) as (s' & Hr & Ha & _).
  exists s'. split; [exact Hr | exact Ha].
Defined.

Lemma password_current_unchecked_witness :
  "anything" <> "" /\ "hunter22" <> "" /\
  password_check "anything" "newpass123" "newpass123" = password_check "hunter22" "newpass123" "newpass123" /\
  password_check "anything" "newpass123" "newpass123" = None.
Proof.
  assert (H1 : "anything" <> "") by discriminate. assert (H2 : "hunter22" <> "") by discriminate.
  split; [exact H1|]. split; [exact H2|].
  split; [exact (password_current_unchecked _ _ "newpass123" "newpass123" H1 H2) | reflexivity].
Defined.

Lemma photo_change_spec_witness :
  data_inv initial_state /\
  profilePhotoPreview (profile (handleProfilePhotoChange (Some photo) "blob:1" initial_state)) = Some "blob:1".
Proof.
  assert (Hi : data_inv initial_state) by inv_concrete.
  split; [exact Hi|].
  pose proof (photo_change_spec photo "blob:1" initial_state Hi) as H. cbn zeta in H.
  destruct H as (_ & Hp & _). exact Hp.
Defined.

Lemma save_profile_flow_witness :
  exists s1 s2, dispatch SaveProfile initial_state = Some s1 /\ dispatch SaveTimer s1 = Some s2 /\
    toasts (env s2) = ["Profile saved"].
Proof.
  destruct (save_profile_flow initial_state eq_refl eq_refl eq_refl eq_refl)
    as (s1 & s2 & H1 & _ & _ & H2 & _ & Ht & _).
  exists s1, s2. split; [exact H1|]. split; [exact H2|]. exact Ht.
Defined.

Lemma save_profile_blank_witness :
  blank (firstName (profile (setFirstName "   " initial_state))) = true /\
  handleSaveProfile (setFirstName "   " initial_state) =
    alert "Please fill name and email." (setFirstName "   " initial_state).
Proof.
  assert (H : blank (firstName (profile (setFirstName "   " initial_state))) = true) by reflexivity.
  split; [exact H|]. apply save_profile_blank. left. exact H.
Defined.

Lemma initials_two_words_witness :
  "H"%char <> " "%char /\ "B"%char <> " "%char /\ no_space "DFC" = true /\ initials "HDFC Bank" = "HB".
Proof.
  assert (Ha : "H"%char <> " "%char) by discriminate. assert (Hb : "B"%char <> " "%char) by discriminate.
  assert (Hx : no_space "DFC" = true) by reflexivity.
  split; [exact Ha|]. split; [exact Hb|]. split; [exact Hx|].
  exact (initials_two_words "H" "B" "DFC" "ank" Ha Hb Hx).
Defined.

Lemma settings_view_safe_witness :
  star settings_step initial_state (final_of demo_run) /\
  avatar (profile (final_of demo_run)) = AvatarImage "blob:2" /\ In "blob:2" (live_urls (env (final_of demo_run))).
Proof.
  assert (H : run demo_run initial_state = Some (final_of demo_run)) by (vm_compute; reflexivity).
  pose proof (settings_run_star _ _ _ H) as Hs.
  assert (Ha : avatar (profile (final_of demo_run)) = AvatarImage "blob:2") by (vm_compute; reflexivity).
  split; [exact Hs|]. split; [exact Ha|].
  destruct (settings_view_safe _ Hs) as [Hv _]. exact (Hv _ Ha).
Defined.

(** Two dialogs opened from the keyboard, then Escape. *)
Definition two_open : State := final_of [OpenAdd; OpenDelete].

Lemma escape_closes_dialogs_witness :
  settings_inv two_open /\ any_open two_open = true /\
  exists s', dispatch Escape two_open = Some s' /\ any_open s' = false /\ overflow (env s') = "".
Proof.
  assert (Hi : settings_inv two_open) by inv_concrete.
  split; [exact Hi|]. split; [reflexivity|].
  destruct (escape_closes_dialogs two_open Hi) as (s' & Hd & Ha & Ho & _).
  exists s'. auto.
Defined.

(** Were [handleLogoUpload] wired to the file input, a second upload
    would leave the first preview's object URL alive: the invariant of
    [settings_inv] would fail. *)
Example logo_upload_leaks :
  let s := handleLogoUpload (Some photo) "blob:2" (handleLogoUpload (Some photo) "blob:1" initial_state) in
  live_urls (env s) = ["blob:1"; "blob:2"] /\ preview_urls s = ["blob:2"].
Proof. vm_compute. split; reflexivity. Qed.

(** A bank name of spaces only passes the emptiness check: the account
    is added with an empty name, and its id is two dashes and the time. *)
Example add_account_blank_bank_scenario :
  exists s, run [OpenAdd; BankChange "   "; Last4Change "1234"; AddSubmit 1700000000000] initial_state = Some s /\
    last (accounts (linked s)) {| acc_id := ""; acc_bank := ""; acc_last4 := ""; acc_status := Inactive |} =
      {| acc_id := "--1700000000000"; acc_bank := ""; acc_last4 := "1234"; acc_status := Active |}.
Proof. eexists. split; [vm_compute; reflexivity|]. vm_compute. reflexivity. Qed.

End Witnesses.

End SettingsProps.
