(* ===== verification/Charts.v ===== *)
(** * The dashboard widgets

    [src/components/dashboard/]: [DebitReductionChart.tsx] (three series
    of debt by period, a period select, a tooltip that shows each value's
    change from the previous point), [DebitComposition.tsx] (a pie of
    three debts and their total) and [StatsCards.tsx] (four constant
    cards).  The data are the source's constants; the chart library only
    draws them.  [toLocaleString()] depends on the runtime's locale, so
    the digit grouping is a parameter [toLocaleString] of the section. *)

From Stdlib Require Import String Ascii List Bool Arith ZArith Lia.
From S2P Require Import Prelude Decimal.
Import ListNotations.
Open Scope string_scope.

Module Charts.

(** [type Point], lines 23-30, without the enrichment fields. *)
Record Point := { name : string; personal : Z; car : Z; credit : Z }.

Definition pt n a b c : Point := {| name := n; personal := a; car := b; credit := c |}.

(** Lines 32-40. *)
Definition weekly : list Point :=
  [pt "Mon" 60000 250000 180000; pt "Tue" 82000 295000 210000; pt "Wed" 54000 240000 165000;
   pt "Thu" 96000 310000 225000; pt "Fri" 70000 270000 195000; pt "Sat" 115000 330000 245000;
   pt "Sun" 68000 260000 185000].

(** Lines 43-48. *)
Definition monthly : list Point :=
  [pt "Week 1" 400000 300000 230000; pt "Week 2" 385000 292000 225000;
   pt "Week 3" 370000 288000 221000; pt "Week 4" 355000 283000 218000].

(** Lines 50-63. *)
Definition yearly : list Point :=
  [pt "Jan" 600000 420000 260000; pt "Feb" 580000 410000 255000; pt "Mar" 560000 395000 250000;
   pt "Apr" 540000 380000 245000; pt "May" 520000 365000 240000; pt "Jun" 500000 350000 235000;
   pt "Jul" 480000 335000 230000; pt "Aug" 460000 320000 225000; pt "Sep" 440000 305000 222000;
   pt "Oct" 420000 295000 219000; pt "Nov" 400000 285000 216000; pt "Dec" 380000 275000 215000].

Inductive Period := Weekly | Monthly | Yearly.

(** The select's initial value, line 135. *)
Definition initial_period : Period := Monthly.

(** [chartData], lines 137-141. *)
Definition chartData (p : Period) : list Point :=
  match p with Weekly => weekly | Yearly => yearly | Monthly => monthly end.

(** A point with [__idx] and [payloadsRef], lines 28-29. *)
Record Enriched := { point : Point; idx : nat; payloadsRef : list Point }.

(** [enriched], line 144: [chartData.map((d, i) => ({ ...d, __idx: i,
    payloadsRef: chartData }))]. *)
Fixpoint enrich_from (all : list Point) (i : nat) (l : list Point) : list Enriched :=
  match l with
  | [] => []
  | d :: l' => {| point := d; idx := i; payloadsRef := all |} :: enrich_from all (S i) l'
  end.

Definition enriched (data : list Point) : list Enriched := enrich_from data 0 data.

(** The three lines, lines 186-212, by their [dataKey]. *)
Inductive DataKey := Personal | Car | Credit.

Definition value_at (k : DataKey) (p : Point) : Z :=
  match k with Personal => personal p | Car => car p | Credit => credit p end.

Definition series_name (k : DataKey) : string :=
  match k with Personal => "Personal Loan" | Car => "Car Loan" | Credit => "Credit Card" end.

Section Format.
Context (toLocaleString : Z -> string).

(** [formatRupee], lines 66-68. *)
Definition formatRupee (v : Z) : string := "₹" ++ toLocaleString v.

(** The delta of [CustomTooltip], lines 97-105: the text and whether it
    counts as an increase (red) rather than a decrease (green). *)
Definition tooltip_delta (k : DataKey) (e : Enriched) : string * bool :=
  if (0 <? idx e)%nat then
    match nth_error (payloadsRef e) (idx e - 1) with
    | Some prev =>
        let delta := (value_at k (point e) - value_at k prev)%Z in
        ((if (0 <? delta)%Z then "+" else "-") ++ "₹" ++ toLocaleString (Z.abs delta), (0 <? delta)%Z)
    | None => ("", false)
    end
  else ("", false).

(** One row of the tooltip, lines 88-127: series name, formatted value,
    delta text. *)
Definition tooltip_row (k : DataKey) (e : Enriched) : string * string * string :=
  (series_name k, formatRupee (value_at k (point e)), fst (tooltip_delta k e)).

(** The colour of the delta, lines 107-113, with [isDark] the page's
    dark-mode detection (lines 75-78, read from the DOM). *)
Definition delta_class (isDark : bool) (k : DataKey) (e : Enriched) : string :=
  let '(txt, inc) := tooltip_delta k e in
  if String.eqb txt "" then (if isDark then "text-slate-300" else "text-gray-500")
  else if inc then "text-red-400" else "text-emerald-400".

(** [CustomTooltip], lines 71-132: nothing unless the tooltip is active
    with a non-empty payload, else one row per line of the chart at the
    hovered point. *)
Definition tooltip (active : bool) (payload : list (DataKey * Enriched)) : option (list (string * string * string)) :=
  if negb active then None
  else match payload with
       | [] => None
       | _ => Some (map (fun '(k, e) => tooltip_row k e) payload)
       end.

End Format.

(** The payload recharts passes when the pointer is on point [i]: the
    three lines, in the order they are declared (lines 185-211). *)
Definition payload_at (data : list Point) (i : nat) : list (DataKey * Enriched) :=
  match nth_error (enriched data) i with
  | Some e => [(Personal, e); (Car, e); (Credit, e)]
  | None => []
  end.

(** The y-axis tick, line 178, [Math.round(value / 1000)] on an integer value: [floor(v/1000 + 1/2)]. *)
Definition round_thousands (v : Z) : Z := ((v + 500) / 1000)%Z.

(** Whether every tooltip of a series shows a decrease. *)
Definition all_decreasing (data : list Point) : bool :=
  forallb (fun e => forallb (fun k => negb (snd (tooltip_delta (fun _ => "") k e))) [Personal; Car; Credit])
          (enriched data).

(** ** [DebitComposition] *)

Record Slice := { s_name : string; s_value : Z; s_color : string }.

(** Lines 18-22. *)
Definition composition : list Slice :=
  [ {| s_name := "Personal Loan"; s_value := 350000; s_color := "#14B8A6" |};
    {| s_name := "Car Loan"; s_value := 280000; s_color := "#3B82F6" |};
    {| s_name := "Credit Card"; s_value := 215000; s_color := "#A855F7" |} ].

(** [total], lines 25-28: [data.reduce((sum, item) => sum + item.value, 0)]. *)
Definition total (data : list Slice) : Z := fold_left (fun sum item => (sum + s_value item)%Z) data 0%Z.

(** The centre label, lines 75-78.  The source holds the three
    characters [â‚¹] (the UTF-8 bytes of [₹] read as Windows-1252), not
    the rupee sign. *)
Definition composition_center (toLocaleString : Z -> string) (data : list Slice) : string :=
  "â‚¹" ++ toLocaleString (total data).

(** The legend, lines 82-95: a colour dot and the name of each debt. *)
Definition legend (data : list Slice) : list (string * string) := map (fun d => (s_color d, s_name d)) data.

(** The pie's cells, lines 48-55: [cell-<index>] filled with the colour. *)
Fixpoint cells_from (i : nat) (data : list Slice) : list (string * string) :=
  match data with
  | [] => []
  | d :: t => ("cell-" ++ Decimal.to_dec (Z.of_nat i), s_color d) :: cells_from (S i) t
  end.

Definition cells (data : list Slice) : list (string * string) := cells_from 0 data.

(** ** [StatsCards] *)

(** The cards, lines 13-50; [change] and [subtext] are optional. *)
Record Stat := { title : string; value : string; change : option string; subtext : option string }.

Definition stats : list Stat :=
  [ {| title := "Total Debt"; value := "₹8,45,000"; change := Some "-5.2%"; subtext := None |};
    {| title := "Monthly EMI"; value := "₹39,200"; change := Some "+2.1%"; subtext := None |};
    {| title := "AI Savings"; value := "₹3,500"; change := None; subtext := Some "per month" |};
    {| title := "Credit Score"; value := "752"; change := Some "+12 points"; subtext := None |} ].

(** The text lines of a card, lines 71-93: title, value, then the change
    and the subtext when present ([stat.change && ...]). *)
Definition card_lines (st : Stat) : list string :=
  [title st; value st] ++ match change st with Some c => [c] | None => [] end ++
  match subtext st with Some t => [t] | None => [] end.

(** The value of the "Total Debt" card, line 16, in Indian grouping. *)
Definition stats_total_debt : string :=
  match find (fun st => String.eqb (title st) "Total Debt") stats with Some st => value st | None => "" end.

(** Characters of a string other than the separators [,]. *)
Fixpoint drop_commas (s : string) : string :=
  match s with
  | EmptyString => EmptyString
  | String c t => if Ascii.eqb c ","%char then drop_commas t else String c (drop_commas t)
  end.

(** ** Properties *)

Lemma enrich_from_nth (all l : list Point) (j i : nat) :
  nth_error (enrich_from all j l) i =
  option_map (fun d => {| point := d; idx := j + i; payloadsRef := all |}) (nth_error l i).
Proof.
  revert j i. induction l as [|d l IH]; intros j [|i]; cbn; auto.
  - rewrite Nat.add_0_r. reflexivity.
  - rewrite IH. replace (S j + i)%nat with (j + S i)%nat by lia. reflexivity.
Qed.

(** The [i]-th enriched point is the [i]-th point, tagged with [i] and
    the whole series. *)
Lemma enriched_nth (data : list Point) (i : nat) (e : Enriched) :
  nth_error (enriched data) i = Some e ->
  exists d, nth_error data i = Some d /\ e = {| point := d; idx := i; payloadsRef := data |}.
Proof.
  unfold enriched. rewrite enrich_from_nth. destruct (nth_error data i) as [d|]; cbn; [|discriminate].
  intros [= <-]. eauto.
Qed.

(** C38: The tooltip at the first point of the selected series shows no
    change; at any later point it shows the change from the point just
    before it in the same series, with [+] and counted as an increase
    exactly when the value went up, and with [-] otherwise, a change of
    zero included. *)
Theorem tooltip_delta_spec (toLocaleString : Z -> string) (k : DataKey) (data : list Point) (i : nat) (e : Enriched) :
  nth_error (enriched data) i = Some e ->
  (i = 0%nat -> tooltip_delta toLocaleString k e = ("", false)) /\
  (forall j prev, i = S j -> nth_error data j = Some prev ->
     let delta := (value_at k (point e) - value_at k prev)%Z in
     tooltip_delta toLocaleString k e =
       ((if (0 <? delta)%Z then "+" else "-") ++ "₹" ++ toLocaleString (Z.abs delta), (0 <? delta)%Z)).
Proof.
  intros He. destruct (enriched_nth data i e He) as (d & Hd & ->). unfold tooltip_delta. cbn.
  split; [intros ->; reflexivity|]. intros j prev -> Hp. cbn. rewrite Nat.sub_0_r, Hp. reflexivity.
Qed.

Lemma tooltip_increase_format (f g : Z -> string) k e : snd (tooltip_delta f k e) = snd (tooltip_delta g k e).
Proof.
  unfold tooltip_delta. destruct (0 <? idx e)%nat; [|reflexivity].
  destruct (nth_error _ _); reflexivity.
Qed.


Lemma cells_from_colors (i : nat) (data : list Slice) : map snd (cells_from i data) = map s_color data.
Proof. revert i. induction data as [|d t IH]; intros i; cbn; [reflexivity | rewrite IH; reflexivity]. Qed.


(** C15: The tooltip only reads points that exist: on any point of any
    series, each of the three rows refers to that point, whose index lies
    within the series it carries, and for every point but the first the
    previous point it compares with is defined (never [undefined], so the
    change is always a number); an active tooltip shows exactly three
    rows. *)
Theorem tooltip_reads_in_range (toLocaleString : Z -> string) (data : list Point) (i : nat) :
  (i < length data)%nat ->
  (forall k e, In (k, e) (payload_at data i) ->
     idx e = i /\ payloadsRef e = data /\ (idx e < length (payloadsRef e))%nat /\
     (0 < idx e -> exists prev, nth_error (payloadsRef e) (idx e - 1) = Some prev)%nat) /\
  exists rows, tooltip toLocaleString true (payload_at data i) = Some rows /\ length rows = 3%nat.
Proof.
  intros Hi. destruct (nth_error (enriched data) i) as [e|] eqn:He.
  - destruct (enriched_nth data i e He) as (d & Hd & ->). unfold payload_at. rewrite He. split.
    + intros k e' Hin. assert (e' = {| point := d; idx := i; payloadsRef := data |}) as ->
        by (cbn in Hin; intuition congruence).
      cbn. repeat split; [exact Hi|]. intros Hpos.
      destruct (nth_error data (i - 1)) as [prev|] eqn:Hp; [eauto|].
      apply nth_error_None in Hp. lia.
    + eexists. split; reflexivity.
  - exfalso. unfold enriched in He. rewrite enrich_from_nth in He.
    destruct (nth_error data i) eqn:Hd; [discriminate|]. apply nth_error_None in Hd. lia.
Qed.

(** The y-axis ticks, [Math.round(value / 1000)], round to the
    nearest thousand with halves up. *)
Theorem round_thousands_spec (v : Z) :
  (1000 * round_thousands v <= v + 500 < 1000 * round_thousands v + 1000)%Z.
Proof. unfold round_thousands. pose proof (Z.div_mod (v + 500) 1000). pose proof (Z.mod_pos_bound (v + 500) 1000). lia. Qed.

(** The centre label of the composition does not start with the rupee
    sign that [formatRupee] and the cards use. *)
Lemma composition_center_not_rupee (toLocaleString : Z -> string) :
  substring 0 3 (composition_center toLocaleString composition) <> substring 0 3 (formatRupee toLocaleString 0).
Proof. vm_compute. discriminate. Qed.

Module Witnesses.

Lemma tooltip_delta_spec_witness :
  nth_error (enriched weekly) 1 = Some {| point := pt "Tue" 82000 295000 210000; idx := 1; payloadsRef := weekly |} /\
  tooltip_delta (fun z => Decimal.to_dec z) Personal
    {| point := pt "Tue" 82000 295000 210000; idx := 1; payloadsRef := weekly |} = ("+₹22000", true).
Proof.
  assert (He : nth_error (enriched weekly) 1 =
               Some {| point := pt "Tue" 82000 295000 210000; idx := 1; payloadsRef := weekly |}) by reflexivity.
  split; [exact He|].
  destruct (tooltip_delta_spec (fun z => Decimal.to_dec z) Personal weekly 1 _ He) as [_ H].
  rewrite (H 0%nat (pt "Mon" 60000 250000 180000) eq_refl eq_refl). vm_compute. reflexivity.
Defined.


Lemma tooltip_reads_in_range_witness :
  (3 < length weekly)%nat /\
  tooltip (fun z => Decimal.to_dec z) true (payload_at weekly 3) =
    Some [("Personal Loan", "₹96000", "+₹42000"); ("Car Loan", "₹310000", "+₹70000");
          ("Credit Card", "₹225000", "+₹60000")].
Proof.
  assert (Hi : (3 < length weekly)%nat) by (cbn; lia).
  split; [exact Hi|].
  destruct (tooltip_reads_in_range (fun z => Decimal.to_dec z) weekly 3 Hi) as (_ & rows & Hr & _).
  rewrite Hr. vm_compute in Hr. symmetry. exact Hr.
Defined.
End Witnesses.

End Charts.
